(** * Open-Agent-Studio: the task execution engine and its observer

    A shallow embedding of the three Python classes that make up the
    execution core of the repository,

      - [AgentOrchestrator]  (src/agent_orchestrator.py): the sequential
        step driver [_execute_plan], the recovery routine [_self_debug]
        and the workflow generator [_generate_workflow];
      - [LiveCVObserver]     (src/tutorial_agent/live_cv_observer.py): the
        observation loop, its history and its pattern table;
      - [DemoExecutor]       (src/tutorial_agent/executor.py): the
        interpreter of ["command:parameter"] action strings,

    followed by the properties of the specification that concern them.

    Conventions.  Python objects that are mutated in place become explicit
    state that every function takes and returns.  The collaborators the
    code calls but does not implement (the MCP tool clients, the Anthropic
    client, the clock, mss, YOLO, pyautogui, subprocess) are oracles over an
    abstract [World]: a call consumes a world and yields an outcome and the
    next world, so that an outcome may depend on everything that happened
    before.  A raised Python exception is the [Raise] outcome of [res].
    Calls and notifications are appended to a trace, most recent last. *)

From stdpp Require Import gmap strings list fin_maps pretty.
From Stdlib Require Import QArith Ascii.

Set Warnings "-register-all".
#[local] Open Scope string_scope.
#[local] Open Scope list_scope.
#[local] Open Scope nat_scope.

(** ** Python values and outcomes *)

Module Py.

(** The values that travel through [json.loads] / [json.dumps] and the tool
    arguments: [None], booleans, integers, decimal numbers (kept as the
    rational their literal denotes; no arithmetic is done on them),
    strings, lists and string-keyed dictionaries. *)
Inductive pyval : Type :=
| PNone
| PBool (b : bool)
| PInt (z : Z)
| PFloat (q : Q)
| PStr (s : string)
| PList (l : list pyval)
| PDict (d : gmap string pyval).

(** [Dict[str, Any]] *)
Abbreviation dict := (gmap string pyval).

(** An awaited call either returns or raises; [e] is [str(e)]. *)
Inductive res (A : Type) : Type :=
| Ret (a : A)
| Raise (e : string).
Arguments Ret {A} a.
Arguments Raise {A} e.

(** [d.update(other)]: the keys of [other] overwrite, the rest of [d] stays. *)
Definition dict_update (d other : dict) : dict := other ∪ d.

(** What comes back from [client.messages.create] followed by the
    extraction of the fenced block and [json.loads]: the request itself
    failed (or the response carried no text block), the text is not JSON,
    or it is JSON and decodes to a value of [A].  The planning request is
    read at the type of the object its prompt asks for; the requests of
    the diagnostic service are read at [decoded], which also holds the
    JSON values that are not objects. *)
Inductive reply (A : Type) : Type :=
| ApiError (e : string)
| NotJson (content : string)
| Json (a : A).
Arguments ApiError {A} e.
Arguments NotJson {A} content.
Arguments Json {A} a.

(** A JSON value that is not an object: [null], [true] or [false], a
    number, a string or an array. *)
Inductive json_other : Type :=
| JNull
| JBool (b : bool)
| JInt (z : Z)
| JFloat (q : Q)
| JString (s : string)
| JArray (items : list pyval).

(** What [json.loads] returns for a text that is JSON: an object, read
    field by field at the types of the format the prompt asks for (a key
    may be missing), or a value that is not an object. *)
Inductive decoded (A : Type) : Type :=
| Object (a : A)
| Other (v : json_other).
Arguments Object {A} a.
Arguments Other {A} v.

(** A reply whose JSON, if any, is an object. *)
Definition objects {A : Type} (r : reply A) : reply (decoded A) :=
  match r with
  | ApiError e => ApiError e
  | NotJson content => NotJson content
  | Json a => Json (Object a)
  end.

(** [type(v).__name__] *)
Definition type_name (v : json_other) : string :=
  match v with
  | JNull => "NoneType"
  | JBool _ => "bool"
  | JInt _ => "int"
  | JFloat _ => "float"
  | JString _ => "str"
  | JArray _ => "list"
  end.

(** [key in v] for a string [key] and a value that is not a dictionary:
    an array holds the key when one of its items is that string, a string
    when the key is a substring of it; the other values are not iterable
    and the test raises [TypeError], which [None] stands for. *)
Definition str_in (key : string) (v : json_other) : option bool :=
  match v with
  | JArray items =>
      Some (existsb (fun item => match item with
                                 | PStr s => bool_decide (s = key)
                                 | _ => false
                                 end) items)
  | JString s =>
      Some (match String.index 0 key s with Some _ => true | None => false end)
  | JNull | JBool _ | JInt _ | JFloat _ => None
  end.

(** [str(e)] for the [AttributeError] of [v.name]. *)
Definition no_attribute (v : json_other) (name : string) : string :=
  "'" +:+ type_name v +:+ "' object has no attribute '" +:+ name +:+ "'".

End Py.
Import Py.

(** ** src/agent_orchestrator.py *)

Module Orchestrator.

(** One element of [plan["steps"]].  [args] is the only key the driver reads
    with [.get]; the others are indexed and are present in every plan the
    planner's format describes. *)
Record step_data : Type := {
  sd_step_number : Z;
  sd_description : string;
  sd_tool : string;
  sd_tool_name : string;
  sd_args : option dict
}.

Record plan : Type := {
  task_summary : string;
  task_type : option string;
  steps : list step_data
}.

(** [@dataclass class TaskStep] *)
Record TaskStep : Type := {
  description : string;
  tool : string;
  args : dict;
  status : string;          (* pending, running, completed, error *)
  result : option pyval;
  error : option string;
  screenshot : option string;
  timestamp : option Z
}.

Definition set_status (s : string) (t : TaskStep) : TaskStep :=
  {| description := description t; tool := tool t; args := args t;
     status := s; result := result t; error := error t;
     screenshot := screenshot t; timestamp := timestamp t |}.

Definition set_result (v : pyval) (t : TaskStep) : TaskStep :=
  {| description := description t; tool := tool t; args := args t;
     status := status t; result := Some v; error := error t;
     screenshot := screenshot t; timestamp := timestamp t |}.

Definition set_error (e : string) (t : TaskStep) : TaskStep :=
  {| description := description t; tool := tool t; args := args t;
     status := status t; result := result t; error := Some e;
     screenshot := screenshot t; timestamp := timestamp t |}.

Definition set_args (a : dict) (t : TaskStep) : TaskStep :=
  {| description := description t; tool := tool t; args := a;
     status := status t; result := result t; error := error t;
     screenshot := screenshot t; timestamp := timestamp t |}.

(** An element of the [results] list of [_execute_plan]:
    [{"step": ..., "success": True, "result": ...}]. *)
Record step_result : Type := {
  step : Z;
  success : bool;
  sr_result : pyval
}.

(** The dictionary [_execute_plan] returns. *)
Record task_result : Type := {
  tr_success : bool;
  tr_steps : list step_result;
  tr_task_summary : string
}.

(** The fix suggestion [_self_debug] asks for; a key may be missing. *)
Record fix_suggestion : Type := {
  diagnosis : option string;
  fix_strategy : option string;
  new_args : option dict;
  alternative_tool : option string;
  explanation : option string
}.

(** What [_self_debug] puts in its prompt. *)
Record debug_request : Type := {
  dr_failed_step : TaskStep;
  dr_previous_results : list step_result;
  dr_plan : plan;
  dr_history : list (string * string)
}.

Inductive event : Type :=
| EvThinkingStart (msg : string)                   (* self.on_thinking_start(..) *)
| EvThinkingEnd                                    (* self.on_thinking_end() *)
| EvPlan (history : list (string * string))        (* the planner's messages.create(..) *)
| EvStepUpdate (descr st : string)                 (* self.on_step_update(..) *)
| EvError (title detail : string)                  (* self.on_error(..) *)
| EvCallTool (client tool_name : string) (a : dict)  (* client.call_tool(..) *)
| EvDiagnose (rq : debug_request).                 (* self.client.messages.create(..) *)

Definition is_call_tool (e : event) : bool :=
  match e with EvCallTool _ _ _ => true | _ => false end.

(** A node, a connection and the workflow of [_generate_workflow]. *)
Record node : Type := {
  id : string;
  name : string;
  type : string;
  custom_data : string          (* node["custom"]["Data"] *)
}.

Record connection : Type := {
  conn_out : string * nat;
  conn_in : string * nat
}.

Record metadata : Type := {
  md_name : string;
  md_created : Z;
  md_task_type : string;
  md_success_rate : string
}.

Record workflow : Type := {
  nodes : gmap string node;
  connections : list connection;
  wf_metadata : metadata
}.

(** What one call of [process_user_message] produced: the text it returns,
    and, when a plan was run, the result dictionary and the workflow stored
    under its ["workflow"] key (if any). *)
Record answer : Type := {
  response : string;
  executed : option (task_result * option workflow)
}.

(** The collaborators of an orchestrator object and the part of its
    configuration that a run does not change. *)
Class Collaborators (World : Type) : Type := {
  (** the keys of [self.mcp_clients] that hold a client *)
  mcp_clients : gset string;
  (** [await client.call_tool(tool_name, args)] on the client stored under a key *)
  call_tool : string -> string -> dict -> World -> res pyval * World;
  datetime_now : World -> Z * World;
  (** the planning request of [_understand_and_plan], decoded *)
  plan_create : list (string * string) -> World -> reply plan * World;
  (** the failure-diagnosis request of [_self_debug], decoded *)
  messages_create : debug_request -> World -> reply (decoded fix_suggestion) * World;
  (** [json.dumps] *)
  json_dumps : pyval -> string;
  (** whether the UI callbacks are set *)
  on_thinking_start : bool;
  on_thinking_end : bool;
  on_step_update : bool;
  on_error : bool
}.

Section WithCollaborators.

Context {World : Type} {C : Collaborators World}.

(** The orchestrator object. *)
Record orch : Type := {
  world : World;
  conversation_history : list (string * string);
  task_steps : list TaskStep;
  trace : list event
}.

Definition set_world (w : World) (o : orch) : orch :=
  {| world := w; conversation_history := conversation_history o;
     task_steps := task_steps o; trace := trace o |}.

Definition set_task_steps (ts : list TaskStep) (o : orch) : orch :=
  {| world := world o; conversation_history := conversation_history o;
     task_steps := ts; trace := trace o |}.

Definition log (e : event) (o : orch) : orch :=
  {| world := world o; conversation_history := conversation_history o;
     task_steps := task_steps o; trace := trace o ++ [e] |}.

(** [if self.on_xxx: self.on_xxx(..)] *)
Definition notify (callback_set : bool) (e : event) (o : orch) : orch :=
  if callback_set then log e o else o.

(** Lines 189-199: the client a step's [tool] selects. *)
Definition select_client (tool_key : string) : res string :=
  if bool_decide (tool_key = "desktop" ∨ tool_key = "browser" ∨ tool_key = "vision") then
    if bool_decide (tool_key ∈ mcp_clients) then Ret tool_key
    else Raise ("MCP client for '" +:+ tool_key +:+ "' not available")
  else Raise ("Unknown tool type: " +:+ tool_key).

(** Lines 188-203: the body of the [try] up to the tool call. *)
Definition invoke (sd : step_data) (o : orch) : res pyval * orch :=
  match select_client (sd_tool sd) with
  | Raise e => (Raise e, o)
  | Ret c =>
      let a := default ∅ (sd_args sd) in
      let '(r, w) := call_tool c (sd_tool_name sd) a (world o) in
      (r, log (EvCallTool c (sd_tool_name sd) a) (set_world w o))
  end.

(** Lines 253-260: the best-effort screenshot before the diagnosis. *)
Definition take_debug_screenshot (o : orch) : option pyval * orch :=
  if bool_decide ("desktop" ∈ mcp_clients) then
    let '(r, w) := call_tool "desktop" "take_screenshot" ∅ (world o) in
    let o' := log (EvCallTool "desktop" "take_screenshot" ∅) (set_world w o) in
    match r with
    | Ret shot => (Some shot, o')
    | Raise _ => (None, o')             (* except: pass *)
    end
  else (None, o).

(** Lines 310-331: the dispatch on [fix["fix_strategy"]], inside the [try].
    A missing key raises [KeyError]. *)
Definition apply_fix (f : fix_suggestion) (failed_step : TaskStep) : res bool * TaskStep :=
  match fix_strategy f with
  | None => (Raise "'fix_strategy'", failed_step)
  | Some strategy =>
      if bool_decide (strategy = "retry") then
        (Ret false, failed_step)
      else if bool_decide (strategy = "modify_args") then
        match new_args f with
        | None => (Raise "'new_args'", failed_step)
        | Some na =>
            (Ret false, set_args (dict_update (args failed_step) na) failed_step)
        end
      else if bool_decide (strategy = "alternative_approach") then
        match alternative_tool f with
        | None => (Raise "'alternative_tool'", failed_step)
        | Some _ => (Ret false, failed_step)
        end
      else (Ret false, failed_step)
  end.

(** Lines 301-335: the [try] with its [except Exception: return False]. *)
Definition parse_and_apply (r : reply (decoded fix_suggestion)) (failed_step : TaskStep)
  : res bool * TaskStep :=
  match r with
  | ApiError e => (Raise e, failed_step)     (* raised before the [try] *)
  | NotJson _ => (Ret false, failed_step)
  | Json (Object f) =>
      match apply_fix f failed_step with
      | (Ret b, s) => (Ret b, s)
      | (Raise _, s) => (Ret false, s)
      end
  | Json (Other _) =>
      (* [fix["fix_strategy"]] raises [TypeError], inside the [try] *)
      (Ret false, failed_step)
  end.

(** Lines 262-335: everything after the screenshot.  [screenshot_result]
    is bound but not read again. *)
Definition diagnose_and_fix (screenshot_result : option pyval)
    (failed_step : TaskStep) (p : plan) (previous_results : list step_result)
    (o : orch) : res bool * TaskStep * orch :=
  let rq := {| dr_failed_step := failed_step;
               dr_previous_results := previous_results;
               dr_plan := p;
               dr_history := conversation_history o |} in
  let '(r, w) := messages_create rq (world o) in
  let o' := log (EvDiagnose rq) (set_world w o) in
  let '(b, s) := parse_and_apply r failed_step in
  (b, s, o').

Definition _self_debug (failed_step : TaskStep) (p : plan)
    (previous_results : list step_result) (o : orch)
  : res bool * TaskStep * orch :=
  let '(screenshot_result, o1) := take_debug_screenshot o in
  diagnose_and_fix screenshot_result failed_step p previous_results o1.

(** The locals of [_execute_plan] that outlive one iteration. *)
Record locals : Type := {
  results : list step_result;
  all_success : bool
}.

(** How an iteration of the [for] loop ends: it falls through to the next
    step, hits [break], or an exception leaves [_execute_plan]. *)
Inductive flow : Type :=
| Next
| Break
| Abort (e : string).

(** Lines 171-185: the step object is created, announced and set running.
    The object is appended to [self.task_steps] at once and mutated
    afterwards; nothing reads the list before the iteration ends, so the
    embedding stores the object when the iteration is over ([finish]). *)
Definition begin_step (sd : step_data) (o : orch) : TaskStep * orch :=
  let '(now, w) := datetime_now (world o) in
  let t := {| description := sd_description sd; tool := sd_tool sd;
              args := default ∅ (sd_args sd); status := "pending";
              result := None; error := None; screenshot := None;
              timestamp := Some now |} in
  (set_status "running" t,
   notify on_step_update (EvStepUpdate (sd_description sd) "running") (set_world w o)).

Definition finish (t : TaskStep) (o : orch) : orch :=
  set_task_steps (task_steps o ++ [t]) o.

(** Lines 219-225: the step is marked and the failure announced. *)
Definition mark_failed (e : string) (t : TaskStep) (o : orch) : TaskStep * orch :=
  let t := set_error e (set_status "error" t) in
  (t, notify on_step_update (EvStepUpdate (description t) "error") o).

(** Lines 227-239: the recovery attempt and what the driver makes of it.
    [all_success] was cleared on line 221. *)
Definition recover (e : string) (t : TaskStep) (p : plan) (lc : locals)
    (o : orch) : flow * locals * orch :=
  match _self_debug t p (results lc) o with
  | (Ret true, t', o') =>
      let t' := set_status "completed" t' in
      (Next,
       {| results := results lc; all_success := true |},
       finish t' (notify on_step_update
                    (EvStepUpdate ("✓ Fixed: " +:+ description t') "completed") o'))
  | (Ret false, t', o') =>
      (Break,
       {| results := results lc; all_success := false |},
       finish t' (notify on_error (EvError ("Failed: " +:+ description t') e) o'))
  | (Raise x, t', o') =>
      (Abort x, {| results := results lc; all_success := false |}, finish t' o')
  end.

(** Lines 170-239: one iteration of the loop. *)
Definition exec_step (p : plan) (sd : step_data) (lc : locals) (o : orch)
  : flow * locals * orch :=
  let '(t, o1) := begin_step sd o in
  match invoke sd o1 with
  | (Ret v, o2) =>
      let t := set_status "completed" (set_result v t) in
      let o3 := notify on_step_update (EvStepUpdate (description t) "completed") o2 in
      (Next,
       {| results := results lc ++
            [{| step := sd_step_number sd; success := true; sr_result := v |}];
          all_success := all_success lc |},
       finish t o3)
  | (Raise e, o2) =>
      let '(t, o3) := mark_failed e t o2 in
      recover e t p lc o3
  end.

(** The [for step_data in plan["steps"]] loop. *)
Fixpoint exec_steps (p : plan) (sds : list step_data) (lc : locals) (o : orch)
  : flow * locals * orch :=
  match sds with
  | [] => (Next, lc, o)
  | sd :: rest =>
      match exec_step p sd lc o with
      | (Next, lc', o') => exec_steps p rest lc' o'
      | stop => stop
      end
  end.

Definition init_locals : locals := {| results := []; all_success := true |}.

(** Lines 162-245. *)
Definition _execute_plan (p : plan) (o : orch) : res task_result * orch :=
  match exec_steps p (steps p) init_locals (set_task_steps [] o) with
  | (Abort e, _, o') => (Raise e, o')
  | (_, lc, o') =>
      (Ret {| tr_success := all_success lc;
              tr_steps := results lc;
              tr_task_summary := task_summary p |}, o')
  end.

(** Lines 383-393. *)
Definition node_type_mapping : gmap string string :=
  list_to_map [("take_screenshot", "nodes.widget.ImageNode");
               ("ocr_text", "nodes.widget.ImageNode");
               ("click", "nodes.basic.BasicNodeA");
               ("type_text", "nodes.basic.BasicNodeB");
               ("navigate", "nodes.basic.BasicNodeA")].

Definition _map_tool_to_node_type (tool_key : string) (a : dict) : string :=
  default "nodes.basic.BasicNodeA" (node_type_mapping !! tool_key).

(** [f"node_{i}"] *)
Definition node_id (i : nat) : string := "node_" +:+ pretty i.

(** Lines 350-360. *)
Definition make_node (i : nat) (t : TaskStep) : node :=
  {| id := node_id i;
     name := description t;
     type := _map_tool_to_node_type (tool t) (args t);
     custom_data :=
       json_dumps (PDict (dict_update {["type" := PStr (tool t)]} (args t))) |}.

(** Lines 345-368: the loop over [enumerate(self.task_steps)], from index
    [i] on; a step that is not completed is passed over. *)
Fixpoint workflow_items (i : nat) (ts : list TaskStep) : list node * list connection :=
  match ts with
  | [] => ([], [])
  | t :: rest =>
      let '(ns, cs) := workflow_items (S i) rest in
      if bool_decide (status t = "completed") then
        (make_node i t :: ns,
         (if bool_decide (0 < i)
          then [{| conn_out := (node_id (i - 1), 0); conn_in := (node_id i, 0) |}]
          else []) ++ cs)
      else (ns, cs)
  end.

(** [{node["id"]: node for node in nodes}]: a later node replaces an
    earlier one with the same id. *)
Definition index_nodes (ns : list node) : gmap string node :=
  foldl (fun m n => <[id n := n]> m) ∅ ns.

(** Lines 337-381. *)
Definition _generate_workflow (p : plan) (r : task_result) (o : orch) : workflow * orch :=
  let '(ns, cs) := workflow_items 0 (task_steps o) in
  let '(now, w) := datetime_now (world o) in
  ({| nodes := index_nodes ns;
      connections := cs;
      wf_metadata := {| md_name := task_summary p;
                        md_created := now;
                        md_task_type := default "unknown" (task_type p);
                        md_success_rate := "100%" |} |},
   set_world w o).

Definition nl : string := String (Ascii.ascii_of_nat 10) "".

(** Lines 395-410. *)
Definition _format_response (r : task_result) (wf : option workflow) : string :=
  if tr_success r then
    "✓ **Task completed successfully!**" +:+ nl +:+ nl +:+
    "**Summary:** " +:+ tr_task_summary r +:+ nl +:+ nl +:+
    "**Steps executed:** " +:+ pretty (length (tr_steps r)) +:+ nl +:+ nl +:+
    match wf with
    | Some _ => "I've saved this as a reusable workflow. You can run it anytime or edit it in the node graph."
    | None => ""
    end
  else
    "✗ **Task partially completed**" +:+ nl +:+ nl +:+
    "Completed " +:+ pretty (length (filter (fun s => success s = true) (tr_steps r))) +:+
    " of " +:+ pretty (length (tr_steps r)) +:+ " steps." +:+ nl +:+ nl +:+
    "Some steps failed. Would you like me to try a different approach?".

Definition say (role content : string) (o : orch) : orch :=
  {| world := world o;
     conversation_history := conversation_history o ++ [(role, content)];
     task_steps := task_steps o; trace := trace o |}.

(** Lines 94-160: the planner.  A request that fails raises; a text that
    is not JSON gives [None]. *)
Definition _understand_and_plan (message : string) (o : orch) : res (option plan) * orch :=
  let '(r, w) := plan_create (conversation_history o) (world o) in
  let o' := log (EvPlan (conversation_history o)) (set_world w o) in
  match r with
  | ApiError e => (Raise e, o')
  | NotJson _ => (Ret None, o')
  | Json p => (Ret (Some p), o')
  end.

(** Lines 52-92. *)
Definition process_user_message (message : string) (o : orch) : res answer * orch :=
  let o := say "user" message o in
  let o := notify on_thinking_start (EvThinkingStart "Understanding your request...") o in
  match _understand_and_plan message o with
  | (Raise e, o) => (Raise e, o)
  | (Ret None, o) =>
      (Ret {| response := "I'm sorry, I couldn't understand your request. Could you rephrase it?";
              executed := None |}, o)
  | (Ret (Some p), o) =>
      match _execute_plan p o with
      | (Raise e, o) => (Raise e, o)
      | (Ret r, o) =>
          let '(wf, o) :=
            if tr_success r
            then let '(wf, o) := _generate_workflow p r o in (Some wf, o)
            else (None, o) in
          let o := notify on_thinking_end EvThinkingEnd o in
          let text := _format_response r wf in
          (Ret {| response := text; executed := Some (r, wf) |},
           say "assistant" text o)
      end
  end.

End WithCollaborators.

Arguments orch World : clear implicits.

(** *** Vocabulary of the properties *)

Definition completed (t : TaskStep) : Prop := status t = "completed".

(** The entry a step leaves in [results]: one when a result was stored on
    the step object, none otherwise. *)
Definition entry_of (x : step_data * TaskStep) : option step_result :=
  (fun v => {| step := sd_step_number x.1; success := true; sr_result := v |})
    <$> result x.2.

(** A fix object that lacks a key the dispatch of [_self_debug] reads:
    the strategy, or what its strategy needs. *)
Definition lacks_a_key (f : fix_suggestion) : Prop :=
  fix_strategy f = None ∨
  (fix_strategy f = Some "modify_args" ∧ new_args f = None) ∨
  (fix_strategy f = Some "alternative_approach" ∧ alternative_tool f = None).

(** A task result that has an entry for every step of the plan. *)
Definition enumerates_every_step (p : plan) (r : task_result) : Prop :=
  Forall (fun sd => Exists (fun x => step x = sd_step_number sd) (tr_steps r))
         (steps p).

(** Every connection of a workflow joins two nodes of its node map. *)
Definition well_connected (wf : workflow) : Prop :=
  Forall (fun c => is_Some (nodes wf !! (conn_out c).1) ∧
                   is_Some (nodes wf !! (conn_in c).1))
         (connections wf).

End Orchestrator.

(** ** src/tutorial_agent/live_cv_observer.py *)

Module Observer.

(** One detection, as [_detect_ui_elements] builds it from a YOLO box. *)
Record element : Type := {
  el_type : string;
  bbox : Q * Q * Q * Q;
  el_confidence : Q;
  center : Z * Z
}.

(** A box of [results.boxes], with its class already looked up in
    [results.names]. *)
Record box : Type := {
  cls_name : string;
  xyxy : Q * Q * Q * Q;
  conf : Q
}.

(** [@dataclass class ObservationResult] *)
Record ObservationResult : Type := {
  timestamp : Z;
  screenshot_b64 : string;
  detected_elements : list element;
  claude_analysis : string;
  suggested_next_action : option string;
  confidence : Q;
  debug_suggestions : list string
}.

(** The dictionary [_claude_analyze_screen] returns, decoded from the
    response or built by the [except] branch; a key may be missing, and a
    [null] next action reads as [None]. *)
Record analysis : Type := {
  understanding : option string;
  state : option string;
  next_action : option string;
  an_confidence : option Q;
  issues_detected : option (list string);
  an_debug_suggestions : option (list string);
  patterns_observed : option (list string)
}.

(** A value of [self.pattern_db]. *)
Record pattern_entry : Type := {
  first_seen : Z;
  count : nat;
  contexts : list pyval
}.

(** What the screen-understanding prompt is built from: the image, the
    first ten detections and, for the last three observations, the time
    and the first hundred characters of the analysis. *)
Record analysis_request : Type := {
  rq_image : string;
  rq_elements : list element;
  rq_history : list (Z * string)
}.

Inductive event : Type :=
| EvGrab                                    (* mss_instance.grab(monitor) *)
| EvDetect                                  (* self.yolo_model(screenshot) *)
| EvAnalyze (rq : analysis_request)         (* self.claude.messages.create(..) *)
| EvObservation (obs : ObservationResult)   (* self.on_observation(..) *)
| EvSuggestion (action : string)            (* self.on_suggestion(..) *)
| EvErrorDetected (suggestions : list string)  (* self.on_error_detected(..) *)
| EvSleep (seconds : Q).                    (* asyncio.sleep(..) *)

Class Collaborators (World Screenshot : Type) : Type := {
  observation_interval : Q;
  (** [_capture_screen] on the mss instance *)
  grab : World -> res Screenshot * World;
  (** [self.yolo_model], when ultralytics could be loaded: inference and
      the reading of the boxes *)
  yolo_model : option (Screenshot -> World -> res (list box) * World);
  (** [_screenshot_to_base64] (cv2 and base64) *)
  screenshot_to_base64 : Screenshot -> res string;
  (** the screen-understanding request, decoded *)
  claude_create : analysis_request -> World -> reply (decoded analysis) * World;
  datetime_now : World -> Z * World;
  on_observation : bool;
  on_suggestion : bool;
  on_error_detected : bool
}.

Section WithCollaborators.

Context {World Screenshot : Type} {C : Collaborators World Screenshot}.

(** The observer object. *)
Record observer : Type := {
  world : World;
  observing : bool;
  observation_history : list ObservationResult;
  pattern_db : gmap string pattern_entry;
  trace : list event
}.

(** [LiveCVObserver.__init__], lines 49-56. *)
Definition init (w : World) : observer :=
  {| world := w; observing := false; observation_history := [];
     pattern_db := ∅; trace := [] |}.

Definition set_world (w : World) (o : observer) : observer :=
  {| world := w; observing := observing o;
     observation_history := observation_history o;
     pattern_db := pattern_db o; trace := trace o |}.

Definition set_observing (b : bool) (o : observer) : observer :=
  {| world := world o; observing := b;
     observation_history := observation_history o;
     pattern_db := pattern_db o; trace := trace o |}.

Definition set_history (h : list ObservationResult) (o : observer) : observer :=
  {| world := world o; observing := observing o;
     observation_history := h;
     pattern_db := pattern_db o; trace := trace o |}.

Definition set_pattern_db (db : gmap string pattern_entry) (o : observer) : observer :=
  {| world := world o; observing := observing o;
     observation_history := observation_history o;
     pattern_db := db; trace := trace o |}.

Definition log (e : event) (o : observer) : observer :=
  {| world := world o; observing := observing o;
     observation_history := observation_history o;
     pattern_db := pattern_db o; trace := trace o ++ [e] |}.

Definition notify (callback_set : bool) (e : event) (o : observer) : observer :=
  if callback_set then log e o else o.

(** [int(x)] on a number: truncation towards zero. *)
Definition py_int (q : Q) : Z := Z.quot (Qnum q) (Zpos (Qden q)).

(** Lines 180-188. *)
Definition element_of_box (b : box) : element :=
  let '(x0, y0, x1, y1) := xyxy b in
  {| el_type := cls_name b;
     bbox := xyxy b;
     el_confidence := conf b;
     center := (py_int ((x0 + x1) / 2), py_int ((y0 + y1) / 2)) |}.

(** Lines 168-194: a detector that is absent or raises gives no elements. *)
Definition _detect_ui_elements (shot : Screenshot) (o : observer)
  : list element * observer :=
  match yolo_model with
  | None => ([], o)
  | Some model =>
      let '(r, w) := model shot (world o) in
      let o' := log EvDetect (set_world w o) in
      match r with
      | Ret boxes => (map element_of_box boxes, o')
      | Raise _ => ([], o')
      end
  end.

(** One round of the loop of [_learn_patterns], lines 315-322. *)
Definition learn_pattern (o : observer) (pattern : string) : observer :=
  match pattern_db o !! pattern with
  | None =>
      let '(now, w) := datetime_now (world o) in
      set_pattern_db
        (<[pattern := {| first_seen := now; count := 1; contexts := [] |}]> (pattern_db o))
        (set_world w o)
  | Some e =>
      set_pattern_db
        (<[pattern := {| first_seen := first_seen e; count := count e + 1;
                         contexts := contexts e |}]> (pattern_db o))
        o
  end.

(** Lines 311-322. *)
Definition _learn_patterns (patterns : list string) (o : observer) : observer :=
  foldl learn_pattern o patterns.

(** [s[:n]] *)
Fixpoint str_take (n : nat) (s : string) : string :=
  match n, s with
  | S n', String c rest => String c (str_take n' rest)
  | _, _ => ""
  end.

(** [l[-n:]] for a positive [n] *)
Definition last_n {A : Type} (n : nat) (l : list A) : list A :=
  drop (length l - n) l.

(** Lines 224-236: what enters the prompt. *)
Definition build_request (b64 : string) (detected : list element) (o : observer)
  : analysis_request :=
  {| rq_image := b64;
     rq_elements := take 10 detected;
     rq_history :=
       map (fun obs => (timestamp obs, str_take 100 (claude_analysis obs)))
           (last_n 3 (observation_history o)) |}.

(** Lines 302-309: the dictionary the [except] branch returns. *)
Definition analysis_failed : analysis :=
  {| understanding := Some "Analysis failed";
     state := Some "unknown";
     next_action := None;
     an_confidence := Some 0%Q;
     issues_detected := Some [];
     an_debug_suggestions := Some [];
     patterns_observed := None |}.

(** Lines 213-309.  The function returns what [json.loads] gave, whatever
    it is, or the dictionary of its [except] branch.  On a value that is
    not an object, the test ["patterns_observed" in analysis] (line 295)
    is a membership or substring test, or raises; where it holds, the
    subscript of line 296 raises; both are inside the [try]. *)
Definition _claude_analyze_screen (b64 : string) (detected : list element)
    (o : observer) : decoded analysis * observer :=
  let rq := build_request b64 detected o in
  let '(r, w) := claude_create rq (world o) in
  let o' := log (EvAnalyze rq) (set_world w o) in
  match r with
  | Json (Object a) =>
      match patterns_observed a with
      | Some ps => (Object a, _learn_patterns ps o')
      | None => (Object a, o')
      end
  | Json (Other v) =>
      match str_in "patterns_observed" v with
      | Some false => (Other v, o')
      | Some true | None => (Object analysis_failed, o')
      end
  | ApiError _ | NotJson _ => (Object analysis_failed, o')
  end.

(** Lines 133-166.  The four [analysis.get] of lines 162-165 are outside
    any [try]: an analysis that is not a dictionary has no [get]. *)
Definition _observe_and_analyze (shot : Screenshot) (o : observer)
  : res ObservationResult * observer :=
  let '(now, w) := datetime_now (world o) in
  let o := set_world w o in
  let '(detected, o) :=
    match yolo_model with
    | Some _ => _detect_ui_elements shot o
    | None => ([], o)
    end in
  match screenshot_to_base64 shot with
  | Raise e => (Raise e, o)
  | Ret b64 =>
      let '(a, o) := _claude_analyze_screen b64 detected o in
      match a with
      | Object a =>
          (Ret {| timestamp := now;
                  screenshot_b64 := b64;
                  detected_elements := detected;
                  claude_analysis := default "" (understanding a);
                  suggested_next_action := next_action a;
                  confidence := default 0%Q (an_confidence a);
                  debug_suggestions := default [] (an_debug_suggestions a) |}, o)
      | Other v => (Raise (no_attribute v "get"), o)
      end
  end.

(** Truth value of an optional string and of a list. *)
Definition truthy_str (s : option string) : bool :=
  match s with
  | Some (String _ _) => true
  | _ => false
  end.

Definition truthy_list {A : Type} (l : list A) : bool :=
  match l with
  | [] => false
  | _ :: _ => true
  end.

(** Lines 95-115: the body of the [while self.observing] loop. *)
Definition observe_once (o : observer) : res unit * observer :=
  let '(r, w) := grab (world o) in
  let o := log EvGrab (set_world w o) in
  match r with
  | Raise e => (Raise e, o)
  | Ret shot =>
      match _observe_and_analyze shot o with
      | (Raise e, o) => (Raise e, o)
      | (Ret observation, o) =>
          let o := set_history (observation_history o ++ [observation]) o in
          let o := notify on_observation (EvObservation observation) o in
          let o :=
            notify (truthy_str (suggested_next_action observation) && on_suggestion)
                   (EvSuggestion (default "" (suggested_next_action observation))) o in
          let o :=
            notify (truthy_list (debug_suggestions observation) && on_error_detected)
                   (EvErrorDetected (debug_suggestions observation)) o in
          (Ret tt, log (EvSleep observation_interval) o)
      end
  end.

(** The loop.  [stop_observing] is called by another task while the loop
    is suspended; [cycles] is the number of times the loop finds
    [self.observing] still set. *)
Fixpoint observe_loop (cycles : nat) (o : observer) : res unit * observer :=
  match cycles with
  | 0 => (Ret tt, o)
  | S n =>
      match observe_once o with
      | (Ret _, o') => observe_loop n o'
      | (Raise e, o') => (Raise e, o')
      end
  end.

(** Lines 81-121. *)
Definition start_observing (cycles : nat) (o : observer) : res unit * observer :=
  let '(r, o') := observe_loop cycles (set_observing true o) in
  (r, set_observing false o').

End WithCollaborators.

Arguments observer World : clear implicits.

(** *** Vocabulary of the properties *)

(** The table [db'] extends [db]: every label of [db] is still there, first
    seen at the same time, with the same contexts and a count that is not
    smaller. *)
Definition table_le (db db' : gmap string pattern_entry) : Prop :=
  ∀ l e, db !! l = Some e →
    ∃ e', db' !! l = Some e' ∧ first_seen e' = first_seen e ∧
          contexts e' = contexts e ∧ count e ≤ count e'.

(** An analysis that reports nothing wrong: no issue and no suggestion. *)
Definition reports_no_issue (a : analysis) : Prop :=
  issues_detected a = Some [] ∧ an_debug_suggestions a = Some [].

(** A screen-understanding reply that cannot be read as an analysis and
    that the [except] branch of [_claude_analyze_screen] answers: a text
    that is not JSON, or JSON that is not an object and on which the test
    of line 295 raises or holds. *)
Definition caught (r : reply (decoded analysis)) : Prop :=
  (∃ content, r = NotJson content) ∨
  (∃ v, r = Json (Other v) ∧ str_in "patterns_observed" v ≠ Some false).

(** A screen-understanding reply that is JSON but not an object and that
    passes the [try] of [_claude_analyze_screen]. *)
Definition handed_on (r : reply (decoded analysis)) (v : json_other) : Prop :=
  r = Json (Other v) ∧ str_in "patterns_observed" v = Some false.

Definition is_error_event (e : event) : bool :=
  match e with EvErrorDetected _ => true | _ => false end.

(** *** [debug_failure] *)

(** One element of the ["fixes"] list [debug_failure] asks for. *)
Record fix_candidate : Type := {
  strategy : option string;
  likelihood : option pyval;
  implementation : option string
}.

(** The dictionary [debug_failure] returns, decoded from the response or
    built by the [except] branch; a key may be missing. *)
Record diagnosis_result : Type := {
  dg_diagnosis : option string;
  dg_root_cause : option string;
  dg_fixes : option (list fix_candidate);
  dg_alternative_approach : option string
}.

(** What the debugging prompt is built from. *)
Record failure_request : Type := {
  fr_error_message : string;
  fr_expected_state : string;
  fr_elements_found : nat;
  fr_image : string
}.

(** The failure-diagnosis request of [debug_failure], decoded. *)
Class Debugger (World : Type) : Type := {
  debug_create : failure_request -> World -> reply (decoded diagnosis_result) * World
}.

(** Lines 413-418: the dictionary the [except] branch returns. *)
Definition could_not_diagnose : diagnosis_result :=
  {| dg_diagnosis := Some "Could not diagnose";
     dg_root_cause := Some "Analysis error";
     dg_fixes := Some [];
     dg_alternative_approach := Some "Manual intervention required" |}.

(** Lines 404-407: the report printed inside the [try] reads
    [debug_result['diagnosis']], [debug_result['root_cause']] and the
    strategy and likelihood of [debug_result['fixes'][0]]; a missing key
    or an empty list raises, which [reportable] answers with [false]. *)
Definition reportable (d : diagnosis_result) : bool :=
  match dg_diagnosis d, dg_root_cause d, dg_fixes d with
  | Some _, Some _, Some (f :: _) =>
      match strategy f, likelihood f with
      | Some _, Some _ => true
      | _, _ => false
      end
  | _, _, _ => false
  end.

Section WithDebugger.

Context {World Screenshot : Type} {C : Collaborators World Screenshot}
        {D : Debugger World}.

(** Lines 324-418.  The screenshot is encoded before the [try]; the
    request is not traced. *)
Definition debug_failure (error_message expected_state : string)
    (actual_screenshot : Screenshot) (o : observer World)
  : res diagnosis_result * observer World :=
  match screenshot_to_base64 actual_screenshot with
  | Raise e => (Raise e, o)
  | Ret b64 =>
      let '(detected, o) :=
        match yolo_model with
        | Some _ => _detect_ui_elements actual_screenshot o
        | None => ([], o)
        end in
      let rq := {| fr_error_message := error_message;
                   fr_expected_state := expected_state;
                   fr_elements_found := length detected;
                   fr_image := b64 |} in
      let '(r, w) := debug_create rq (world o) in
      let o := set_world w o in
      match r with
      | Json (Object d) =>
          if reportable d then (Ret d, o) else (Ret could_not_diagnose, o)
      | Json (Other _) =>
          (* [debug_result['diagnosis']] raises [TypeError], inside the [try] *)
          (Ret could_not_diagnose, o)
      | ApiError _ | NotJson _ => (Ret could_not_diagnose, o)
      end
  end.

(** Lines 96-100 of executor.py: the caller tries a fix only when
    [debug_result.get('fixes')] is true, and then reads the strategy of
    the first one. *)
Definition top_fix_strategy (d : diagnosis_result) : option (res string) :=
  match dg_fixes d with
  | Some (f :: _) =>
      Some (match strategy f with
            | Some st => Ret st
            | None => Raise "'strategy'"
            end)
  | _ => None
  end.

End WithDebugger.

(** The number of times a label has been seen, 0 for an unknown one. *)
Definition seen (db : gmap string pattern_entry) (l : string) : nat :=
  match db !! l with
  | Some e => count e
  | None => 0
  end.

(** The number of occurrences of a label in a list of patterns. *)
Definition occurrences (l : string) (patterns : list string) : nat :=
  length (filter (fun p => p = l) patterns).

Definition is_suggestion_event (e : event) : bool :=
  match e with EvSuggestion _ => true | _ => false end.

End Observer.

(** ** src/tutorial_agent/executor.py *)

Module Executor.

(** What the executor can do to the machine: start a process
    ([subprocess.Popen]) or drive the keyboard, the mouse and the screen
    through pyautogui. *)
Inductive automation : Type :=
| Popen (argv : list string) (shell : bool)
| PyWrite (text : string) (interval : Q)
| PyPress (key : string)
| PyHotkey (keys : list string)
| PyClick (x y : Z)
| PyScreenshot (path : string).

Inductive event : Type :=
| EvPrint (line : string)
| EvAutomation (a : automation)
| EvSleep (seconds : Q).

Definition is_automation (e : event) : bool :=
  match e with EvAutomation _ => true | _ => false end.

Class Collaborators (World : Type) : Type := {
  (** [self.pyautogui] is not [None] *)
  pyautogui : bool;
  (** [platform.system()] *)
  platform_system : string;
  (** carrying out an automation call, which may raise *)
  perform : automation -> World -> res unit * World;
  (** [float(param)]; [None] is [ValueError] *)
  float_of_string : string -> option Q;
  (** [str.lower] *)
  str_lower : string -> string;
  (** the detections of [self.live_observer.observation_history[-1]], when
      there is an observer and its history is not empty *)
  latest_detections : World -> option (list Observer.element)
}.

(** [sub in s] *)
Definition str_contains (sub s : string) : bool :=
  match String.index 0 sub s with
  | Some _ => true
  | None => false
  end.

(** [s.split(":", 1)] when [s] holds a colon: what precedes the first
    colon and what follows it. *)
Fixpoint split_colon (s : string) : string * string :=
  match s with
  | EmptyString => ("", "")
  | String c rest =>
      if Ascii.eqb c ":"%char then ("", rest)
      else let '(a, b) := split_colon rest in (String c a, b)
  end.

(** [s.split('+')] *)
Fixpoint split_plus (s : string) : list string :=
  match s with
  | EmptyString => [""]
  | String c rest =>
      if Ascii.eqb c "+"%char then "" :: split_plus rest
      else match split_plus rest with
           | [] => [String c ""]
           | w :: ws => String c w :: ws
           end
  end.

(** The commands [_execute_action] knows. *)
Definition known_commands : list string :=
  ["open"; "create_file"; "type_code"; "type_text"; "run_terminal";
   "click"; "wait"; "screenshot"; "hotkey"].

Section WithCollaborators.

Context {World : Type} {C : Collaborators World}.

(** The executor object. *)
Record executor : Type := {
  world : World;
  execution_log : list string;
  trace : list event
}.

(** A coroutine of the executor: it runs on the object and returns or raises. *)
Definition M (A : Type) : Type := executor -> res A * executor.

#[export] Instance exec_ret : MRet M := fun A a e => (Ret a, e).

#[export] Instance exec_bind : MBind M := fun A B k m e =>
  match m e with
  | (Ret a, e') => k a e'
  | (Raise x, e') => (Raise x, e')
  end.

Definition raise {A : Type} (x : string) : M A := fun e => (Raise x, e).

(** [try: m except Exception as x: h x] *)
Definition try_except {A : Type} (m : M A) (h : string -> M A) : M A :=
  fun e =>
    match m e with
    | (Ret a, e') => (Ret a, e')
    | (Raise x, e') => h x e'
    end.

Definition emit (ev : event) : M unit :=
  fun e => (Ret tt, {| world := world e; execution_log := execution_log e;
                       trace := trace e ++ [ev] |}).

Definition print (line : string) : M unit := emit (EvPrint line).

Definition sleep (seconds : Q) : M unit := emit (EvSleep seconds).

Definition log_line (line : string) : M unit :=
  fun e => (Ret tt, {| world := world e;
                       execution_log := execution_log e ++ [line];
                       trace := trace e |}).

(** An automation call: it is attempted (and traced) and may raise. *)
Definition automate (a : automation) : M unit :=
  fun e =>
    let '(r, w) := perform a (world e) in
    (r, {| world := w; execution_log := execution_log e;
           trace := trace e ++ [EvAutomation a] |}).

Definition detections : M (option (list Observer.element)) :=
  fun e => (Ret (latest_detections (world e)), e).

(** Lines 157-189. *)
Definition open_command (app_name : string) : automation :=
  if bool_decide (app_name = "vscode" ∨ app_name = "code") then
    Popen ["code"] false
  else if bool_decide (app_name = "terminal") then
    if bool_decide (platform_system = "Windows") then Popen ["cmd"] false
    else if bool_decide (platform_system = "Darwin") then Popen ["open"; "-a"; "Terminal"] false
    else Popen ["gnome-terminal"] false
  else if bool_decide (app_name = "browser" ∨ app_name = "chrome") then
    if bool_decide (platform_system = "Windows") then Popen ["start"; "chrome"] true
    else if bool_decide (platform_system = "Darwin") then Popen ["open"; "-a"; "Google Chrome"] false
    else Popen ["google-chrome"] false
  else Popen [app_name] false.

Definition _open_application (app_name : string) : M unit :=
  try_except
    (automate (open_command app_name);; sleep 2)
    (fun x => print ("⚠️  Could not open " +:+ app_name +:+ ": " +:+ x)).

(** Lines 191-199. *)
Definition _type_text (text : string) (interval : Q) : M unit :=
  if pyautogui then
    automate (PyWrite text interval);; sleep (1 # 2)
  else print ("   [Would type: " +:+ text +:+ "]").

(** Lines 201-211. *)
Definition _run_terminal_command (command : string) : M unit :=
  if pyautogui then
    automate (PyWrite command (5 # 100));;
    automate (PyPress "enter");;
    sleep 2
  else print ("   [Would run: " +:+ command +:+ "]").

(** The first detection whose type contains the description, both in
    lower case (the [for] loop of lines 221-230). *)
Definition find_element (descr : string) (elems : list Observer.element)
  : option Observer.element :=
  List.find (fun el => str_contains (str_lower descr) (str_lower (Observer.el_type el)))
            elems.

(** Lines 213-234. *)
Definition _click_element (descr : string) : M unit :=
  found ← detections;
  match found ≫= find_element descr with
  | Some el =>
      let '(x, y) := Observer.center el in
      print ("   Found " +:+ Observer.el_type el +:+ " at (" +:+ pretty x +:+ ", "
             +:+ pretty y +:+ ")");;
      (if pyautogui then automate (PyClick x y) else mret tt);;
      sleep (1 # 2)
  | None =>
      print ("  Clicking: " +:+ descr);; sleep (1 # 2)
  end.

(** Lines 236-250. *)
Definition _create_file (filename : string) : M unit :=
  if pyautogui then
    automate (PyHotkey ["ctrl"; "n"]);;
    sleep (1 # 2);;
    automate (PyHotkey ["ctrl"; "s"]);;
    sleep (1 # 2);;
    automate (PyWrite filename 0);;
    automate (PyPress "enter");;
    sleep 1
  else print ("   [Would create: " +:+ filename +:+ "]").

(** Lines 252-262. *)
Definition _press_hotkey (keys : string) : M unit :=
  if pyautogui then
    automate (PyHotkey (split_plus keys));; sleep (1 # 2)
  else print ("   [Would press: " +:+ keys +:+ "]").

(** Lines 113-155. *)
Definition _execute_action (action : string) : M unit :=
  if negb (str_contains ":" action) then
    print ("⚠️  Invalid action format: " +:+ action)
  else
    let '(command, param) := split_colon action in
    print ("  → " +:+ command +:+ ": " +:+ param);;
    log_line ("   " +:+ command +:+ ": " +:+ param);;
    if bool_decide (command = "open") then _open_application param
    else if bool_decide (command = "create_file") then _create_file param
    else if bool_decide (command = "type_code") then _type_text param (5 # 100)
    else if bool_decide (command = "type_text") then _type_text param (1 # 10)
    else if bool_decide (command = "run_terminal") then _run_terminal_command param
    else if bool_decide (command = "click") then _click_element param
    else if bool_decide (command = "wait") then
      match float_of_string param with
      | Some seconds => sleep seconds
      | None => raise ("could not convert string to float: '" +:+ param +:+ "'")
      end
    else if bool_decide (command = "screenshot") then
      (if pyautogui then automate (PyScreenshot param) else mret tt)
    else if bool_decide (command = "hotkey") then _press_hotkey param
    else print ("⚠️  Unknown command: " +:+ command).

End WithCollaborators.

Arguments executor World : clear implicits.
Arguments M World A : clear implicits.

(** ["+".join(parts)] *)
Fixpoint join_plus (parts : list string) : string :=
  match parts with
  | [] => ""
  | [w] => w
  | w :: ws => w +:+ "+" +:+ join_plus ws
  end.

(** A coroutine that leaves the execution log as it found it. *)
Definition keeps_log {World A : Type} (m : M World A) : Prop :=
  ∀ e, execution_log (m e).2 = execution_log e.

(** A coroutine that makes no automation call: the world is the one it
    started in and no automation event enters the trace. *)
Definition hands_off {World A : Type} (m : M World A) : Prop :=
  ∀ e, world (m e).2 = world e ∧
       List.filter is_automation (trace (m e).2) = List.filter is_automation (trace e).

(** A coroutine that always returns. *)
Definition returns {World A : Type} (m : M World A) : Prop :=
  ∀ e, ∃ a, (m e).1 = Ret a.

(** A coroutine that raises only what an automation call of its own
    raised, and does nothing after that call. *)
Definition stops_at_failure {World A : Type} {C : Collaborators World}
    (m : M World A) : Prop :=
  ∀ e x, (m e).1 = Raise x →
    ∃ a w, last (trace (m e).2) = Some (EvAutomation a) ∧
           perform a w = (Raise x, world (m e).2).

(** [get_execution_log], lines 264-266: a copy of the log. *)
Definition get_execution_log {World : Type} (e : executor World) : list string :=
  execution_log e.

End Executor.

(** ** Concrete collaborators

    Small deterministic worlds on which the functions above can be run.
    The world is a counter of the calls made so far. *)

Module Scenario.

(** A desktop whose [click] finds its target only when it is given
    coordinates, whose camera may be broken, and whose diagnostic service
    and planner answer as scripted. *)
Definition desktop_with (camera_works : bool) (planned : reply Orchestrator.plan)
    (diagnostic : reply (decoded Orchestrator.fix_suggestion))
  : Orchestrator.Collaborators nat :=
  {| Orchestrator.mcp_clients := {["desktop"; "browser"; "vision"]};
     Orchestrator.call_tool := fun client tool_name a w =>
       if bool_decide (tool_name = "take_screenshot") then
         (if camera_works then Ret (PStr "iVBORw0KGgo=") else Raise "screen capture failed",
          S w)
       else if bool_decide (tool_name = "click" ∧ a !! "x" = None) then
         (Raise "element not found", S w)
       else (Ret (PDict {["success" := PBool true]}), S w);
     Orchestrator.datetime_now := fun w => (Z.of_nat w, S w);
     Orchestrator.plan_create := fun _ w => (planned, S w);
     Orchestrator.messages_create := fun _ w => (diagnostic, S w);
     Orchestrator.json_dumps := fun _ => "{}";
     Orchestrator.on_thinking_start := true;
     Orchestrator.on_thinking_end := true;
     Orchestrator.on_step_update := true;
     Orchestrator.on_error := true |}.

(** The same desktop with a diagnostic service whose JSON is an object. *)
Definition desktop (camera_works : bool) (planned : reply Orchestrator.plan)
    (diagnostic : reply Orchestrator.fix_suggestion)
  : Orchestrator.Collaborators nat :=
  desktop_with camera_works planned (objects diagnostic).

Definition click_login : Orchestrator.step_data :=
  {| Orchestrator.sd_step_number := 1;
     Orchestrator.sd_description := "Click the login button";
     Orchestrator.sd_tool := "desktop";
     Orchestrator.sd_tool_name := "click";
     Orchestrator.sd_args := Some {["target" := PStr "login"]} |}.

Definition type_credentials : Orchestrator.step_data :=
  {| Orchestrator.sd_step_number := 2;
     Orchestrator.sd_description := "Type the credentials";
     Orchestrator.sd_tool := "desktop";
     Orchestrator.sd_tool_name := "type_text";
     Orchestrator.sd_args := Some {["text" := PStr "user"]} |}.

Definition click_submit : Orchestrator.step_data :=
  {| Orchestrator.sd_step_number := 3;
     Orchestrator.sd_description := "Click submit";
     Orchestrator.sd_tool := "desktop";
     Orchestrator.sd_tool_name := "click";
     Orchestrator.sd_args :=
       Some (<["x" := PInt 200]> (<["y" := PInt 400]> {["target" := PStr "submit"]})) |}.

(** The plan of the specification's scenario: the first click fails with
    "element not found". *)
Definition login_plan : Orchestrator.plan :=
  {| Orchestrator.task_summary := "Log in";
     Orchestrator.task_type := Some "desktop";
     Orchestrator.steps := [click_login; type_credentials; click_submit] |}.

(** A plan every step of which succeeds. *)
Definition submit_plan : Orchestrator.plan :=
  {| Orchestrator.task_summary := "Submit the form";
     Orchestrator.task_type := None;
     Orchestrator.steps := [type_credentials; click_submit] |}.

(** A fresh orchestrator ([__init__], lines 38-50). *)
Definition fresh : Orchestrator.orch nat :=
  {| Orchestrator.world := 0;
     Orchestrator.conversation_history := [];
     Orchestrator.task_steps := [];
     Orchestrator.trace := [] |}.

(** Diagnoses: the fix of the specification's scenario, a skip, and a text
    that is not JSON. *)
Definition use_coordinates : Orchestrator.fix_suggestion :=
  {| Orchestrator.diagnosis := Some "the button was looked up by name";
     Orchestrator.fix_strategy := Some "modify_args";
     Orchestrator.new_args := Some (<["x" := PInt 120]> {["y" := PInt 340]});
     Orchestrator.alternative_tool := None;
     Orchestrator.explanation := Some "click by coordinates" |}.

Definition skip_it : Orchestrator.fix_suggestion :=
  {| Orchestrator.diagnosis := Some "the page is already logged in";
     Orchestrator.fix_strategy := Some "skip";
     Orchestrator.new_args := None;
     Orchestrator.alternative_tool := None;
     Orchestrator.explanation := Some "nothing to do" |}.

Definition gibberish {A : Type} : reply A := NotJson "I am sorry, I cannot help with that.".

(** The step object of [click_login] once its call has failed. *)
Definition failed_click : Orchestrator.TaskStep :=
  {| Orchestrator.description := "Click the login button";
     Orchestrator.tool := "desktop";
     Orchestrator.args := {["target" := PStr "login"]};
     Orchestrator.status := "error";
     Orchestrator.result := None;
     Orchestrator.error := Some "element not found";
     Orchestrator.screenshot := None;
     Orchestrator.timestamp := Some 0%Z |}.

(** An observer on a screen that can always be grabbed, with a detector
    that is absent, broken or sees one button, and a scripted analysis. *)
Definition one_button : Observer.box :=
  {| Observer.cls_name := "button";
     Observer.xyxy := (10, 20, 110, 60)%Q;
     Observer.conf := (9 # 10)%Q |}.

Definition screen_with (detector : option bool)
    (understanding : reply (decoded Observer.analysis))
  : Observer.Collaborators nat unit :=
  {| Observer.observation_interval := 1%Q;
     Observer.grab := fun w => (Ret tt, S w);
     Observer.yolo_model :=
       match detector with
       | None => None
       | Some works =>
           Some (fun _ w => (if works then Ret [one_button] else Raise "inference failed", S w))
       end;
     Observer.screenshot_to_base64 := fun _ => Ret "iVBORw0KGgo=";
     Observer.claude_create := fun _ w => (understanding, S w);
     Observer.datetime_now := fun w => (Z.of_nat w, S w);
     Observer.on_observation := true;
     Observer.on_suggestion := true;
     Observer.on_error_detected := true |}.

(** The same screen with an analysis whose JSON is an object. *)
Definition screen (detector : option bool) (understanding : reply Observer.analysis)
  : Observer.Collaborators nat unit :=
  screen_with detector (objects understanding).

(** Answers that are JSON but no object: an empty array, an array that
    holds the key the analysis is searched for, and a sentence. *)
Definition empty_array : json_other := JArray [].

Definition array_of_keys : json_other :=
  JArray [PStr "understanding"; PStr "patterns_observed"].

Definition a_sentence : json_other := JString "The screen shows a login form.".

Definition login_page : Observer.analysis :=
  {| Observer.understanding := Some "A login form is shown";
     Observer.state := Some "idle";
     Observer.next_action := Some "Click the login button";
     Observer.an_confidence := Some (95 # 100)%Q;
     Observer.issues_detected := Some [];
     Observer.an_debug_suggestions := Some [];
     Observer.patterns_observed := Some ["login form"; "modal dialog"; "login form"] |}.

(** A machine with pyautogui on which every automation call succeeds. *)
Definition ascii_lower (c : ascii) : ascii :=
  let n := nat_of_ascii c in
  if bool_decide (65 ≤ n ≤ 90) then ascii_of_nat (n + 32) else c.

Fixpoint lower (s : string) : string :=
  match s with
  | EmptyString => EmptyString
  | String c rest => String (ascii_lower c) (lower rest)
  end.

Definition seconds_of (s : string) : option Q :=
  if bool_decide (s = "2") then Some 2%Q
  else if bool_decide (s = "0.5") then Some (1 # 2)%Q
  else None.

Definition machine : Executor.Collaborators nat :=
  {| Executor.pyautogui := true;
     Executor.platform_system := "Linux";
     Executor.perform := fun _ w => (Ret tt, S w);
     Executor.float_of_string := seconds_of;
     Executor.str_lower := lower;
     Executor.latest_detections := fun _ => None |}.

Definition idle : Executor.executor nat :=
  {| Executor.world := 0; Executor.execution_log := []; Executor.trace := [] |}.

(** A step that names a tool type the orchestrator does not know. *)
Definition read_minds : Orchestrator.step_data :=
  {| Orchestrator.sd_step_number := 1;
     Orchestrator.sd_description := "Read the user's mind";
     Orchestrator.sd_tool := "telepathy";
     Orchestrator.sd_tool_name := "read";
     Orchestrator.sd_args := None |}.

Definition wishful_plan : Orchestrator.plan :=
  {| Orchestrator.task_summary := "Guess the password";
     Orchestrator.task_type := Some "hybrid";
     Orchestrator.steps := [read_minds; type_credentials] |}.

(** An analysis that reports an issue, with one suggestion and an empty
    next action. *)
Definition submit_issue : Observer.analysis :=
  {| Observer.understanding := Some "An error dialog is shown";
     Observer.state := Some "error";
     Observer.next_action := Some "";
     Observer.an_confidence := None;
     Observer.issues_detected := Some ["dialog blocks the form"];
     Observer.an_debug_suggestions := Some ["close the dialog"];
     Observer.patterns_observed := Some ["error dialog"] |}.

(** A machine without pyautogui, and one on which every automation call
    is refused. *)
Definition headless : Executor.Collaborators nat :=
  {| Executor.pyautogui := false;
     Executor.platform_system := "Linux";
     Executor.perform := fun _ w => (Ret tt, S w);
     Executor.float_of_string := seconds_of;
     Executor.str_lower := lower;
     Executor.latest_detections := fun _ => None |}.

Definition locked_down : Executor.Collaborators nat :=
  {| Executor.pyautogui := true;
     Executor.platform_system := "Darwin";
     Executor.perform := fun _ w => (Raise "Operation not permitted", S w);
     Executor.float_of_string := seconds_of;
     Executor.str_lower := lower;
     Executor.latest_detections := fun _ => None |}.

(** A machine whose observer has just seen a text field and a button. *)
Definition text_field : Observer.element :=
  {| Observer.el_type := "TextField";
     Observer.bbox := (0, 0, 100, 20)%Q;
     Observer.el_confidence := (8 # 10)%Q;
     Observer.center := (50, 10)%Z |}.

Definition ok_button : Observer.element :=
  {| Observer.el_type := "Button";
     Observer.bbox := (200, 100, 260, 130)%Q;
     Observer.el_confidence := (9 # 10)%Q;
     Observer.center := (230, 115)%Z |}.

Definition watched : Executor.Collaborators nat :=
  {| Executor.pyautogui := true;
     Executor.platform_system := "Linux";
     Executor.perform := fun _ w => (Ret tt, S w);
     Executor.float_of_string := seconds_of;
     Executor.str_lower := lower;
     Executor.latest_detections := fun _ => Some [text_field; ok_button] |}.

End Scenario.

(** * Properties *)

(** ** The step driver and the recovery routine *)

Section OrchestratorFacts.

Import Orchestrator.
Context {World : Type} {C : Collaborators World}.

Lemma dict_update_lookup (d other : dict) (k : string) :
  dict_update d other !! k =
    match other !! k with
    | Some v => Some v
    | None => d !! k
    end.
Proof.
  unfold dict_update. destruct (other !! k) as [v|] eqn:E.
  - by apply lookup_union_Some_l.
  - rewrite lookup_union_r; done.
Qed.

Lemma set_args_same (t : TaskStep) : set_args (args t) t = t.
Proof. by destruct t. Qed.

Lemma set_args_twice (a b : dict) (t : TaskStep) :
  set_args a (set_args b t) = set_args a t.
Proof. done. Qed.

(** The dispatch never answers [True], and touches nothing but the
    arguments of the step. *)
Lemma apply_fix_frame (f : fix_suggestion) (t : TaskStep) :
  (apply_fix f t).1 ≠ Ret true ∧ ∃ a, (apply_fix f t).2 = set_args a t.
Proof.
  unfold apply_fix.
  destruct (fix_strategy f) as [s|]; simpl;
    [|split; [done | exists (args t); by rewrite set_args_same]].
  repeat case_bool_decide; repeat case_match; simpl;
    (split; [done|]); eauto;
    exists (args t); by rewrite set_args_same.
Qed.

Lemma parse_and_apply_frame (r : reply (decoded fix_suggestion)) (t : TaskStep) :
  (parse_and_apply r t).1 ≠ Ret true ∧ ∃ a, (parse_and_apply r t).2 = set_args a t.
Proof.
  destruct r as [e|c|[f|v]]; simpl;
    try (split; [done | exists (args t); by rewrite set_args_same]).
  destruct (apply_fix_frame f t) as [Hne [a Ha]].
  destruct (apply_fix f t) as [[b|x] t']; simpl in *; split; eauto.
Qed.

Lemma take_debug_screenshot_frame (o : orch World) :
  task_steps (take_debug_screenshot o).2 = task_steps o ∧
  conversation_history (take_debug_screenshot o).2 = conversation_history o.
Proof.
  unfold take_debug_screenshot. case_bool_decide; [|done].
  destruct (call_tool _ _ _ _) as [[v|e] w]; done.
Qed.

(** [_self_debug] returns [False] or raises; it leaves the list of steps
    alone and changes at most the arguments of the failed step. *)
Lemma self_debug_frame (t : TaskStep) (p : plan) (prev : list step_result)
    (o : orch World) (r : res bool) (t' : TaskStep) (o' : orch World) :
  _self_debug t p prev o = (r, t', o') →
  r ≠ Ret true ∧ (∃ a, t' = set_args a t) ∧ task_steps o' = task_steps o.
Proof.
  unfold _self_debug, diagnose_and_fix.
  destruct (take_debug_screenshot o) as [shot o1] eqn:E1.
  destruct (messages_create _ _) as [rp w].
  destruct (parse_and_apply_frame rp t) as [Hne Ha].
  destruct (parse_and_apply rp t) as [b s]. simpl in *.
  intros [= <- <- <-]. split_and!; [done..|].
  simpl. pose proof (take_debug_screenshot_frame o) as [H _].
  by rewrite E1 in H.
Qed.

Lemma self_debug_never_fixes (t : TaskStep) (p : plan) (prev : list step_result)
    (o : orch World) :
  (_self_debug t p prev o).1.1 ≠ Ret true.
Proof.
  destruct (_self_debug t p prev o) as [[r t'] o'] eqn:E.
  by apply self_debug_frame in E as [? _].
Qed.

Lemma task_steps_notify (b : bool) (ev : event) (o : orch World) :
  task_steps (notify b ev o) = task_steps o.
Proof. by destruct b. Qed.

Lemma world_notify (b : bool) (ev : event) (o : orch World) :
  world (notify b ev o) = world o.
Proof. by destruct b. Qed.

Lemma invoke_task_steps (sd : step_data) (o : orch World) :
  task_steps (invoke sd o).2 = task_steps o.
Proof.
  unfold invoke. destruct (select_client _); [|done].
  by destruct (call_tool _ _ _ _).
Qed.

Lemma begin_step_spec (sd : step_data) (o : orch World) :
  task_steps (begin_step sd o).2 = task_steps o ∧
  result (begin_step sd o).1 = None ∧
  description (begin_step sd o).1 = sd_description sd.
Proof.
  unfold begin_step. destruct (datetime_now _) as [now w]. simpl.
  by rewrite task_steps_notify.
Qed.

(** What one iteration does to the list of steps and to the locals. *)
Lemma exec_step_spec (p : plan) (sd : step_data) (lc : locals) (o : orch World)
    (f : flow) (lc' : locals) (o' : orch World) :
  exec_step p sd lc o = (f, lc', o') →
  ∃ t, task_steps o' = task_steps o ++ [t] ∧
       results lc' = results lc ++ omap entry_of [(sd, t)] ∧
       (f = Next → completed t ∧ (all_success lc = true → all_success lc' = true)) ∧
       (f = Break → all_success lc' = false ∧ status t = "error" ∧ result t = None).
Proof.
  unfold exec_step.
  pose proof (begin_step_spec sd o) as (Hts & Hres & _).
  destruct (begin_step sd o) as [t o1]. simpl in *.
  pose proof (invoke_task_steps sd o1) as Hinv.
  destruct (invoke sd o1) as [[v|e] o2]; simpl in *.
  - intros [= <- <- <-]. eexists. split_and!; simpl.
    + rewrite task_steps_notify, Hinv, Hts. done.
    + done.
    + done.
    + done.
  - unfold mark_failed, recover.
    destruct (_self_debug _ _ _ _) as [[r t'] o3] eqn:E.
    apply self_debug_frame in E as (Hne & [a ->] & Hts3).
    rewrite task_steps_notify, Hinv, Hts in Hts3.
    destruct r as [[|]|x]; [done| |]; intros [= <- <- <-];
      eexists; (split_and!; simpl;
        [ rewrite ?task_steps_notify, Hts3; done
        | unfold entry_of; simpl; rewrite Hres; simpl; by rewrite app_nil_r
        | done
        | try done ]).
Qed.

(** The loop: the steps it appended, the entries it added, and what the
    way it ended says about them. *)
Lemma exec_steps_spec (p : plan) (sds : list step_data) (lc : locals) (o : orch World)
    (f : flow) (lc' : locals) (o' : orch World) :
  exec_steps p sds lc o = (f, lc', o') →
  ∃ ts, task_steps o' = task_steps o ++ ts ∧
        results lc' = results lc ++ omap entry_of (zip sds ts) ∧
        length ts ≤ length sds ∧
        (f = Next → length ts = length sds ∧ Forall completed ts ∧
                    (all_success lc = true → all_success lc' = true)) ∧
        (f = Break → all_success lc' = false ∧
                     length (omap entry_of (zip sds ts)) < length sds).
Proof.
  revert lc o. induction sds as [|sd rest IH]; intros lc o; simpl.
  - intros [= <- <- <-]. exists []. rewrite !app_nil_r. by split_and!.
  - destruct (exec_step p sd lc o) as [[f1 lc1] o1] eqn:E1.
    apply exec_step_spec in E1 as (t & Hts & Hres & Hnext & Hbreak).
    destruct f1.
    + intros E2. apply IH in E2 as (ts & Hts2 & Hres2 & Hlen & Hn2 & Hb2).
      destruct (Hnext eq_refl) as [Hc Hs].
      exists (t :: ts). split_and!.
      * rewrite Hts2, Hts, <- app_assoc. done.
      * rewrite Hres2, Hres. simpl. rewrite <- app_assoc. f_equal.
        by destruct (entry_of (sd, t)).
      * simpl. lia.
      * intros ->. destruct (Hn2 eq_refl) as (? & ? & ?).
        split_and!; [simpl; lia | by constructor | auto].
      * intros ->. destruct (Hb2 eq_refl) as [? ?]. split; [done|].
        cbn [omap list_omap]. destruct (entry_of (sd, t)); simpl; lia.
    + intros [= <- <- <-]. exists [t].
      assert (zip rest ([] : list TaskStep) = []) as -> by (by destruct rest).
      split_and!; [done | done | simpl; lia | done |].
      intros _. destruct (Hbreak eq_refl) as (? & _ & Hnone). split; [done|].
      unfold entry_of. simpl. rewrite Hnone. simpl. lia.
    + intros [= <- <- <-]. exists [t].
      assert (zip rest ([] : list TaskStep) = []) as -> by (by destruct rest).
      split_and!; [done | done | simpl; lia | done | done].
Qed.

Lemma exec_steps_app (p : plan) (a b : list step_data) (lc : locals) (o : orch World) :
  exec_steps p (a ++ b) lc o =
    match exec_steps p a lc o with
    | (Next, lc', o') => exec_steps p b lc' o'
    | stop => stop
    end.
Proof.
  revert lc o. induction a as [|sd a IH]; intros lc o; simpl; [done|].
  destruct (exec_step p sd lc o) as [[[] lc1] o1]; auto.
Qed.

(** The iteration of a step whose call fails and whose recovery answers
    [False]: the loop is left through [break]. *)
Lemma exec_step_break (p : plan) (sd : step_data) (lc : locals) (o : orch World)
    (t : TaskStep) (o_b : orch World) (e : string) (o_i : orch World)
    (t_f : TaskStep) (o_f : orch World) (t' : TaskStep) (o_d : orch World) :
  begin_step sd o = (t, o_b) →
  invoke sd o_b = (Raise e, o_i) →
  mark_failed e t o_i = (t_f, o_f) →
  _self_debug t_f p (results lc) o_f = (Ret false, t', o_d) →
  exec_step p sd lc o =
    (Break, {| results := results lc; all_success := false |},
     finish t' (notify on_error (EvError ("Failed: " +:+ description t') e) o_d)).
Proof.
  intros Hb Hi Hm Hd. unfold exec_step. rewrite Hb, Hi, Hm.
  unfold recover. by rewrite Hd.
Qed.

(** C1. If the tool call of step k fails and [_self_debug] returns [False],
    [_execute_plan] stops there: it returns a result whose success flag is
    false and whose entries are those gathered before step k; no step object
    exists for a later step; after the recovery attempt nothing is called
    any more (the world is the one the recovery left, and the trace grows
    at most by the error notification); and the steps after k have no
    influence on the run at all. *)
Theorem failed_recovery_stops_the_plan
    (p : plan) (pre post : list step_data) (sd : step_data) (o : orch World)
    (lc_k : locals) (o_k : orch World) (t : TaskStep) (o_b : orch World)
    (e : string) (o_i : orch World) (t_f : TaskStep) (o_f : orch World)
    (t' : TaskStep) (o_d : orch World) :
  steps p = pre ++ sd :: post →
  exec_steps p pre init_locals (set_task_steps [] o) = (Next, lc_k, o_k) →
  begin_step sd o_k = (t, o_b) →
  invoke sd o_b = (Raise e, o_i) →
  mark_failed e t o_i = (t_f, o_f) →
  _self_debug t_f p (results lc_k) o_f = (Ret false, t', o_d) →
  ∃ (r : task_result) (o' : orch World),
    _execute_plan p o = (Ret r, o') ∧
    tr_success r = false ∧
    tr_steps r = results lc_k ∧
    length (task_steps o') = S (length pre) ∧
    world o' = world o_d ∧
    (∃ tail, trace o' = trace o_d ++ tail ∧
             Forall (fun ev => is_call_tool ev = false) tail) ∧
    exec_steps p (pre ++ sd :: post) init_locals (set_task_steps [] o) =
      exec_steps p (pre ++ [sd]) init_locals (set_task_steps [] o).
Proof.
  intros Hsteps Hpre Hb Hi Hm Hd.
  pose proof (exec_step_break p sd lc_k o_k _ _ _ _ _ _ _ _ Hb Hi Hm Hd) as Hstep.
  assert (∀ rest, exec_steps p (pre ++ sd :: rest) init_locals (set_task_steps [] o) =
            (Break, {| results := results lc_k; all_success := false |},
             finish t' (notify on_error (EvError ("Failed: " +:+ description t') e) o_d)))
    as Hrun.
  { intros rest. rewrite exec_steps_app, Hpre. simpl. by rewrite Hstep. }
  apply exec_steps_spec in Hpre as (ts & Hts & _ & _ & Hnext & _).
  destruct (Hnext eq_refl) as (Hlen & _ & _). simpl in Hts.
  apply self_debug_frame in Hd as (_ & _ & Hts_d).
  assert (task_steps o_f = task_steps o_k) as Hts_f.
  { injection Hm as _ <-. rewrite task_steps_notify.
    pose proof (invoke_task_steps sd o_b) as H. rewrite Hi in H. simpl in H.
    rewrite H. pose proof (begin_step_spec sd o_k) as (H' & _). by rewrite Hb in H'. }
  eexists _, _. unfold _execute_plan. rewrite Hsteps, (Hrun post), (Hrun []).
  split_and!; [done | done | done | | | | done].
  - simpl. rewrite task_steps_notify, Hts_d, Hts_f, Hts, length_app. simpl. lia.
  - simpl. by rewrite world_notify.
  - simpl. unfold notify. destruct on_error; simpl.
    + eexists. split; [done|]. by repeat constructor.
    + exists []. by rewrite app_nil_r.
Qed.

(** How [_execute_plan] can end, read off the loop. *)
Lemma execute_plan_spec (p : plan) (o : orch World) (r : task_result) (o' : orch World) :
  _execute_plan p o = (Ret r, o') →
  tr_steps r = omap entry_of (zip (steps p) (task_steps o')) ∧
  length (task_steps o') ≤ length (steps p) ∧
  (tr_success r = true →
     length (task_steps o') = length (steps p) ∧ Forall completed (task_steps o')) ∧
  (tr_success r = false → length (tr_steps r) < length (steps p)).
Proof.
  unfold _execute_plan.
  destruct (exec_steps _ _ _ _) as [[f lc] o1] eqn:E.
  apply exec_steps_spec in E as (ts & Hts & Hres & Hlen & Hnext & Hbreak).
  simpl in Hts, Hres.
  destruct f; [| |done]; intros [= <- <-]; simpl; rewrite Hts, Hres.
  - destruct (Hnext eq_refl) as (? & ? & Hs). rewrite (Hs eq_refl).
    split_and!; [done | done | done | done].
  - destruct (Hbreak eq_refl) as [-> ?]. split_and!; [done | done | done | done].
Qed.


(** *** The generated workflow *)

Lemma node_id_inj : Inj (=) (=) node_id.
Proof.
  intros i j H. unfold node_id in H.
  apply String.app_inj in H. by apply (inj pretty) in H.
Qed.

Lemma workflow_items_completed (i : nat) (ts : list TaskStep) :
  Forall completed ts →
  (workflow_items i ts).1 = zip_with make_node (seq i (length ts)) ts ∧
  Forall (fun c => ∃ j, i ≤ j < i + length ts ∧ 0 < j ∧
                        conn_out c = (node_id (j - 1), 0) ∧
                        conn_in c = (node_id j, 0))
         (workflow_items i ts).2.
Proof.
  intros Hc. revert i. induction Hc as [|t ts Ht _ IH]; intros i; simpl; [done|].
  destruct (IH (S i)) as [IH1 IH2].
  destruct (workflow_items (S i) ts) as [ns cs]. simpl in *.
  rewrite bool_decide_eq_true_2 by done. simpl. split; [by rewrite IH1|].
  apply Forall_app. split.
  - case_bool_decide; [|done]. repeat constructor. exists i. split_and!; [lia..|done|done].
  - eapply Forall_impl; [exact IH2|]. intros c (j & ? & ? & ? & ?).
    exists j. split_and!; [lia..|done|done].
Qed.

Lemma ids_of_made_nodes (i : nat) (ts : list TaskStep) :
  id <$> zip_with make_node (seq i (length ts)) ts = node_id <$> seq i (length ts).
Proof.
  revert i. induction ts as [|t ts IH]; intros i; simpl; [done|].
  by rewrite IH.
Qed.

Lemma index_nodes_acc_other (m : gmap string node) (ns : list node) (k : string) :
  k ∉ id <$> ns →
  foldl (fun m n => <[id n := n]> m) m ns !! k = m !! k.
Proof.
  revert m. induction ns as [|n ns IH]; intros m Hk; simpl; [done|].
  rewrite fmap_cons in Hk. apply not_elem_of_cons in Hk as [Hne Hk].
  rewrite IH by done. by rewrite lookup_insert_ne.
Qed.

Lemma index_nodes_acc_dom (m : gmap string node) (ns : list node) :
  dom (foldl (fun m n => <[id n := n]> m) m ns) = dom m ∪ list_to_set (id <$> ns).
Proof.
  revert m. induction ns as [|n ns IH]; intros m; simpl.
  - by rewrite (right_id_L ∅ (∪)).
  - rewrite IH, dom_insert_L.
    by rewrite (assoc_L (∪)), (comm_L (∪) {[id n]}).
Qed.

Lemma index_nodes_lookup (ns : list node) (n : node) :
  NoDup (id <$> ns) → n ∈ ns → index_nodes ns !! id n = Some n.
Proof.
  unfold index_nodes. generalize (∅ : gmap string node).
  induction ns as [|x ns IH]; intros m Hnd Hin; simpl.
  - by apply elem_of_nil in Hin.
  - rewrite fmap_cons in Hnd. apply NoDup_cons in Hnd as [Hx Hnd].
    apply elem_of_cons in Hin as [->|Hin].
    + rewrite index_nodes_acc_other by done. by rewrite lookup_insert_eq.
    + by apply IH.
Qed.

Lemma index_nodes_size (ns : list node) :
  NoDup (id <$> ns) → size (index_nodes ns) = length ns.
Proof.
  intros Hnd. rewrite <- size_dom. unfold index_nodes.
  rewrite index_nodes_acc_dom, dom_empty_L, (left_id_L ∅ (∪)).
  rewrite size_list_to_set by done. by rewrite length_fmap.
Qed.

(** The workflow generated from a list of completed steps. *)
Lemma generate_workflow_completed (p : plan) (r : task_result) (o : orch World) :
  Forall completed (task_steps o) →
  let wf := (_generate_workflow p r o).1 in
  size (nodes wf) = length (task_steps o) ∧
  (∀ i t, task_steps o !! i = Some t → nodes wf !! node_id i = Some (make_node i t)) ∧
  well_connected wf.
Proof.
  intros Hc. unfold _generate_workflow.
  destruct (workflow_items_completed 0 (task_steps o) Hc) as [Hns Hcs].
  destruct (workflow_items 0 (task_steps o)) as [ns cs]. simpl in Hns, Hcs. subst ns.
  destruct (datetime_now (world o)) as [now w]. simpl.
  set (ts := task_steps o) in *.
  assert (NoDup (id <$> zip_with make_node (seq 0 (length ts)) ts)) as Hnd.
  { rewrite ids_of_made_nodes. apply (NoDup_fmap_2 _ (Inj0 := node_id_inj)), NoDup_seq. }
  assert (∀ i t, ts !! i = Some t →
            index_nodes (zip_with make_node (seq 0 (length ts)) ts) !! node_id i
              = Some (make_node i t)) as Hlook.
  { intros i t Hi.
    apply (index_nodes_lookup _ (make_node i t) Hnd).
    apply list_elem_of_lookup. exists i.
    rewrite lookup_zip_with, lookup_seq_lt by (by eapply lookup_lt_Some).
    simpl. by rewrite Hi. }
  split_and!.
  - rewrite index_nodes_size by done. rewrite length_zip_with, length_seq. lia.
  - done.
  - unfold well_connected. simpl. eapply Forall_impl; [exact Hcs|].
    intros c (j & Hj & Hpos & -> & ->). simpl.
    destruct (lookup_lt_is_Some_2 ts j) as [tj Htj]; [lia|].
    destruct (lookup_lt_is_Some_2 ts (j - 1)) as [tk Htk]; [lia|].
    rewrite (Hlook _ _ Htj), (Hlook _ _ Htk). eauto.
Qed.

Lemma generate_workflow_task_steps (p : plan) (r : task_result) (o : orch World) :
  task_steps (_generate_workflow p r o).2 = task_steps o.
Proof.
  unfold _generate_workflow.
  destruct (workflow_items _ _), (datetime_now _). done.
Qed.

(** C10. When [process_user_message] attaches a workflow to the result,
    the result's success flag is true, every recorded step is completed,
    the node map has exactly one node per recorded step (the node
    [node_i] made from step [i]), and every connection joins two nodes of
    the map. *)
Theorem generated_workflow_is_well_formed
    (message : string) (o : orch World) (a : answer) (o' : orch World)
    (r : task_result) (wf : workflow) :
  process_user_message message o = (Ret a, o') →
  executed a = Some (r, Some wf) →
  tr_success r = true ∧
  Forall completed (task_steps o') ∧
  size (nodes wf) = length (task_steps o') ∧
  (∀ i t, task_steps o' !! i = Some t →
          nodes wf !! node_id i = Some (make_node i t)) ∧
  well_connected wf.
Proof.
  unfold process_user_message.
  destruct (_understand_and_plan _ _) as [[[p|]|e] o1]; [| |done].
  2:{ intros [= <- <-]. done. }
  destruct (_execute_plan p o1) as [[r'|e] o2] eqn:E; [|done].
  apply execute_plan_spec in E as (_ & _ & Hok & _).
  destruct (tr_success r') eqn:Hs.
  - destruct (Hok eq_refl) as [_ Hc].
    pose proof (generate_workflow_completed p r' o2 Hc) as Hwf.
    pose proof (generate_workflow_task_steps p r' o2) as Hts.
    destruct (_generate_workflow p r' o2) as [wf' o3]. simpl in *.
    intros [= <- <-]. simpl. intros [= <- <-].
    rewrite task_steps_notify, Hts. destruct Hwf as (? & ? & ?). by split_and!.
  - intros [= <- <-]. done.
Qed.

(** A broken camera: the diagnosis goes ahead without a screenshot. *)
Lemma self_debug_without_snapshot (t : TaskStep) (p : plan) (prev : list step_result)
    (o : orch World) (e : string) (w : World) :
  "desktop" ∈ mcp_clients →
  call_tool "desktop" "take_screenshot" ∅ (world o) = (Raise e, w) →
  let o1 := log (EvCallTool "desktop" "take_screenshot" ∅) (set_world w o) in
  take_debug_screenshot o = (None, o1) ∧
  _self_debug t p prev o = diagnose_and_fix None t p prev o1 ∧
  ∃ rq, last (trace (_self_debug t p prev o).2) = Some (EvDiagnose rq).
Proof.
  intros Hin Hcall. simpl.
  assert (take_debug_screenshot o =
            (None, log (EvCallTool "desktop" "take_screenshot" ∅) (set_world w o))) as Hshot.
  { unfold take_debug_screenshot. rewrite bool_decide_eq_true_2 by done.
    by rewrite Hcall. }
  split_and!; [done | unfold _self_debug; by rewrite Hshot |].
  unfold _self_debug. rewrite Hshot. unfold diagnose_and_fix.
  destruct (messages_create _ _) as [rp w'].
  destruct (parse_and_apply rp t) as [b s]. simpl.
  eexists. by rewrite last_snoc.
Qed.

(** A diagnosis that cannot be used (a text that is not JSON, JSON that
    is not an object, an object that lacks a key): [_self_debug] answers
    [False] and leaves the step as it was. *)
Lemma self_debug_unreadable (t : TaskStep) (p : plan) (prev : list step_result)
    (o : orch World) (rp : reply (decoded fix_suggestion)) :
  (messages_create
     {| dr_failed_step := t; dr_previous_results := prev; dr_plan := p;
        dr_history := conversation_history o |}
     (world (take_debug_screenshot o).2)).1 = rp →
  (∃ content, rp = NotJson content) ∨
    (∃ v, rp = Json (Other v)) ∨
    (∃ f, rp = Json (Object f) ∧ lacks_a_key f) →
  (_self_debug t p prev o).1 = (Ret false, t).
Proof.
  intros Hrp Hbad. unfold _self_debug, diagnose_and_fix.
  pose proof (take_debug_screenshot_frame o) as [_ Hh].
  destruct (take_debug_screenshot o) as [shot o1]. simpl in *. rewrite Hh.
  destruct (messages_create _ _) as [rp' w]. simpl in Hrp. subst rp'.
  destruct Hbad as [[c ->]|[[v ->]|(f & -> & Hf)]]; simpl; [done | done |].
  unfold apply_fix.
  destruct Hf as [Hf|[[Hf Hn]|[Hf Hn]]]; rewrite Hf; [done | |].
  - rewrite bool_decide_eq_false_2, bool_decide_eq_true_2 by done. by rewrite Hn.
  - rewrite !bool_decide_eq_false_2, bool_decide_eq_true_2 by done. by rewrite Hn.
Qed.

End OrchestratorFacts.

(** ** The observer: history and pattern table *)

Section ObserverFacts.

Import Observer.
Context {World Screenshot : Type} {C : Collaborators World Screenshot}.

Lemma table_le_refl (db : gmap string pattern_entry) : table_le db db.
Proof. intros l e H. exists e. by split_and!. Qed.

Lemma table_le_trans (a b c : gmap string pattern_entry) :
  table_le a b → table_le b c → table_le a c.
Proof.
  intros Hab Hbc l e H.
  destruct (Hab l e H) as (e1 & H1 & Hf1 & Hc1 & Hn1).
  destruct (Hbc l e1 H1) as (e2 & H2 & Hf2 & Hc2 & Hn2).
  exists e2. split_and!; [done | congruence | congruence | lia].
Qed.

(** One pattern: a new label enters with count 1, a known one gains 1. *)
Lemma learn_pattern_db (o : observer World) (pattern : string) :
  pattern_db (learn_pattern o pattern) =
    <[pattern :=
        match pattern_db o !! pattern with
        | None => {| first_seen := (datetime_now (world o)).1; count := 1; contexts := [] |}
        | Some e => {| first_seen := first_seen e; count := count e + 1;
                       contexts := contexts e |}
        end]> (pattern_db o).
Proof.
  unfold learn_pattern. destruct (pattern_db o !! pattern); [done|].
  by destruct (datetime_now (world o)).
Qed.

Lemma learn_pattern_frame (o : observer World) (pattern : string) :
  observation_history (learn_pattern o pattern) = observation_history o ∧
  trace (learn_pattern o pattern) = trace o ∧
  observing (learn_pattern o pattern) = observing o.
Proof.
  unfold learn_pattern. destruct (pattern_db o !! pattern); [done|].
  by destruct (datetime_now (world o)).
Qed.

Lemma learn_pattern_le (o : observer World) (pattern : string) :
  table_le (pattern_db o) (pattern_db (learn_pattern o pattern)).
Proof.
  rewrite learn_pattern_db. intros l e H.
  destruct (decide (l = pattern)) as [->|Hne].
  - rewrite H, lookup_insert_eq. eexists. split_and!; [done | done | done | simpl; lia].
  - rewrite lookup_insert_ne by done. exists e. by split_and!.
Qed.

Lemma learn_patterns_spec (patterns : list string) (o : observer World) :
  table_le (pattern_db o) (pattern_db (_learn_patterns patterns o)) ∧
  observation_history (_learn_patterns patterns o) = observation_history o ∧
  trace (_learn_patterns patterns o) = trace o.
Proof.
  unfold _learn_patterns. revert o.
  induction patterns as [|p ps IH]; intros o; simpl.
  - split_and!; [apply table_le_refl | done | done].
  - destruct (IH (learn_pattern o p)) as (Hle & Hh & Ht).
    destruct (learn_pattern_frame o p) as (Hh' & Ht' & _).
    split_and!; [|congruence|congruence].
    eapply table_le_trans; [apply learn_pattern_le | done].
Qed.

Lemma detect_frame (shot : Screenshot) (o : observer World) :
  pattern_db (_detect_ui_elements shot o).2 = pattern_db o ∧
  observation_history (_detect_ui_elements shot o).2 = observation_history o.
Proof.
  unfold _detect_ui_elements. destruct yolo_model as [model|]; [|done].
  by destruct (model shot (world o)) as [[boxes|e] w].
Qed.

(** A detector that raises gives no elements. *)
Lemma detect_failure (model : Screenshot → World → res (list box) * World)
    (shot : Screenshot) (o : observer World) (e : string) (w : World) :
  yolo_model = Some model →
  model shot (world o) = (Raise e, w) →
  _detect_ui_elements shot o = ([], log EvDetect (set_world w o)).
Proof.
  intros Hm Hr. unfold _detect_ui_elements. by rewrite Hm, Hr.
Qed.

Lemma analyze_spec (b64 : string) (detected : list element) (o : observer World) :
  table_le (pattern_db o) (pattern_db (_claude_analyze_screen b64 detected o).2) ∧
  observation_history (_claude_analyze_screen b64 detected o).2 = observation_history o.
Proof.
  unfold _claude_analyze_screen.
  destruct (claude_create _ _) as [[e|c|[a|v]] w]; simpl;
    try (split; [apply table_le_refl | done]).
  - destruct (patterns_observed a) as [ps|]; simpl;
      [|split; [apply table_le_refl | done]].
    destruct (learn_patterns_spec ps
                (log (EvAnalyze (build_request b64 detected o)) (set_world w o)))
      as (Hle & Hh & _).
    done.
  - destruct (str_in _ v) as [[|]|]; simpl; (split; [apply table_le_refl | done]).
Qed.

(** An analysis that could not be read: the fallback dictionary, and
    nothing is learnt. *)
Lemma analyze_unreadable (b64 : string) (detected : list element)
    (o : observer World) (r : reply (decoded analysis)) (w : World) :
  claude_create (build_request b64 detected o) (world o) = (r, w) →
  caught r →
  _claude_analyze_screen b64 detected o =
    (Object analysis_failed,
     log (EvAnalyze (build_request b64 detected o)) (set_world w o)).
Proof.
  intros H Hr. unfold _claude_analyze_screen. rewrite H.
  destruct Hr as [[c ->]|(v & -> & Hv)]; [done|].
  by destruct (str_in _ v) as [[|]|].
Qed.

(** JSON that is not an object and passes the [try] is returned as it is. *)
Lemma analyze_handed_on (b64 : string) (detected : list element)
    (o : observer World) (r : reply (decoded analysis)) (v : json_other) (w : World) :
  claude_create (build_request b64 detected o) (world o) = (r, w) →
  handed_on r v →
  _claude_analyze_screen b64 detected o =
    (Other v, log (EvAnalyze (build_request b64 detected o)) (set_world w o)).
Proof.
  intros H [-> Hv]. unfold _claude_analyze_screen. by rewrite H, Hv.
Qed.

Lemma observe_and_analyze_spec (shot : Screenshot) (o : observer World) :
  table_le (pattern_db o) (pattern_db (_observe_and_analyze shot o).2) ∧
  observation_history (_observe_and_analyze shot o).2 = observation_history o.
Proof.
  unfold _observe_and_analyze.
  destruct (datetime_now (world o)) as [now w].
  set (o1 := set_world w o).
  assert (∃ d o2, match yolo_model with
                  | Some _ => _detect_ui_elements shot o1
                  | None => ([], o1)
                  end = (d, o2) ∧ pattern_db o2 = pattern_db o ∧
                  observation_history o2 = observation_history o) as (d & o2 & -> & Hdb & Hh).
  { destruct yolo_model eqn:E.
    - destruct (detect_frame shot o1) as [? ?].
      destruct (_detect_ui_elements shot o1) as [d o2]. by exists d, o2.
    - by exists [], o1. }
  destruct (screenshot_to_base64 shot) as [b64|e]; simpl.
  - destruct (analyze_spec b64 d o2) as [Hle Hh'].
    destruct (_claude_analyze_screen b64 d o2) as [[a|v] o3]; simpl in *;
      rewrite <- Hdb, Hh', Hh; done.
  - rewrite Hdb, Hh. split; [apply table_le_refl | done].
Qed.

Lemma pattern_db_notify (b : bool) (ev : event) (o : observer World) :
  pattern_db (notify b ev o) = pattern_db o.
Proof. by destruct b. Qed.

Lemma history_notify (b : bool) (ev : event) (o : observer World) :
  observation_history (notify b ev o) = observation_history o.
Proof. by destruct b. Qed.

(** One cycle: the table only grows, and the history gains exactly one
    observation at its end when the cycle completes, none when it raises. *)
Lemma observe_once_spec (o : observer World) :
  table_le (pattern_db o) (pattern_db (observe_once o).2) ∧
  match (observe_once o).1 with
  | Ret _ => ∃ obs, observation_history (observe_once o).2 = observation_history o ++ [obs]
  | Raise _ => observation_history (observe_once o).2 = observation_history o
  end.
Proof.
  unfold observe_once.
  destruct (grab (world o)) as [[shot|e] w]; simpl;
    [|split; [apply table_le_refl | done]].
  set (o1 := log EvGrab (set_world w o)).
  destruct (observe_and_analyze_spec shot o1) as [Hle Hh].
  destruct (_observe_and_analyze shot o1) as [[obs|e] o2]; simpl in *; [|done].
  rewrite !pattern_db_notify, !history_notify. simpl. rewrite Hh. eauto.
Qed.

Lemma observe_loop_spec (cycles : nat) (o : observer World) :
  table_le (pattern_db o) (pattern_db (observe_loop cycles o).2) ∧
  ∃ added, observation_history (observe_loop cycles o).2 = observation_history o ++ added ∧
           length added ≤ cycles ∧
           (length added = cycles ∨ ∃ e, (observe_loop cycles o).1 = Raise e).
Proof.
  revert o. induction cycles as [|n IH]; intros o; simpl.
  - split; [apply table_le_refl|]. exists []. rewrite app_nil_r. auto.
  - destruct (observe_once_spec o) as [Hle Hh].
    destruct (observe_once o) as [[[]|e] o1]; simpl in *.
    + destruct Hh as [obs Hh]. destruct (IH o1) as (Hle' & added & Ha & Hlen & Hend).
      split; [by eapply table_le_trans|].
      exists (obs :: added). rewrite Ha, Hh, <- app_assoc. simpl.
      split_and!; [done | lia |]. destruct Hend as [?|?]; [left; lia | by right].
    + split; [done|]. exists []. rewrite app_nil_r. split_and!; [done | simpl; lia | eauto].
Qed.

Lemma start_observing_spec (cycles : nat) (o : observer World) :
  table_le (pattern_db o) (pattern_db (start_observing cycles o).2) ∧
  ∃ added, observation_history (start_observing cycles o).2 = observation_history o ++ added ∧
           length added ≤ cycles ∧
           (length added = cycles ∨ ∃ e, (start_observing cycles o).1 = Raise e).
Proof.
  unfold start_observing.
  pose proof (observe_loop_spec cycles (set_observing true o)) as H.
  destruct (observe_loop cycles (set_observing true o)) as [r o']. done.
Qed.

(** C3 (amended). The observation history is append-only and has no bound:
    a run of the loop leaves the observations it found in place and in
    order and adds one observation per completed cycle at the end, so
    after [cycles] cycles that all complete it holds [cycles] observations
    more than before; nothing is ever evicted. *)
Theorem history_is_append_only (cycles : nat) (o : observer World) :
  ∃ added : list ObservationResult,
    observation_history (start_observing cycles o).2 = observation_history o ++ added ∧
    length added ≤ cycles ∧
    (length added = cycles ∨ ∃ e, (start_observing cycles o).1 = Raise e).
Proof. apply start_observing_spec. Qed.

(** C7. The pattern table only grows during a session.  Learning one
    pattern inserts the label with count 1 (and the current time as first
    seen) when it is new and adds 1 to its count when it is known, leaving
    every other entry alone; and across [_learn_patterns], a whole cycle
    and a whole run of the loop every label stays in the table with the
    first-seen time it had and a count that is not smaller. *)
Theorem pattern_table_is_monotone
    (o : observer World) (pattern : string) (patterns : list string) (cycles : nat) :
  pattern_db (learn_pattern o pattern) =
    <[pattern :=
        match pattern_db o !! pattern with
        | None => {| first_seen := (datetime_now (world o)).1; count := 1; contexts := [] |}
        | Some e => {| first_seen := first_seen e; count := count e + 1;
                       contexts := contexts e |}
        end]> (pattern_db o) ∧
  table_le (pattern_db o) (pattern_db (_learn_patterns patterns o)) ∧
  table_le (pattern_db o) (pattern_db (observe_once o).2) ∧
  table_le (pattern_db o) (pattern_db (start_observing cycles o).2).
Proof.
  split_and!.
  - apply learn_pattern_db.
  - apply learn_patterns_spec.
  - apply observe_once_spec.
  - apply start_observing_spec.
Qed.

(** A cycle whose detector raises goes on to the analysis with no
    elements; what the analysis returns decides how the cycle ends. *)
Lemma cycle_with_broken_detector
    (model : Screenshot → World → res (list box) * World) (o : observer World)
    (shot : Screenshot) (w1 : World) (now : Z) (w2 : World) (e : string) (w3 : World)
    (b64 : string) :
  yolo_model = Some model →
  grab (world o) = (Ret shot, w1) →
  datetime_now w1 = (now, w2) →
  model shot w2 = (Raise e, w3) →
  screenshot_to_base64 shot = Ret b64 →
  let o1 := set_world w2 (log EvGrab (set_world w1 o)) in
  (_detect_ui_elements shot o1).1 = [] ∧
  match (_claude_analyze_screen b64 [] (_detect_ui_elements shot o1).2).1 with
  | Object _ =>
      ∃ obs, (observe_once o).1 = Ret tt ∧
             observation_history (observe_once o).2 = observation_history o ++ [obs] ∧
             detected_elements obs = []
  | Other v => (observe_once o).1 = Raise (no_attribute v "get")
  end.
Proof.
  intros Hm Hg Hn Hr Hb. simpl.
  erewrite detect_failure by done. split; [done|]. simpl.
  unfold observe_once. rewrite Hg. unfold _observe_and_analyze. simpl. rewrite Hn, Hm.
  erewrite detect_failure by done. rewrite Hb.
  match goal with |- context [_claude_analyze_screen ?b ?d ?x] =>
    destruct (analyze_spec b d x) as [_ Hh];
    destruct (_claude_analyze_screen b d x) as [[a|v] o3] end; simpl in *; [|done].
  eexists. rewrite !history_notify. simpl. rewrite Hh. done.
Qed.

(** The detection step of a cycle leaves the table and the history alone
    and emits neither an error nor a suggestion. *)
Lemma detection_step (shot : Screenshot) (o : observer World) :
  ∃ d o2,
    match yolo_model with
    | Some _ => _detect_ui_elements shot o
    | None => ([], o)
    end = (d, o2) ∧
    pattern_db o2 = pattern_db o ∧
    observation_history o2 = observation_history o ∧
    List.filter is_error_event (trace o2) = List.filter is_error_event (trace o) ∧
    List.filter is_suggestion_event (trace o2)
      = List.filter is_suggestion_event (trace o).
Proof.
  destruct yolo_model as [model|] eqn:E; [|by exists [], o].
  unfold _detect_ui_elements. rewrite E.
  destruct (model shot (world o)) as [[boxes|e] w]; eexists _, _;
    (split; [done|]); simpl; rewrite !List.filter_app; simpl;
    by rewrite !app_nil_r.
Qed.

(** A cycle whose analysis is caught by the [except] branch: it completes
    unless the grab or the encoding raises, and what it records looks like
    a screen without a problem. *)
Lemma cycle_with_caught_reply (o : observer World) :
  (∀ rq w, caught (claude_create rq w).1) →
  pattern_db (observe_once o).2 = pattern_db o ∧
  match (observe_once o).1 with
  | Ret _ =>
      ∃ obs, observation_history (observe_once o).2 = observation_history o ++ [obs] ∧
             claude_analysis obs = "Analysis failed" ∧
             suggested_next_action obs = None ∧
             debug_suggestions obs = [] ∧
             List.filter is_error_event (trace (observe_once o).2)
               = List.filter is_error_event (trace o) ∧
             List.filter is_suggestion_event (trace (observe_once o).2)
               = List.filter is_suggestion_event (trace o)
  | Raise e =>
      observation_history (observe_once o).2 = observation_history o ∧
      ((grab (world o)).1 = Raise e ∨ ∃ shot, screenshot_to_base64 shot = Raise e)
  end.
Proof.
  intros Hall. unfold observe_once.
  destruct (grab (world o)) as [[shot|e] w] eqn:Hg; simpl; [|by eauto].
  unfold _observe_and_analyze. simpl.
  destruct (datetime_now w) as [now w'].
  destruct (detection_step shot (set_world w' (log EvGrab (set_world w o))))
    as (d & o2 & -> & Hdb & Hh & He & Hs).
  simpl in Hdb, Hh, He, Hs. rewrite List.filter_app in He, Hs.
  simpl in He, Hs. rewrite app_nil_r in He, Hs.
  destruct (screenshot_to_base64 shot) as [b64|e] eqn:Hb; simpl.
  2:{ rewrite Hdb, Hh. split_and!; [done | done | eauto]. }
  destruct (claude_create (build_request b64 d o2) (world o2)) as [r w''] eqn:Hr.
  rewrite (analyze_unreadable b64 d o2 r w'' Hr)
    by (specialize (Hall (build_request b64 d o2) (world o2)); by rewrite Hr in Hall).
  simpl. split; [by rewrite !pattern_db_notify|].
  eexists. rewrite !history_notify. simpl. rewrite Hh. simpl.
  split_and!; [done | done | done | done | |].
  - unfold notify. destruct on_observation; simpl;
      repeat (rewrite List.filter_app; simpl); by rewrite ?app_nil_r.
  - unfold notify. destruct on_observation; simpl;
      repeat (rewrite List.filter_app; simpl); by rewrite ?app_nil_r.
Qed.

(** A cycle whose analysis is an object: it completes unless the grab or
    the encoding raises, and a key the object lacks is read as its
    default. *)
Lemma cycle_with_object_reply (o : observer World) :
  (∀ rq w, ∃ a, (claude_create rq w).1 = Json (Object a)) →
  match (observe_once o).1 with
  | Ret _ =>
      ∃ obs a rq w,
        (claude_create rq w).1 = Json (Object a) ∧
        observation_history (observe_once o).2 = observation_history o ++ [obs] ∧
        claude_analysis obs = default "" (understanding a) ∧
        suggested_next_action obs = next_action a ∧
        confidence obs = default 0%Q (an_confidence a) ∧
        debug_suggestions obs = default [] (an_debug_suggestions a)
  | Raise e =>
      observation_history (observe_once o).2 = observation_history o ∧
      ((grab (world o)).1 = Raise e ∨ ∃ shot, screenshot_to_base64 shot = Raise e)
  end.
Proof.
  intros Hall. unfold observe_once.
  destruct (grab (world o)) as [[shot|e] w] eqn:Hg; simpl; [|by eauto].
  unfold _observe_and_analyze. simpl.
  destruct (datetime_now w) as [now w'].
  destruct (detection_step shot (set_world w' (log EvGrab (set_world w o))))
    as (d & o2 & -> & _ & Hh & _ & _).
  simpl in Hh.
  destruct (screenshot_to_base64 shot) as [b64|e] eqn:Hb; simpl; [|by eauto].
  pose proof (analyze_spec b64 d o2) as [_ Hh'].
  unfold _claude_analyze_screen in *.
  destruct (Hall (build_request b64 d o2) (world o2)) as [a Ha].
  destruct (claude_create (build_request b64 d o2) (world o2)) as [r w''] eqn:Hr.
  simpl in Ha. subst r.
  destruct (patterns_observed a) as [ps|]; simpl in *;
    (eexists _, a, (build_request b64 d o2), (world o2);
     split; [by rewrite Hr|]);
    rewrite !history_notify; simpl.
  - by rewrite Hh', Hh.
  - by rewrite Hh.
Qed.

(** A cycle whose analysis is JSON that is not an object and passes the
    [try]: the cycle raises and records nothing. *)
Lemma cycle_with_handed_on_reply (o : observer World) :
  (∀ rq w, ∃ v, handed_on (claude_create rq w).1 v) →
  observation_history (observe_once o).2 = observation_history o ∧
  pattern_db (observe_once o).2 = pattern_db o ∧
  ∃ e, (observe_once o).1 = Raise e ∧
       ((grab (world o)).1 = Raise e ∨
        (∃ shot, screenshot_to_base64 shot = Raise e) ∨
        ∃ v, e = no_attribute v "get").
Proof.
  intros Hall. unfold observe_once.
  destruct (grab (world o)) as [[shot|e] w] eqn:Hg; simpl; [|by eauto 6].
  unfold _observe_and_analyze. simpl.
  destruct (datetime_now w) as [now w'].
  destruct (detection_step shot (set_world w' (log EvGrab (set_world w o))))
    as (d & o2 & -> & Hdb & Hh & _ & _).
  destruct (screenshot_to_base64 shot) as [b64|e] eqn:Hb; simpl.
  2:{ rewrite Hdb, Hh. split_and!; [done | done | eauto 6]. }
  destruct (claude_create (build_request b64 d o2) (world o2)) as [r w''] eqn:Hr.
  destruct (Hall (build_request b64 d o2) (world o2)) as [v Hv]. rewrite Hr in Hv.
  rewrite (analyze_handed_on b64 d o2 r v w'' Hr Hv). simpl.
  split_and!; [done | done | eauto 6].
Qed.

(** A cycle that raises ends the loop, which records nothing more. *)
Lemma raising_cycle_ends_the_loop (cycles : nat) (o : observer World) (e : string) :
  (observe_once (set_observing true o)).1 = Raise e →
  (start_observing (S cycles) o).1 = Raise e ∧
  observation_history (start_observing (S cycles) o).2
    = observation_history (observe_once (set_observing true o)).2.
Proof.
  intros H. unfold start_observing. simpl.
  destruct (observe_once (set_observing true o)) as [[[]|x] o1]; simpl in *; [done|].
  by simplify_eq.
Qed.

End ObserverFacts.

(** ** The action interpreter *)

Section ExecutorFacts.

Import Executor.
Context {World : Type} {C : Collaborators World}.

(** C9. An action string without a colon, and an action whose command is
    none of the known ones, make [_execute_action] return normally: no
    automation call is made (the world is the one it started in), nothing
    is slept, and the trace grows by printed lines only. *)
Theorem unknown_actions_are_inert (action : string) (e : executor World) :
  str_contains ":" action = false ∨ (split_colon action).1 ∉ known_commands →
  ∃ (e' : executor World) (printed : list string),
    _execute_action action e = (Ret tt, e') ∧
    world e' = world e ∧
    trace e' = trace e ++ (EvPrint <$> printed) ∧
    (execution_log e' = execution_log e ∨
     ∃ line, execution_log e' = execution_log e ++ [line]).
Proof.
  intros H. unfold _execute_action.
  destruct (str_contains ":" action) eqn:Hcolon; simpl.
  - destruct H as [?|Hk]; [done|].
    destruct (split_colon action) as [command param]. simpl in Hk.
    unfold known_commands in Hk.
    rewrite !not_elem_of_cons in Hk.
    destruct Hk as (? & ? & ? & ? & ? & ? & ? & ? & ? & _).
    rewrite !bool_decide_eq_false_2 by done.
    eexists _, [_; _]. simpl. split_and!; [done | done | | eauto].
    simpl. by rewrite <- app_assoc.
  - eexists _, [_]. split_and!; [done | done | done | by left].
Qed.

End ExecutorFacts.

(** ** Failures of the collaborators *)

Section FailureHandling.

Context {W1 : Type} {C1 : Orchestrator.Collaborators W1}.
Context {W2 Screenshot : Type} {C2 : Observer.Collaborators W2 Screenshot}.

(** C8. Failures of the sampler before a diagnosis and of the detector in
    a cycle are absorbed.  When the screenshot call of [_self_debug]
    raises, the recovery goes on exactly as [diagnose_and_fix] does with
    no screenshot, and the diagnostic service is consulted.  When the
    detector raises in a cycle (the screen having been grabbed and
    encoded), [_detect_ui_elements] returns the empty list and the cycle
    goes on to the analysis with no elements: it completes, recording an
    observation without elements, whenever the analysis returns a
    dictionary; an analysis that is not a dictionary ends the cycle with
    its own exception, whatever the detector did. *)
Theorem sampler_and_detector_failures_are_absorbed :
  (∀ (t : Orchestrator.TaskStep) (p : Orchestrator.plan)
     (prev : list Orchestrator.step_result) (o : Orchestrator.orch W1)
     (e : string) (w : W1),
     "desktop" ∈ Orchestrator.mcp_clients →
     Orchestrator.call_tool "desktop" "take_screenshot" ∅ (Orchestrator.world o)
       = (Raise e, w) →
     let o1 := Orchestrator.log (Orchestrator.EvCallTool "desktop" "take_screenshot" ∅)
                                (Orchestrator.set_world w o) in
     Orchestrator.take_debug_screenshot o = (None, o1) ∧
     Orchestrator._self_debug t p prev o = Orchestrator.diagnose_and_fix None t p prev o1 ∧
     ∃ rq, last (Orchestrator.trace (Orchestrator._self_debug t p prev o).2)
             = Some (Orchestrator.EvDiagnose rq)) ∧
  (∀ (model : Screenshot → W2 → res (list Observer.box) * W2) (o : Observer.observer W2)
     (shot : Screenshot) (w1 : W2) (now : Z) (w2 : W2) (e : string) (w3 : W2)
     (b64 : string),
     Observer.yolo_model = Some model →
     Observer.grab (Observer.world o) = (Ret shot, w1) →
     Observer.datetime_now w1 = (now, w2) →
     model shot w2 = (Raise e, w3) →
     Observer.screenshot_to_base64 shot = Ret b64 →
     let o1 :=
       Observer.set_world w2 (Observer.log Observer.EvGrab (Observer.set_world w1 o)) in
     (Observer._detect_ui_elements shot o1).1 = [] ∧
     match (Observer._claude_analyze_screen b64 []
              (Observer._detect_ui_elements shot o1).2).1 with
     | Object _ =>
         ∃ obs, (Observer.observe_once o).1 = Ret tt ∧
                Observer.observation_history (Observer.observe_once o).2
                  = Observer.observation_history o ++ [obs] ∧
                Observer.detected_elements obs = []
     | Other v => (Observer.observe_once o).1 = Raise (no_attribute v "get")
     end).
Proof.
  split.
  - intros. by eapply self_debug_without_snapshot.
  - intros. by eapply cycle_with_broken_detector.
Qed.

(** C4 (amended). A malformed or unparseable response is handled
    differently by the two callers, and among the malformed ones
    differently again.

    Failure diagnosis: a text that is not JSON, JSON that is not an
    object, and an object that lacks a key the dispatch reads all make
    [_self_debug] return [False] with the step untouched.

    Screen understanding: a text that is not JSON, and JSON that is not
    an object on which the search for "patterns_observed" raises or
    succeeds, make [_claude_analyze_screen] return the fixed dictionary
    [analysis_failed] (understanding "Analysis failed", state "unknown",
    no next action, confidence 0.0, empty issue and suggestion lists) and
    learn no pattern; a cycle of such a service raises only when the grab
    or the encoding does, and otherwise records an observation with that
    understanding, no next action and no suggestion, and emits neither an
    error nor a suggestion.  Any other JSON that is not an object is
    returned as it is, and learns no pattern; a cycle of such a service
    always raises (the exception of the grab, of the encoding, or of the
    missing [get]), records nothing, and ends the loop.  An object is
    read key by key, and a key it lacks is read as its default: no
    understanding, no next action, confidence 0.0, no suggestion. *)
Theorem unreadable_responses_are_handled :
  (∀ (t : Orchestrator.TaskStep) (p : Orchestrator.plan)
     (prev : list Orchestrator.step_result) (o : Orchestrator.orch W1)
     (rp : reply (decoded Orchestrator.fix_suggestion)),
     (Orchestrator.messages_create
        {| Orchestrator.dr_failed_step := t;
           Orchestrator.dr_previous_results := prev;
           Orchestrator.dr_plan := p;
           Orchestrator.dr_history := Orchestrator.conversation_history o |}
        (Orchestrator.world (Orchestrator.take_debug_screenshot o).2)).1 = rp →
     (∃ content, rp = NotJson content) ∨
       (∃ v, rp = Json (Other v)) ∨
       (∃ f, rp = Json (Object f) ∧ Orchestrator.lacks_a_key f) →
     (Orchestrator._self_debug t p prev o).1 = (Ret false, t)) ∧
  (∀ (b64 : string) (detected : list Observer.element) (o : Observer.observer W2)
     (r : reply (decoded Observer.analysis)) (w : W2),
     Observer.claude_create (Observer.build_request b64 detected o) (Observer.world o)
       = (r, w) →
     (Observer.caught r →
      (Observer._claude_analyze_screen b64 detected o).1
        = Object Observer.analysis_failed ∧
      Observer.pattern_db (Observer._claude_analyze_screen b64 detected o).2
        = Observer.pattern_db o ∧
      Observer.understanding Observer.analysis_failed = Some "Analysis failed" ∧
      Observer.state Observer.analysis_failed = Some "unknown" ∧
      Observer.reports_no_issue Observer.analysis_failed) ∧
     (∀ v, Observer.handed_on r v →
      (Observer._claude_analyze_screen b64 detected o).1 = Other v ∧
      Observer.pattern_db (Observer._claude_analyze_screen b64 detected o).2
        = Observer.pattern_db o)) ∧
  ((∀ rq w, Observer.caught (Observer.claude_create rq w).1) →
   ∀ o : Observer.observer W2,
     Observer.pattern_db (Observer.observe_once o).2 = Observer.pattern_db o ∧
     match (Observer.observe_once o).1 with
     | Ret _ =>
         ∃ obs,
           Observer.observation_history (Observer.observe_once o).2
             = Observer.observation_history o ++ [obs] ∧
           Observer.claude_analysis obs = "Analysis failed" ∧
           Observer.suggested_next_action obs = None ∧
           Observer.debug_suggestions obs = [] ∧
           List.filter Observer.is_error_event
             (Observer.trace (Observer.observe_once o).2)
             = List.filter Observer.is_error_event (Observer.trace o) ∧
           List.filter Observer.is_suggestion_event
             (Observer.trace (Observer.observe_once o).2)
             = List.filter Observer.is_suggestion_event (Observer.trace o)
     | Raise e =>
         Observer.observation_history (Observer.observe_once o).2
           = Observer.observation_history o ∧
         ((Observer.grab (Observer.world o)).1 = Raise e ∨
          ∃ shot, Observer.screenshot_to_base64 shot = Raise e)
     end) ∧
  ((∀ rq w, ∃ v, Observer.handed_on (Observer.claude_create rq w).1 v) →
   ∀ (o : Observer.observer W2) (cycles : nat),
     ∃ e, (Observer.start_observing (S cycles) o).1 = Raise e ∧
          Observer.observation_history (Observer.start_observing (S cycles) o).2
            = Observer.observation_history o ∧
          ((Observer.grab (Observer.world o)).1 = Raise e ∨
           (∃ shot, Observer.screenshot_to_base64 shot = Raise e) ∨
           ∃ v, e = no_attribute v "get")) ∧
  ((∀ rq w, ∃ a, (Observer.claude_create rq w).1 = Json (Object a)) →
   ∀ o : Observer.observer W2,
     match (Observer.observe_once o).1 with
     | Ret _ =>
         ∃ obs a rq w,
           (Observer.claude_create rq w).1 = Json (Object a) ∧
           Observer.observation_history (Observer.observe_once o).2
             = Observer.observation_history o ++ [obs] ∧
           Observer.claude_analysis obs = default "" (Observer.understanding a) ∧
           Observer.suggested_next_action obs = Observer.next_action a ∧
           Observer.confidence obs = default 0%Q (Observer.an_confidence a) ∧
           Observer.debug_suggestions obs
             = default [] (Observer.an_debug_suggestions a)
     | Raise e =>
         Observer.observation_history (Observer.observe_once o).2
           = Observer.observation_history o ∧
         ((Observer.grab (Observer.world o)).1 = Raise e ∨
          ∃ shot, Observer.screenshot_to_base64 shot = Raise e)
     end).
Proof.
  split_and!; [| | | |intros Hall o; by apply cycle_with_object_reply].
  - intros. by eapply self_debug_unreadable.
  - intros b64 detected o r w H. split.
    + intros Hr. rewrite (analyze_unreadable _ _ _ _ _ H Hr). by split_and!.
    + intros v Hv. by rewrite (analyze_handed_on _ _ _ _ _ _ H Hv).
  - intros Hall o. by apply cycle_with_caught_reply.
  - intros Hall o cycles.
    destruct (cycle_with_handed_on_reply (Observer.set_observing true o) Hall)
      as (Hh & _ & e & He & Hwhy).
    destruct (raising_cycle_ends_the_loop cycles o e He) as [Hr Hh'].
    exists e. split_and!; [done | by rewrite Hh', Hh | done].
Qed.

End FailureHandling.

(** ** The properties on concrete runs *)

Section ScenarioFacts.

Import Scenario.

(** C1, on the login plan with a diagnostic service whose answer is not
    JSON: the first click fails, the recovery answers [False], and the
    plan stops with one step object and no entry. *)
Lemma failed_recovery_stops_the_plan_witness :
  ∃ r o',
    Orchestrator._execute_plan (C := desktop true gibberish gibberish) login_plan fresh
      = (Ret r, o') ∧
    Orchestrator.tr_success r = false ∧
    Orchestrator.tr_steps r = [] ∧
    length (Orchestrator.task_steps o') = 1.
Proof.
  destruct (failed_recovery_stops_the_plan (C := desktop true gibberish gibberish)
              login_plan [] [type_credentials; click_submit] click_login fresh
              _ _ _ _ _ _ _ _ _ _
              eq_refl eq_refl eq_refl eq_refl eq_refl eq_refl)
    as (r & o' & Hrun & Hs & Hsteps & Hlen & _).
  exists r, o'. split_and!; [exact Hrun | exact Hs | exact Hsteps | exact Hlen].
Defined.

(** C2. The code departs from the claim: with a diagnosis whose strategy
    is "skip", [_self_debug] returns [False] and leaves the step as it was
    (in error, with no result), and [_execute_plan] stops at that step
    with a false success flag, the two later steps never being started. *)
Theorem skip_strategy_stops_the_plan :
  (Orchestrator._self_debug (C := desktop true gibberish (Json skip_it))
     failed_click login_plan [] fresh).1 = (Ret false, failed_click) ∧
  (Orchestrator._execute_plan (C := desktop true gibberish (Json skip_it))
     login_plan fresh).1
    = Ret {| Orchestrator.tr_success := false;
             Orchestrator.tr_steps := [];
             Orchestrator.tr_task_summary := "Log in" |} ∧
  map (fun t => (Orchestrator.description t, Orchestrator.status t, Orchestrator.result t))
      (Orchestrator.task_steps
         (Orchestrator._execute_plan (C := desktop true gibberish (Json skip_it))
            login_plan fresh).2)
    = [("Click the login button", "error", None)].
Proof. split_and!; reflexivity. Qed.

(** C5. The code departs from the claim: with the "modify_args" fix of the
    specification's scenario, [_self_debug] merges the new arguments into
    the step's (the coordinates are added, the target is kept) but makes no
    second tool call (its only call is the screenshot) and returns [False],
    although the call with the merged arguments would succeed in the world
    the recovery leaves. *)
Theorem modify_args_merges_without_retrying :
  (Orchestrator._self_debug (C := desktop true gibberish (Json use_coordinates))
     failed_click login_plan [] fresh).1.1 = Ret false ∧
  Orchestrator.args
    (Orchestrator._self_debug (C := desktop true gibberish (Json use_coordinates))
       failed_click login_plan [] fresh).1.2
    = <["x" := PInt 120]> (<["y" := PInt 340]> {["target" := PStr "login"]}) ∧
  List.filter Orchestrator.is_call_tool
    (Orchestrator.trace
       (Orchestrator._self_debug (C := desktop true gibberish (Json use_coordinates))
          failed_click login_plan [] fresh).2)
    = [Orchestrator.EvCallTool "desktop" "take_screenshot" ∅] ∧
  (Orchestrator.call_tool (Collaborators := desktop true gibberish (Json use_coordinates))
     "desktop" "click"
     (<["x" := PInt 120]> (<["y" := PInt 340]> {["target" := PStr "login"]})) 2).1
    = Ret (PDict {["success" := PBool true]}).
Proof. split_and!; reflexivity. Qed.

(** C6. The code departs from the claim: on the login plan, whose first
    step fails and is not recovered, the task result has no entry at all,
    neither for the failed step nor for the two steps that were never
    reached, although the failed step sits, in error, in the list of step
    objects; and [_format_response], which counts the entries whose
    success flag is true among all the entries, reports "Completed 0 of 0
    steps" for this plan of three steps. *)
Theorem failed_step_has_no_entry :
  ∃ r o',
    Orchestrator._execute_plan (C := desktop true gibberish gibberish) login_plan fresh
      = (Ret r, o') ∧
    Orchestrator.tr_success r = false ∧
    Orchestrator.tr_steps r = [] ∧
    length (Orchestrator.steps login_plan) = 3 ∧
    ¬ Orchestrator.enumerates_every_step login_plan r ∧
    map (fun t => (Orchestrator.description t, Orchestrator.status t, Orchestrator.error t))
        (Orchestrator.task_steps o')
      = [("Click the login button", "error", Some "element not found")] ∧
    Orchestrator._format_response r None =
      "✗ **Task partially completed**" +:+ Orchestrator.nl +:+ Orchestrator.nl +:+
      "Completed 0 of 0 steps." +:+ Orchestrator.nl +:+ Orchestrator.nl +:+
      "Some steps failed. Would you like me to try a different approach?".
Proof.
  eexists _, _.
  split_and!; [reflexivity | reflexivity | reflexivity | reflexivity | | reflexivity
               | reflexivity].
  intros H. apply Forall_cons in H as [H _]. simpl in H.
  by apply Exists_nil in H.
Qed.


(** C10, on a plan whose two steps succeed. *)
Lemma generated_workflow_is_well_formed_witness :
  ∃ a o' r wf,
    Orchestrator.process_user_message (C := desktop true (Json submit_plan) gibberish)
      "Submit the form" fresh = (Ret a, o') ∧
    Orchestrator.executed a = Some (r, Some wf) ∧
    Orchestrator.tr_success r = true ∧
    Forall Orchestrator.completed (Orchestrator.task_steps o') ∧
    size (Orchestrator.nodes wf) = length (Orchestrator.task_steps o') ∧
    Orchestrator.well_connected wf.
Proof.
  destruct (Orchestrator.process_user_message
              (C := desktop true (Json submit_plan) gibberish) "Submit the form" fresh)
    as [[a|e] o'] eqn:E; [|by vm_compute in E].
  assert (∃ r wf, Orchestrator.executed a = Some (r, Some wf)) as (r & wf & Ex).
  { vm_compute in E. injection E as <- _. eexists _, _. reflexivity. }
  exists a, o', r, wf. split; [reflexivity|]. split; [exact Ex|].
  destruct (generated_workflow_is_well_formed
              (C := desktop true (Json submit_plan) gibberish)
              "Submit the form" fresh a o' r wf E Ex)
    as (H1 & H2 & H3 & _ & H4).
  split_and!; [exact H1 | exact H2 | exact H3 | exact H4].
Defined.

(** C3, counterexample: twenty cycles leave twenty observations, the
    oldest still first, and no number bounds the length of the history. *)
Lemma history_grows_without_bound :
  length (Observer.observation_history
            (Observer.start_observing (C := screen None gibberish) 20 (Observer.init 0)).2)
    = 20 ∧
  Observer.timestamp <$>
    head (Observer.observation_history
            (Observer.start_observing (C := screen None gibberish) 20 (Observer.init 0)).2)
    = Some 1%Z ∧
  ¬ ∃ bound, ∀ cycles,
      length (Observer.observation_history
                (Observer.start_observing (C := screen None gibberish) cycles
                   (Observer.init 0)).2) ≤ bound.
Proof.
  split_and!; [by vm_compute | by vm_compute |].
  intros [bound H]. specialize (H (S bound)).
  destruct (start_observing_spec (C := screen None gibberish) (S bound) (Observer.init 0))
    as (_ & added & Ha & _ & Hend).
  rewrite Ha in H. simpl in H.
  destruct Hend as [Hlen|[e He]]; [lia|].
  assert (∀ n o, (Observer.observe_loop (C := screen None gibberish) n o).1 = Ret tt) as Hok.
  { clear. induction n as [|n IH]; intros o; [done|]. simpl. apply IH. }
  unfold Observer.start_observing in He.
  specialize (Hok (S bound) (Observer.set_observing true (Observer.init 0))).
  destruct (Observer.observe_loop _ _) as [r o']. simpl in *. congruence.
Qed.

(** C4, counterexample: a screen-understanding response that is not JSON
    comes back as an analysis with an empty issue list and an empty
    suggestion list; the cycle completes, records an observation without
    suggestions and emits no error event. *)
Lemma unreadable_analysis_reports_no_issue :
  (Observer._claude_analyze_screen (C := screen None gibberish)
     "iVBORw0KGgo=" [] (Observer.init 0)).1 = Object Observer.analysis_failed ∧
  Observer.reports_no_issue Observer.analysis_failed ∧
  (Observer.observe_once (C := screen None gibberish) (Observer.init 0)).1 = Ret tt ∧
  Observer.debug_suggestions <$>
    last (Observer.observation_history
            (Observer.observe_once (C := screen None gibberish) (Observer.init 0)).2)
    = Some [] ∧
  List.filter Observer.is_error_event
    (Observer.trace (Observer.observe_once (C := screen None gibberish) (Observer.init 0)).2)
    = [].
Proof. split_and!; [|split|..]; reflexivity. Qed.

(** C4 (amended), on services that answer with a text that is not JSON,
    with an empty array, with an array that holds the key searched for,
    and with a sentence. *)
Lemma unreadable_responses_are_handled_witness :
  (Orchestrator._self_debug (C := desktop true gibberish gibberish)
     failed_click login_plan [] fresh).1 = (Ret false, failed_click) ∧
  (Orchestrator._self_debug (C := desktop_with true gibberish (Json (Other empty_array)))
     failed_click login_plan [] fresh).1 = (Ret false, failed_click) ∧
  (Observer._claude_analyze_screen (C := screen None gibberish)
     "iVBORw0KGgo=" [] (Observer.init 0)).1 = Object Observer.analysis_failed ∧
  (Observer._claude_analyze_screen (C := screen_with None (Json (Other array_of_keys)))
     "iVBORw0KGgo=" [] (Observer.init 0)).1 = Object Observer.analysis_failed ∧
  (Observer._claude_analyze_screen (C := screen_with None (Json (Other empty_array)))
     "iVBORw0KGgo=" [] (Observer.init 0)).1 = Other empty_array ∧
  (Observer._claude_analyze_screen (C := screen_with None (Json (Other a_sentence)))
     "iVBORw0KGgo=" [] (Observer.init 0)).1 = Other a_sentence ∧
  (∃ obs,
     Observer.observation_history
       (Observer.observe_once (C := screen None gibberish) (Observer.init 0)).2 = [obs] ∧
     Observer.claude_analysis obs = "Analysis failed" ∧
     Observer.debug_suggestions obs = []) ∧
  (Observer.start_observing (C := screen_with None (Json (Other empty_array))) 3
     (Observer.init 0)).1 = Raise "'list' object has no attribute 'get'" ∧
  Observer.observation_history
    (Observer.start_observing (C := screen_with None (Json (Other empty_array))) 3
       (Observer.init 0)).2 = [].
Proof.
  pose proof (unreadable_responses_are_handled
                (C1 := desktop true gibberish gibberish) (C2 := screen None gibberish))
    as (Ha & Hb & Hc & _ & _).
  pose proof (unreadable_responses_are_handled
                (C1 := desktop_with true gibberish (Json (Other empty_array)))
                (C2 := screen_with None (Json (Other array_of_keys))))
    as (Ha' & Hb' & _).
  pose proof (unreadable_responses_are_handled
                (C1 := desktop true gibberish gibberish)
                (C2 := screen_with None (Json (Other empty_array))))
    as (_ & Hb'' & _ & Hd & _).
  pose proof (unreadable_responses_are_handled
                (C1 := desktop true gibberish gibberish)
                (C2 := screen_with None (Json (Other a_sentence))))
    as (_ & Hs & _).
  split_and!.
  - eapply Ha; [reflexivity|]. left. eexists. reflexivity.
  - eapply Ha'; [reflexivity|]. right. left. eexists. reflexivity.
  - eapply Hb; [reflexivity|]. left. eexists. reflexivity.
  - eapply Hb'; [reflexivity|]. right. eexists. split; [reflexivity | discriminate].
  - eapply Hb''; [reflexivity|]. split; reflexivity.
  - eapply Hs; [reflexivity|]. split; reflexivity.
  - assert (∀ rq w, Observer.caught
                       (Observer.claude_create (Collaborators := screen None gibberish)
                          rq w).1) as Hall.
    { intros rq w. left. eexists. reflexivity. }
    destruct (Hc Hall (Observer.init 0)) as [_ H].
    vm_compute in H. destruct H as (obs & H1 & H2 & _ & H3 & _).
    exists obs. split_and!; [exact H1 | exact H2 | exact H3].
  - assert (∀ rq w, ∃ v, Observer.handed_on
                           (Observer.claude_create
                              (Collaborators := screen_with None (Json (Other empty_array)))
                              rq w).1 v) as Hall.
    { intros rq w. exists empty_array. split; reflexivity. }
    destruct (Hd Hall (Observer.init 0) 2) as (e & He & _ & _).
    rewrite He. vm_compute in He. symmetry. exact He.
  - assert (∀ rq w, ∃ v, Observer.handed_on
                           (Observer.claude_create
                              (Collaborators := screen_with None (Json (Other empty_array)))
                              rq w).1 v) as Hall.
    { intros rq w. exists empty_array. split; reflexivity. }
    destruct (Hd Hall (Observer.init 0) 2) as (e & _ & Hh & _).
    exact Hh.
Defined.

(** C8, on a desktop whose camera is broken and a screen whose detector
    is broken. *)
Lemma sampler_and_detector_failures_witness :
  (∃ rq, last (Orchestrator.trace
                 (Orchestrator._self_debug (C := desktop false gibberish gibberish)
                    failed_click login_plan [] fresh).2)
           = Some (Orchestrator.EvDiagnose rq)) ∧
  (∃ obs, (Observer.observe_once (C := screen (Some false) (Json login_page))
             (Observer.init 0)).1 = Ret tt ∧
          Observer.observation_history
            (Observer.observe_once (C := screen (Some false) (Json login_page))
               (Observer.init 0)).2 = [obs] ∧
          Observer.detected_elements obs = []).
Proof.
  pose proof (sampler_and_detector_failures_are_absorbed
                (C1 := desktop false gibberish gibberish)
                (C2 := screen (Some false) (Json login_page)))
    as [Ha Hb].
  split.
  - destruct (Ha failed_click login_plan [] fresh "screen capture failed" 1
                 eq_refl eq_refl) as (_ & _ & H). exact H.
  - destruct (Hb _ (Observer.init 0) tt 1 1%Z 2 "inference failed" 3 "iVBORw0KGgo="
                 eq_refl eq_refl eq_refl eq_refl eq_refl) as (_ & H).
    vm_compute in H. destruct H as (obs & H1 & H2 & H3).
    exists obs. split_and!; [exact H1 | exact H2 | exact H3].
Defined.

(** C9, on a string without a colon and on an unknown command. *)
Lemma unknown_actions_are_inert_witness :
  (∃ e', Executor._execute_action (C := machine) "hello" idle = (Ret tt, e') ∧
         Executor.world e' = 0) ∧
  (∃ e', Executor._execute_action (C := machine) "dance:now" idle = (Ret tt, e') ∧
         Executor.world e' = 0).
Proof.
  split.
  - destruct (unknown_actions_are_inert (C := machine) "hello" idle)
      as (e' & printed & H1 & H2 & _); [left; reflexivity|].
    exists e'. split; [exact H1 | exact H2].
  - destruct (unknown_actions_are_inert (C := machine) "dance:now" idle)
      as (e' & printed & H1 & H2 & _).
    + right. simpl. unfold Executor.known_commands.
      rewrite !not_elem_of_cons. split_and!; try discriminate. apply not_elem_of_nil.
    + exists e'. split; [exact H1 | exact H2].
Defined.

End ScenarioFacts.

(** * Further properties of the code *)

(** ** The orchestrator *)

Section OrchestratorMore.

Import Orchestrator.
Context {World : Type} {C : Collaborators World}.

(** X1. [_self_debug] never answers [True]: it returns [False], or it
    raises the exception of its diagnostic request; it changes at most the
    arguments of the failed step and leaves the list of steps alone. *)
Theorem self_debug_returns_false_or_raises
    (t : TaskStep) (p : plan) (prev : list step_result) (o : orch World) :
  ((_self_debug t p prev o).1.1 = Ret false ∨
   ∃ e rq w, (_self_debug t p prev o).1.1 = Raise e ∧
             (messages_create rq w).1 = ApiError e) ∧
  (∃ a, (_self_debug t p prev o).1.2 = set_args a t) ∧
  task_steps (_self_debug t p prev o).2 = task_steps o.
Proof.
  split.
  - unfold _self_debug, diagnose_and_fix.
    destruct (take_debug_screenshot o) as [shot o1].
    destruct (messages_create _ _) as [rp w] eqn:E.
    destruct rp as [e|c|[f|v]]; simpl.
    + right. eexists e, _, _. split; [done|]. by rewrite E.
    + by left.
    + left. destruct (apply_fix_frame f t) as [Hne _].
      by destruct (apply_fix f t) as [[[|]|x] t'].
    + by left.
  - destruct (_self_debug t p prev o) as [[r t'] o'] eqn:E.
    by apply self_debug_frame in E as (_ & Ha & Hts).
Qed.

(** An iteration that falls through to the next step made its tool call
    and stored the result. *)
Lemma exec_step_next (p : plan) (sd : step_data) (lc : locals) (o : orch World)
    (lc' : locals) (o' : orch World) :
  exec_step p sd lc o = (Next, lc', o') →
  ∃ v t, results lc' = results lc ++
           [{| step := sd_step_number sd; success := true; sr_result := v |}] ∧
         all_success lc' = all_success lc ∧
         task_steps o' = task_steps o ++ [t] ∧
         result t = Some v ∧ error t = None ∧ tool t = sd_tool sd ∧
         select_client (sd_tool sd) = Ret (sd_tool sd).
Proof.
  unfold exec_step.
  pose proof (begin_step_spec sd o) as (Hts & Hres & _).
  assert (error (begin_step sd o).1 = None ∧ tool (begin_step sd o).1 = sd_tool sd)
    as [Herr Htool].
  { unfold begin_step. by destruct (datetime_now _). }
  destruct (begin_step sd o) as [t o1]. simpl in *.
  pose proof (invoke_task_steps sd o1) as Hinv.
  assert (∀ v o2, invoke sd o1 = (Ret v, o2) →
            select_client (sd_tool sd) = Ret (sd_tool sd)) as Hsel.
  { unfold invoke, select_client. intros v o2.
    repeat case_bool_decide; simpl; done. }
  destruct (invoke sd o1) as [[v|e] o2] eqn:Ei; simpl in *.
  - intros [= <- <-]. exists v, (set_status "completed" (set_result v t)).
    split_and!; simpl; try done.
    + by rewrite task_steps_notify, Hinv, Hts.
    + by eapply Hsel.
  - unfold mark_failed, recover.
    destruct (_self_debug _ _ _ _) as [[r t'] o3] eqn:E.
    apply self_debug_frame in E as (Hne & _ & _).
    by destruct r as [[|]|x].
Qed.

Lemma exec_steps_next (p : plan) (sds : list step_data) (lc : locals) (o : orch World)
    (lc' : locals) (o' : orch World) :
  exec_steps p sds lc o = (Next, lc', o') →
  ∃ new ts, results lc' = results lc ++ new ∧
            step <$> new = sd_step_number <$> sds ∧
            all_success lc' = all_success lc ∧
            task_steps o' = task_steps o ++ ts ∧
            Forall (fun t => is_Some (result t) ∧ error t = None ∧
                             select_client (tool t) = Ret (tool t)) ts.
Proof.
  revert lc o. induction sds as [|sd rest IH]; intros lc o; simpl.
  - intros [= <- <-]. exists [], []. by rewrite !app_nil_r.
  - destruct (exec_step p sd lc o) as [[[] lc1] o1] eqn:E1; [|done..].
    apply exec_step_next in E1 as (v & t & Hr & Hs & Hts & Hv & He & Ht & Hsel).
    intros E2. apply IH in E2 as (new & ts & Hr2 & Hn & Hs2 & Hts2 & Hall).
    eexists (_ :: new), (t :: ts). split_and!.
    + by rewrite Hr2, Hr, <- app_assoc.
    + rewrite !fmap_cons. simpl. by rewrite Hn.
    + congruence.
    + by rewrite Hts2, Hts, <- app_assoc.
    + constructor; [|done]. rewrite Hv, Ht. eauto.
Qed.

(** X2. The success flag of a task result is true exactly when the result
    has an entry for every step of the plan; the entries then carry the
    plan's step numbers in plan order. *)
Theorem success_means_every_step_returned
    (p : plan) (o : orch World) (r : task_result) (o' : orch World) :
  _execute_plan p o = (Ret r, o') →
  (tr_success r = true ↔ length (tr_steps r) = length (steps p)) ∧
  (tr_success r = true → step <$> tr_steps r = sd_step_number <$> steps p).
Proof.
  intros H.
  pose proof (execute_plan_spec p o r o' H) as (_ & _ & _ & Hfalse).
  assert (tr_success r = true → step <$> tr_steps r = sd_step_number <$> steps p) as Hord.
  { revert H. unfold _execute_plan.
    destruct (exec_steps _ _ _ _) as [[f lc] o1] eqn:E.
    destruct f; [| |done]; intros [= <- <-]; simpl; intros Hs.
    - apply exec_steps_next in E as (new & ts & Hr & Hn & _). simpl in Hr. by rewrite Hr.
    - apply exec_steps_spec in E as (ts & _ & _ & _ & _ & Hb).
      destruct (Hb eq_refl) as [Hb' Hb'']. congruence. }
  split; [|done]. split.
  - intros Hs. apply Hord in Hs.
    by rewrite <- (length_fmap step), Hs, length_fmap.
  - intros Hlen. destruct (tr_success r); [done|].
    specialize (Hfalse eq_refl). lia.
Qed.

Lemma filter_all {A : Type} (P : A → Prop) `{!∀ x, Decision (P x)} (l : list A) :
  Forall P l → filter P l = l.
Proof.
  induction 1 as [|x l Hx _ IH]; [done|].
  by rewrite filter_cons_True, IH.
Qed.

(** X3. The failure message of [_format_response] always names the same
    number twice: for a result of [_execute_plan] whose success flag is
    false it reads "Completed n of n steps", n being the number of entries,
    whatever the number of steps of the plan. *)
Theorem failure_message_counts_coincide
    (p : plan) (o : orch World) (r : task_result) (o' : orch World)
    (wf : option workflow) :
  _execute_plan p o = (Ret r, o') →
  tr_success r = false →
  _format_response r wf =
    "✗ **Task partially completed**" +:+ nl +:+ nl +:+
    "Completed " +:+ pretty (length (tr_steps r)) +:+
    " of " +:+ pretty (length (tr_steps r)) +:+ " steps." +:+ nl +:+ nl +:+
    "Some steps failed. Would you like me to try a different approach?" ∧
  length (tr_steps r) < length (steps p).
Proof.
  intros H Hs.
  apply execute_plan_spec in H as (Hr & _ & _ & Hlt). split; [|auto].
  unfold _format_response. rewrite Hs.
  rewrite (filter_all (fun s => success s = true)); [done|].
  rewrite Hr. apply Forall_forall. intros x Hx.
  apply list_elem_of_omap in Hx as ([sd t] & _ & Hx).
  unfold entry_of in Hx. simpl in Hx. destruct (result t); by simplify_eq/=.
Qed.

(** *** The workflow of an arbitrary list of steps *)

Lemma workflow_items_nodes (i : nat) (ts : list TaskStep) (n : node) :
  n ∈ (workflow_items i ts).1 ↔
  ∃ j t, ts !! j = Some t ∧ completed t ∧ n = make_node (i + j) t.
Proof.
  revert i. induction ts as [|t ts IH]; intros i; simpl.
  - split; [by intros ?%elem_of_nil | by intros (j & t & ? & _)].
  - specialize (IH (S i)). destruct (workflow_items (S i) ts) as [ns cs]. simpl in *.
    case_bool_decide as Hc; simpl.
    + rewrite elem_of_cons, IH. split.
      * intros [->|(j & t' & ? & ? & ->)].
        -- exists 0, t. by rewrite Nat.add_0_r.
        -- exists (S j), t'. by rewrite Nat.add_succ_r.
      * intros ([|j] & t' & Hj & Hc' & ->); simpl in Hj.
        -- left. simplify_eq. by rewrite Nat.add_0_r.
        -- right. exists j, t'. by rewrite Nat.add_succ_r.
    + rewrite IH. split.
      * intros (j & t' & ? & ? & ->). exists (S j), t'. by rewrite Nat.add_succ_r.
      * intros ([|j] & t' & Hj & Hc' & ->); simpl in Hj.
        -- by simplify_eq.
        -- exists j, t'. by rewrite Nat.add_succ_r.
Qed.

Lemma workflow_items_ids (i : nat) (ts : list TaskStep) :
  NoDup (id <$> (workflow_items i ts).1) ∧
  length (workflow_items i ts).1 = length (filter completed ts).
Proof.
  revert i. induction ts as [|t ts IH]; intros i; simpl.
  - split; [constructor | done].
  - destruct (IH (S i)) as [IH1 IH2].
    pose proof (workflow_items_nodes (S i) ts) as Hin.
    destruct (workflow_items (S i) ts) as [ns cs]. simpl in *.
    case_bool_decide as Hc; simpl.
    + rewrite filter_cons_True by done. simpl. split; [|by rewrite IH2].
      apply NoDup_cons. split; [|done].
      intros (n & Hid & Hn)%list_elem_of_fmap.
      apply Hin in Hn as (j & t' & _ & _ & ->). simpl in Hid.
      apply node_id_inj in Hid. lia.
    + rewrite filter_cons_False by done. done.
Qed.

Lemma index_nodes_lookup_iff (ns : list node) (k : string) (n : node) :
  NoDup (id <$> ns) →
  index_nodes ns !! k = Some n ↔ n ∈ ns ∧ id n = k.
Proof.
  intros Hnd. split.
  - intros Hk.
    assert (k ∈ dom (index_nodes ns)) as Hdom by (apply elem_of_dom; eauto).
    unfold index_nodes in Hdom.
    rewrite index_nodes_acc_dom, dom_empty_L, (left_id_L ∅ (∪)) in Hdom.
    apply elem_of_list_to_set, list_elem_of_fmap in Hdom as (n' & -> & Hn').
    rewrite (index_nodes_lookup ns n' Hnd Hn') in Hk. by simplify_eq.
  - intros [Hn <-]. by apply index_nodes_lookup.
Qed.

Lemma generate_workflow_lookup
    (p : plan) (r : task_result) (o : orch World) (k : string) (n : node) :
  nodes (_generate_workflow p r o).1 !! k = Some n ↔
  ∃ i t, k = node_id i ∧ task_steps o !! i = Some t ∧ completed t ∧
         n = make_node i t.
Proof.
  unfold _generate_workflow.
  pose proof (workflow_items_nodes 0 (task_steps o)) as Hin.
  pose proof (workflow_items_ids 0 (task_steps o)) as [Hnd Hlen].
  destruct (workflow_items 0 (task_steps o)) as [ns cs].
  destruct (datetime_now (world o)) as [now w]. simpl in *.
  rewrite index_nodes_lookup_iff by done. rewrite Hin. split.
  - intros [(j & t & Hj & Hc & ->) <-]. by exists j, t.
  - intros (i & t & -> & Hi & Hc & ->). split; [|done]. by exists i, t.
Qed.

(** X4. Whatever the list of recorded steps, the node map of
    [_generate_workflow] holds exactly the nodes made from the completed
    steps, each under the id that carries the step's position in the list
    (positions of steps that are not completed are left out, not
    renumbered); its size is the number of completed steps. *)
Theorem workflow_nodes_are_the_completed_steps
    (p : plan) (r : task_result) (o : orch World) (k : string) (n : node) :
  (nodes (_generate_workflow p r o).1 !! k = Some n ↔
   ∃ i t, k = node_id i ∧ task_steps o !! i = Some t ∧ completed t ∧
          n = make_node i t) ∧
  size (nodes (_generate_workflow p r o).1) = length (filter completed (task_steps o)).
Proof.
  split; [apply generate_workflow_lookup|].
  unfold _generate_workflow.
  pose proof (workflow_items_ids 0 (task_steps o)) as [Hnd Hlen].
  destruct (workflow_items 0 (task_steps o)) as [ns cs].
  destruct (datetime_now (world o)) as [now w]. simpl in *.
  by rewrite index_nodes_size.
Qed.

(** X5. In a workflow that [process_user_message] attaches to a result
    every node has the default type: the type is looked up under the
    step's tool, which for a step that was called is one of "desktop",
    "browser" and "vision", none of them a key of the mapping. *)
Theorem attached_workflow_has_default_node_types
    (message : string) (o : orch World) (a : answer) (o' : orch World)
    (r : task_result) (wf : workflow) (k : string) (n : node) :
  process_user_message message o = (Ret a, o') →
  executed a = Some (r, Some wf) →
  nodes wf !! k = Some n →
  type n = "nodes.basic.BasicNodeA".
Proof.
  unfold process_user_message.
  destruct (_understand_and_plan _ _) as [[[p|]|e] o1]; [| |done].
  2:{ by intros [= <- <-]. }
  destruct (_execute_plan p o1) as [[r'|e] o2] eqn:E; [|done].
  destruct (tr_success r') eqn:Hs; [|by intros [= <- <-]].
  pose proof (generate_workflow_lookup p r' o2 k n) as Hn.
  destruct (_generate_workflow p r' o2) as [wf' o3]. simpl in *.
  intros [= <- <-]. simpl. intros [= <- <-] Hk.
  apply Hn in Hk as (i & t & -> & Hi & _ & ->).
  unfold _execute_plan in E.
  destruct (exec_steps _ _ _ _) as [[f lc] o4] eqn:E'.
  destruct f; [| |done]; injection E as <- <-; simpl in Hs.
  - apply exec_steps_next in E' as (new & ts & _ & _ & _ & Hts & Hall).
    simpl in Hts. rewrite Hts in Hi.
    eapply Forall_lookup_1 in Hall as (_ & _ & Hsel); [|done].
    simpl. unfold select_client in Hsel.
    case_bool_decide as Htool; [|done].
    destruct Htool as [->|[->| ->]]; reflexivity.
  - apply exec_steps_spec in E' as (ts & _ & _ & _ & _ & Hb).
    destruct (Hb eq_refl) as [Hb' Hb'']. congruence.
Qed.

(** *** The conversation *)

Lemma history_notify_orch (b : bool) (ev : event) (o : orch World) :
  conversation_history (notify b ev o) = conversation_history o.
Proof. by destruct b. Qed.

Lemma self_debug_history (t : TaskStep) (p : plan) (prev : list step_result)
    (o : orch World) :
  conversation_history (_self_debug t p prev o).2 = conversation_history o.
Proof.
  unfold _self_debug, diagnose_and_fix.
  pose proof (take_debug_screenshot_frame o) as [_ Hh].
  destruct (take_debug_screenshot o) as [shot o1]. simpl in *.
  destruct (messages_create _ _) as [rp w].
  destruct (parse_and_apply rp t) as [b s]. done.
Qed.

Lemma exec_step_history (p : plan) (sd : step_data) (lc : locals) (o : orch World) :
  conversation_history (exec_step p sd lc o).2 = conversation_history o.
Proof.
  unfold exec_step, begin_step, invoke.
  destruct (datetime_now _) as [now w]. simpl.
  assert (∀ b ev ev' (w' : World),
            conversation_history
              (notify b ev (set_world w'
                 (notify on_step_update ev' (set_world w o))))
            = conversation_history o) as Hfail.
  { intros. rewrite history_notify_orch. simpl. by rewrite history_notify_orch. }
  assert (∀ e t (x : orch World),
            conversation_history x = conversation_history o →
            conversation_history (recover e t p lc x).2 = conversation_history o) as Hrec.
  { intros e t x Hx. unfold recover.
    pose proof (self_debug_history t p (results lc) x) as H.
    destruct (_self_debug t p (results lc) x) as [[[[|]|y] t'] o3];
      simpl in *; rewrite ?history_notify_orch; congruence. }
  destruct (select_client _) as [c|e]; simpl.
  - destruct (call_tool _ _ _ _) as [[v|e] w']; simpl.
    + rewrite history_notify_orch. simpl. by rewrite history_notify_orch.
    + apply Hrec. rewrite history_notify_orch. simpl. by rewrite history_notify_orch.
  - apply Hrec. by rewrite !history_notify_orch.
Qed.

Lemma exec_steps_history (p : plan) (sds : list step_data) (lc : locals) (o : orch World) :
  conversation_history (exec_steps p sds lc o).2 = conversation_history o.
Proof.
  revert lc o. induction sds as [|sd rest IH]; intros lc o; simpl; [done|].
  pose proof (exec_step_history p sd lc o) as H.
  destruct (exec_step p sd lc o) as [[[] lc1] o1]; simpl in *; [|done..].
  by rewrite IH.
Qed.

Lemma execute_plan_history (p : plan) (o : orch World) :
  conversation_history (_execute_plan p o).2 = conversation_history o.
Proof.
  unfold _execute_plan.
  pose proof (exec_steps_history p (steps p) init_locals (set_task_steps [] o)) as H.
  by destruct (exec_steps _ _ _ _) as [[[] lc] o1].
Qed.

(** X6. A call of [process_user_message] that runs a plan to its end adds
    exactly two turns to the conversation, the user's message and then the
    text it returns; that text is the one [_format_response] makes of the
    result, and a workflow is attached exactly when the result's success
    flag is true. *)
Theorem conversation_records_both_turns
    (message : string) (o : orch World) (a : answer) (o' : orch World)
    (r : task_result) (wf : option workflow) :
  process_user_message message o = (Ret a, o') →
  executed a = Some (r, wf) →
  conversation_history o' =
    conversation_history o ++ [("user", message); ("assistant", response a)] ∧
  response a = _format_response r wf ∧
  (is_Some wf ↔ tr_success r = true).
Proof.
  unfold process_user_message, _understand_and_plan. simpl.
  destruct (plan_create _ _) as [[e|c|p] w]; simpl; [done | by intros [= <- <-] |].
  match goal with |- context [_execute_plan p ?x] =>
    pose proof (execute_plan_history p x) as Hh;
    destruct (_execute_plan p x) as [[r'|e] o2] end; [|done].
  simpl in Hh. rewrite history_notify_orch in Hh. simpl in Hh.
  destruct (tr_success r') eqn:Hs.
  - unfold _generate_workflow.
    destruct (workflow_items _ _) as [ns cs]. destruct (datetime_now _) as [now w'].
    intros [= <- <-]. simpl. intros [= <- <-].
    rewrite history_notify_orch. simpl. rewrite Hh, <- app_assoc.
    split_and!; [done | done |]. rewrite Hs. split; [done | eauto].
  - intros [= <- <-]. simpl. intros [= <- <-].
    rewrite history_notify_orch, Hh, <- app_assoc.
    split_and!; [done | done |]. rewrite Hs. split; [by intros [? ?] | done].
Qed.

(** X7. When the planner's answer is not JSON, [process_user_message]
    returns its apology and runs nothing: the list of steps is untouched,
    the only request made is the planner's, the user's message is the only
    turn added to the conversation (the apology is not recorded), and the
    end of thinking is never announced. *)
Theorem unreadable_plan_runs_nothing
    (message : string) (o : orch World) (content : string) (w : World) :
  plan_create (conversation_history o ++ [("user", message)]) (world o)
    = (NotJson content, w) →
  ∃ o', process_user_message message o =
          (Ret {| response :=
                    "I'm sorry, I couldn't understand your request. Could you rephrase it?";
                  executed := None |}, o') ∧
        conversation_history o' = conversation_history o ++ [("user", message)] ∧
        task_steps o' = task_steps o ∧
        world o' = w ∧
        trace o' =
          trace o ++
          (if on_thinking_start
           then [EvThinkingStart "Understanding your request..."] else []) ++
          [EvPlan (conversation_history o ++ [("user", message)])].
Proof.
  intros H. unfold process_user_message, _understand_and_plan.
  rewrite history_notify_orch, world_notify. simpl. rewrite H.
  eexists. split; [done|]. simpl.
  rewrite history_notify_orch, task_steps_notify. simpl.
  split_and!; [done | done | done |].
  unfold notify. destruct on_thinking_start; simpl; by rewrite <- ?app_assoc.
Qed.

(** X8. A step whose tool type is none of "desktop", "browser" and
    "vision", or whose client is missing, is never called: the orchestrator
    object is untouched by the attempt, which raises the matching message;
    the step is recorded in error with that message and without a result,
    no entry is added, and the loop is left. *)
Theorem unavailable_tool_is_not_called
    (p : plan) (sd : step_data) (lc : locals) (o : orch World) :
  sd_tool sd ∉ ["desktop"; "browser"; "vision"] ∨ sd_tool sd ∉ mcp_clients →
  ∃ msg,
    (msg = "Unknown tool type: " +:+ sd_tool sd ∨
     msg = "MCP client for '" +:+ sd_tool sd +:+ "' not available") ∧
    (∀ o1, invoke sd o1 = (Raise msg, o1)) ∧
    ∃ t, task_steps (exec_step p sd lc o).2 = task_steps o ++ [t] ∧
         status t = "error" ∧ error t = Some msg ∧ result t = None ∧
         results (exec_step p sd lc o).1.2 = results lc ∧
         all_success (exec_step p sd lc o).1.2 = false ∧
         (exec_step p sd lc o).1.1 ≠ Next.
Proof.
  intros H.
  assert (∃ msg, (msg = "Unknown tool type: " +:+ sd_tool sd ∨
                  msg = "MCP client for '" +:+ sd_tool sd +:+ "' not available") ∧
                 select_client (sd_tool sd) = Raise msg) as (msg & Hmsg & Hsel).
  { unfold select_client. case_bool_decide as H1.
    - case_bool_decide as H2; [|eauto].
      destruct H as [H|H]; [|done]. exfalso. apply H.
      rewrite !elem_of_cons. tauto.
    - eauto. }
  exists msg. split; [done|].
  assert (∀ o1, invoke sd o1 = (Raise msg, o1)) as Hinv.
  { intros o1. unfold invoke. by rewrite Hsel. }
  split; [done|].
  unfold exec_step.
  pose proof (begin_step_spec sd o) as (Hts & Hres & _).
  destruct (begin_step sd o) as [t o1]. simpl in *. rewrite Hinv.
  unfold mark_failed, recover.
  match goal with |- context [_self_debug ?t ?p ?r ?x] =>
    destruct (_self_debug t p r x) as [[r' t'] o3] eqn:E end.
  apply self_debug_frame in E as (Hne & [a ->] & Hts3).
  rewrite task_steps_notify, Hts in Hts3.
  destruct r' as [[|]|x]; [done| |]; simpl;
    rewrite ?task_steps_notify, Hts3; eexists; by split_and!.
Qed.

(** X19. A call of [process_user_message] that raises has recorded the
    user's message and nothing after it: the conversation ends with a user
    turn that has no answer.  The exception is that of the planning
    request or one that escaped from the run of the plan. *)
Theorem raising_call_leaves_the_user_turn
    (message : string) (o : orch World) (e : string) (o' : orch World) :
  process_user_message message o = (Raise e, o') →
  conversation_history o' = conversation_history o ++ [("user", message)] ∧
  ((plan_create (conversation_history o ++ [("user", message)]) (world o)).1
     = ApiError e ∨
   ∃ p o1, (plan_create (conversation_history o ++ [("user", message)]) (world o)).1
             = Json p ∧
           _execute_plan p o1 = (Raise e, o')).
Proof.
  unfold process_user_message, _understand_and_plan.
  rewrite history_notify_orch, world_notify. simpl.
  destruct (plan_create _ _) as [[x|c|p] w]; simpl; [| done |].
  - intros [= <- <-]. simpl. rewrite history_notify_orch. simpl. split; [done | by left].
  - match goal with |- context [_execute_plan p ?x] =>
      pose proof (execute_plan_history p x) as Hh;
      destruct (_execute_plan p x) as [[r'|x'] o2] eqn:E end.
    + destruct (tr_success r'); [|done].
      by destruct (_generate_workflow p r' o2).
    + intros [= <- <-]. simpl in Hh. rewrite history_notify_orch in Hh. simpl in Hh.
      split; [done|]. right. eauto.
Qed.

End OrchestratorMore.

(** ** The observer *)

Section ObserverMore.

Import Observer.
Context {World Screenshot : Type} {C : Collaborators World Screenshot}.

Lemma seen_learn_pattern (o : observer World) (pattern l : string) :
  seen (pattern_db (learn_pattern o pattern)) l =
    seen (pattern_db o) l + (if decide (pattern = l) then 1 else 0).
Proof.
  rewrite learn_pattern_db. unfold seen.
  destruct (decide (pattern = l)) as [->|Hne].
  - rewrite lookup_insert_eq. destruct (pattern_db o !! l); simpl; lia.
  - rewrite lookup_insert_ne by done. lia.
Qed.

(** X9. [_learn_patterns] counts: after it, the count of every label is
    its count before plus the number of times the label occurs in the list
    (an unknown label counting as 0), and the labels of the table are
    those it had together with those of the list. *)
Theorem learning_counts_occurrences
    (patterns : list string) (o : observer World) (l : string) :
  seen (pattern_db (_learn_patterns patterns o)) l =
    seen (pattern_db o) l + occurrences l patterns ∧
  dom (pattern_db (_learn_patterns patterns o)) =
    dom (pattern_db o) ∪ list_to_set patterns.
Proof.
  unfold _learn_patterns, occurrences. revert o.
  induction patterns as [|p ps IH]; intros o; simpl.
  - split; [lia | by rewrite (right_id_L ∅ (∪))].
  - destruct (IH (learn_pattern o p)) as [IH1 IH2]. split.
    + rewrite IH1, seen_learn_pattern.
      destruct (decide (p = l)) as [->|Hne].
      * rewrite filter_cons_True by done. simpl. lia.
      * rewrite filter_cons_False by done. lia.
    + rewrite IH2, learn_pattern_db, dom_insert_L.
      by rewrite (assoc_L (∪)), (comm_L (∪) {[p]}).
Qed.

Lemma str_take_length (n : nat) (s : string) :
  String.length (str_take n s) = min n (String.length s).
Proof.
  revert s. induction n as [|n IH]; intros [|c s]; simpl; [done..|].
  by rewrite IH.
Qed.

Lemma str_take_prefix (n : nat) (s : string) :
  String.prefix (str_take n s) s = true.
Proof.
  revert s. induction n as [|n IH]; intros [|c s]; simpl; [done..|].
  destruct (ascii_dec c c); [apply IH | done].
Qed.

(** X10. The context sent with a screen-understanding request is bounded:
    it holds the first detections, at most ten of them, and the last
    observations, at most three of them and oldest first, each with its
    time and with a prefix of its analysis of at most a hundred
    characters. *)
Theorem request_context_is_bounded
    (b64 : string) (detected : list element) (o : observer World) :
  rq_elements (build_request b64 detected o) = take 10 detected ∧
  length (rq_elements (build_request b64 detected o)) = min 10 (length detected) ∧
  length (rq_history (build_request b64 detected o))
    = min 3 (length (observation_history o)) ∧
  (rq_history (build_request b64 detected o)).*1
    = timestamp <$> drop (length (observation_history o) - 3) (observation_history o) ∧
  Forall2 (fun x obs => String.length x.2 ≤ 100 ∧
                        String.prefix x.2 (claude_analysis obs) = true)
          (rq_history (build_request b64 detected o))
          (drop (length (observation_history o) - 3) (observation_history o)).
Proof.
  unfold build_request, last_n. cbn [rq_elements rq_history]. split_and!.
  - done.
  - by rewrite length_take.
  - rewrite length_map, length_drop. lia.
  - rewrite <- list_fmap_compose. done.
  - apply Forall2_fmap_l, Forall_Forall2_diag, Forall_forall. intros obs _.
    unfold compose. cbn beta. cbn [snd].
    rewrite str_take_length, str_take_prefix. split; [lia | done].
Qed.

Lemma learn_patterns_trace (patterns : list string) (o : observer World) :
  trace (_learn_patterns patterns o) = trace o.
Proof. apply learn_patterns_spec. Qed.

Lemma analyze_trace (b64 : string) (detected : list element) (o : observer World) :
  trace (_claude_analyze_screen b64 detected o).2
    = trace o ++ [EvAnalyze (build_request b64 detected o)].
Proof.
  unfold _claude_analyze_screen.
  destruct (claude_create _ _) as [[e|c|[a|v]] w]; simpl; [done | done | |].
  - destruct (patterns_observed a) as [ps|]; simpl; by rewrite ?learn_patterns_trace.
  - by destruct (str_in _ v) as [[|]|].
Qed.

Lemma observe_and_analyze_trace (shot : Screenshot) (o : observer World) :
  ∃ extra, trace (_observe_and_analyze shot o).2 = trace o ++ extra ∧
           Forall (fun ev => is_error_event ev = false ∧
                             is_suggestion_event ev = false) extra.
Proof.
  unfold _observe_and_analyze.
  destruct (datetime_now (world o)) as [now w].
  set (o1 := set_world w o).
  assert (∃ d o2 extra,
            match yolo_model with
            | Some _ => _detect_ui_elements shot o1
            | None => ([], o1)
            end = (d, o2) ∧ trace o2 = trace o ++ extra ∧
            Forall (fun ev => is_error_event ev = false ∧
                              is_suggestion_event ev = false) extra)
    as (d & o2 & extra & -> & Ht & Hex).
  { destruct yolo_model as [model|] eqn:E.
    - unfold _detect_ui_elements. rewrite E.
      destruct (model shot (world o1)) as [[boxes|e] w'];
        eexists _, _, [EvDetect]; (split_and!; [done | done | by repeat constructor]).
    - exists [], o1, []. rewrite app_nil_r. by split_and!. }
  destruct (screenshot_to_base64 shot) as [b64|e]; simpl; [|eauto].
  pose proof (analyze_trace b64 d o2) as Ha.
  destruct (_claude_analyze_screen b64 d o2) as [[a|v] o3]; simpl in *;
    eexists (extra ++ [_]); rewrite Ha, Ht, <- app_assoc; (split; [done|]);
    apply Forall_app; (split; [done | by repeat constructor]).
Qed.

(** X11. A completed cycle appends one observation and ends with the
    sleep of the configured interval.  It emits an error event exactly
    when the observation carries at least one debug suggestion and the
    callback is set, with that non-empty list, and a suggestion event
    exactly when the observation carries a non-empty next action and the
    callback is set; it emits at most one of each. *)
Theorem cycle_notifications (o o' : observer World) :
  observe_once o = (Ret tt, o') →
  ∃ obs, observation_history o' = observation_history o ++ [obs] ∧
         last (trace o') = Some (EvSleep observation_interval) ∧
         List.filter is_error_event (trace o') =
           List.filter is_error_event (trace o) ++
           (if truthy_list (debug_suggestions obs) && on_error_detected
            then [EvErrorDetected (debug_suggestions obs)] else []) ∧
         List.filter is_suggestion_event (trace o') =
           List.filter is_suggestion_event (trace o) ++
           (if truthy_str (suggested_next_action obs) && on_suggestion
            then [EvSuggestion (default "" (suggested_next_action obs))] else []).
Proof.
  unfold observe_once.
  destruct (grab (world o)) as [[shot|e] w]; [|done]. simpl.
  set (o1 := log EvGrab (set_world w o)).
  destruct (observe_and_analyze_spec shot o1) as [_ Hh].
  destruct (observe_and_analyze_trace shot o1) as (extra & Ht & Hex).
  destruct (_observe_and_analyze shot o1) as [[obs|e] o2]; [|done]. simpl in *.
  intros [= <-]. exists obs. simpl.
  assert (List.filter is_error_event extra = [] ∧
          List.filter is_suggestion_event extra = []) as [He Hs].
  { clear -Hex. induction Hex as [|ev extra [H1 H2] _ [IH1 IH2]]; [done|].
    simpl. by rewrite H1, H2. }
  split_and!.
  - rewrite !history_notify. simpl. by rewrite Hh.
  - by rewrite last_snoc.
  - unfold notify. simpl.
    destruct on_observation, (truthy_str _ && on_suggestion),
      (truthy_list _ && on_error_detected); simpl;
      rewrite ?List.filter_app, Ht, ?List.filter_app, He; simpl;
      by rewrite ?app_nil_r.
  - unfold notify. simpl.
    destruct on_observation, (truthy_str _ && on_suggestion),
      (truthy_list _ && on_error_detected); simpl;
      rewrite ?List.filter_app, Ht, ?List.filter_app, Hs; simpl;
      by rewrite ?app_nil_r.
Qed.

Context {D : Debugger World}.

(** X12. [debug_failure] raises only when the screenshot cannot be
    encoded.  Otherwise it returns either the fixed dictionary of its
    [except] branch, whose list of fixes is empty, or a diagnosis that has
    its diagnosis and root cause and a first fix with a strategy and a
    likelihood; so a caller that takes the first fix of a non-empty list
    finds its strategy.  It changes neither the history nor the pattern
    table. *)
Theorem debug_failure_answers
    (error_message expected_state : string) (shot : Screenshot) (o : observer World) :
  match (debug_failure error_message expected_state shot o).1 with
  | Raise e => screenshot_to_base64 shot = Raise e
  | Ret d =>
      (d = could_not_diagnose ∨ reportable d = true) ∧
      (top_fix_strategy d = None ∨ ∃ st, top_fix_strategy d = Some (Ret st))
  end ∧
  observation_history (debug_failure error_message expected_state shot o).2
    = observation_history o ∧
  pattern_db (debug_failure error_message expected_state shot o).2 = pattern_db o.
Proof.
  unfold debug_failure.
  destruct (screenshot_to_base64 shot) as [b64|e]; simpl; [|done].
  assert (∃ d o2, match yolo_model with
                  | Some _ => _detect_ui_elements shot o
                  | None => ([], o)
                  end = (d, o2) ∧ pattern_db o2 = pattern_db o ∧
                  observation_history o2 = observation_history o) as (d & o2 & -> & Hdb & Hh).
  { destruct yolo_model eqn:E.
    - destruct (detect_frame shot o) as [? ?].
      destruct (_detect_ui_elements shot o) as [d o2]. by exists d, o2.
    - by exists [], o. }
  destruct (debug_create _ _) as [[e|c|[dg|v]] w]; simpl.
  1,2,4: split_and!; [by left | by left | done | done].
  destruct (reportable dg) eqn:Hr; simpl.
  - split_and!; [by right | | done | done].
    unfold reportable in Hr. unfold top_fix_strategy.
    destruct (dg_diagnosis dg), (dg_root_cause dg), (dg_fixes dg) as [[|f fs]|];
      try done.
    destruct (strategy f); [right; eauto | done].
  - split_and!; [by left | by left | done | done].
Qed.

End ObserverMore.

(** ** The action interpreter *)

Section ExecutorMore.

Import Executor.
Context {World : Type} {C : Collaborators World}.

Lemma prefix_empty (s : string) : String.prefix "" s = true.
Proof. by destruct s. Qed.

Lemma str_contains_char_cons (x c : ascii) (s : string) :
  str_contains (String x "") (String c s) =
    Ascii.eqb c x || str_contains (String x "") s.
Proof.
  unfold str_contains.
  change (String.index 0 (String x "") (String c s)) with
    (if match ascii_dec x c with
        | left _ => String.prefix "" s
        | right _ => false
        end
     then Some 0
     else match String.index 0 (String x "") s with
          | Some n => Some (S n)
          | None => None
          end).
  destruct (ascii_dec x c) as [<-|Hne].
  - by rewrite prefix_empty, Ascii.eqb_refl.
  - assert (Ascii.eqb c x = false) as -> by (apply Ascii.eqb_neq; congruence).
    simpl. by destruct (String.index 0 (String x "") s).
Qed.

Lemma str_contains_colon_cons (c : ascii) (s : string) :
  str_contains ":" (String c s) = Ascii.eqb c ":" || str_contains ":" s.
Proof. apply str_contains_char_cons. Qed.

(** X13. Splitting at the first colon loses nothing: for an action that
    holds a colon, command, colon and parameter put together give the
    action back, and the command holds no colon. *)
Theorem split_colon_round_trip (action : string) :
  str_contains ":" action = true →
  action = (split_colon action).1 +:+ ":" +:+ (split_colon action).2 ∧
  str_contains ":" (split_colon action).1 = false.
Proof.
  induction action as [|c s IH]; [done|].
  rewrite str_contains_colon_cons. simpl.
  destruct (Ascii.eqb c ":") eqn:Hc; simpl.
  - intros _. apply Ascii.eqb_eq in Hc as ->. done.
  - intros Hs. destruct (IH Hs) as [IH1 IH2].
    destruct (split_colon s) as [a b]. simpl in *.
    rewrite str_contains_colon_cons, Hc, IH2. split; [|done].
    change (String c a +:+ ":" +:+ b) with (String c (a +:+ ":" +:+ b)).
    by rewrite <- IH1.
Qed.

Lemma split_plus_cons (c : ascii) (s : string) :
  split_plus (String c s) =
    if Ascii.eqb c "+" then "" :: split_plus s
    else match split_plus s with
         | [] => [String c ""]
         | w :: ws => String c w :: ws
         end.
Proof. done. Qed.

Lemma split_plus_nonempty (s : string) : split_plus s ≠ [].
Proof.
  induction s as [|c s IH]; [done|]. rewrite split_plus_cons.
  destruct (Ascii.eqb c "+"); [done|]. by destruct (split_plus s).
Qed.

Lemma split_plus_spec (keys : string) :
  join_plus (split_plus keys) = keys ∧
  split_plus keys ≠ [] ∧
  Forall (fun part => str_contains "+" part = false) (split_plus keys).
Proof.
  split_and!; [| apply split_plus_nonempty |].
  - induction keys as [|c s IH]; [done|]. rewrite split_plus_cons.
    pose proof (split_plus_nonempty s) as Hne.
    destruct (Ascii.eqb c "+") eqn:Hc.
    + apply Ascii.eqb_eq in Hc as ->.
      destruct (split_plus s) as [|w ws]; [done|].
      change (join_plus ("" :: w :: ws)) with ("" +:+ "+" +:+ join_plus (w :: ws)).
      by rewrite IH.
    + destruct (split_plus s) as [|w ws]; [done|].
      destruct ws as [|w' ws]; simpl in *; by rewrite <- IH.
  - induction keys as [|c s IH]; [by repeat constructor|]. rewrite split_plus_cons.
    pose proof (split_plus_nonempty s) as Hne.
    destruct (Ascii.eqb c "+") eqn:Hc; [by constructor|].
    destruct (split_plus s) as [|w ws]; [done|].
    apply Forall_cons in IH as [Hw Hws]. constructor; [|done].
    change "+" with (String "+"%char "") in *.
    by rewrite str_contains_char_cons, Hc, Hw.
Qed.

(** *** What the handlers keep *)

Lemma keeps_log_ret {A : Type} (a : A) : keeps_log (mret a : M World A).
Proof. by intros e. Qed.

Lemma keeps_log_raise {A : Type} (x : string) : keeps_log (raise x : M World A).
Proof. by intros e. Qed.

Lemma keeps_log_emit (ev : event) : keeps_log (emit ev : M World unit).
Proof. by intros e. Qed.

Lemma keeps_log_automate (a : automation) : keeps_log (automate a).
Proof. intros e. unfold automate. by destruct (perform a (world e)). Qed.

Lemma keeps_log_detections : keeps_log detections.
Proof. by intros e. Qed.

Lemma keeps_log_bind {A B : Type} (m : M World A) (k : A → M World B) :
  keeps_log m → (∀ a, keeps_log (k a)) → keeps_log (m ≫= k).
Proof.
  intros Hm Hk e. unfold mbind, exec_bind. specialize (Hm e).
  destruct (m e) as [[a|x] e']; simpl in *; [|done]. by rewrite Hk.
Qed.

Lemma keeps_log_try {A : Type} (m : M World A) (h : string → M World A) :
  keeps_log m → (∀ x, keeps_log (h x)) → keeps_log (try_except m h).
Proof.
  intros Hm Hh e. unfold try_except. specialize (Hm e).
  destruct (m e) as [[a|x] e']; simpl in *; [done|]. by rewrite Hh.
Qed.

Lemma hands_off_ret {A : Type} (a : A) : hands_off (mret a : M World A).
Proof. by intros e. Qed.

Lemma hands_off_raise {A : Type} (x : string) : hands_off (raise x : M World A).
Proof. by intros e. Qed.

Lemma hands_off_print (line : string) : hands_off (print line : M World unit).
Proof.
  intros e. split; [done|]. simpl. rewrite List.filter_app. simpl. by rewrite app_nil_r.
Qed.

Lemma hands_off_sleep (q : Q) : hands_off (sleep q : M World unit).
Proof.
  intros e. split; [done|]. simpl. rewrite List.filter_app. simpl. by rewrite app_nil_r.
Qed.

Lemma hands_off_log_line (line : string) : hands_off (log_line line : M World unit).
Proof. by intros e. Qed.

Lemma hands_off_detections : hands_off detections.
Proof. by intros e. Qed.

Lemma hands_off_bind {A B : Type} (m : M World A) (k : A → M World B) :
  hands_off m → (∀ a, hands_off (k a)) → hands_off (m ≫= k).
Proof.
  intros Hm Hk e. unfold mbind, exec_bind. destruct (Hm e) as [Hw Ht].
  destruct (m e) as [[a|x] e']; simpl in *; [|done].
  destruct (Hk a e') as [Hw' Ht']. split; congruence.
Qed.

Lemma returns_ret {A : Type} (a : A) : returns (mret a : M World A).
Proof. intros e. by exists a. Qed.

Lemma returns_emit (ev : event) : returns (emit ev : M World unit).
Proof. intros e. by exists tt. Qed.

Lemma returns_detections : returns detections.
Proof. intros e. by eexists. Qed.

Lemma returns_bind {A B : Type} (m : M World A) (k : A → M World B) :
  returns m → (∀ a, returns (k a)) → returns (m ≫= k).
Proof.
  intros Hm Hk e. unfold mbind, exec_bind. destruct (Hm e) as [a Ha].
  destruct (m e) as [[a'|x] e']; simpl in *; [|done]. apply Hk.
Qed.

Lemma returns_try {A : Type} (m : M World A) (h : string → M World A) :
  (∀ x, returns (h x)) → returns (try_except m h).
Proof.
  intros Hh e. unfold try_except.
  destruct (m e) as [[a|x] e']; simpl; [by exists a | apply Hh].
Qed.

Lemma handlers_keep_log (param : string) :
  keeps_log (_open_application param) ∧ keeps_log (_create_file param) ∧
  (∀ q, keeps_log (_type_text param q)) ∧ keeps_log (_run_terminal_command param) ∧
  keeps_log (_click_element param) ∧ keeps_log (_press_hotkey param).
Proof.
  split_and!.
  - apply keeps_log_try; [|intros; apply keeps_log_emit].
    apply keeps_log_bind; [apply keeps_log_automate | intros; apply keeps_log_emit].
  - unfold _create_file. destruct pyautogui; [|apply keeps_log_emit].
    repeat (apply keeps_log_bind; [first [apply keeps_log_automate | apply keeps_log_emit]
                                  | intros ?]).
    apply keeps_log_emit.
  - intros q. unfold _type_text. destruct pyautogui; [|apply keeps_log_emit].
    apply keeps_log_bind; [apply keeps_log_automate | intros; apply keeps_log_emit].
  - unfold _run_terminal_command. destruct pyautogui; [|apply keeps_log_emit].
    repeat (apply keeps_log_bind; [apply keeps_log_automate | intros ?]).
    apply keeps_log_emit.
  - unfold _click_element. apply keeps_log_bind; [apply keeps_log_detections|].
    intros found. destruct (found ≫= find_element param) as [el|].
    + destruct (Observer.center el) as [x y].
      apply keeps_log_bind; [apply keeps_log_emit | intros ?].
      apply keeps_log_bind; [|intros; apply keeps_log_emit].
      destruct pyautogui; [apply keeps_log_automate | apply keeps_log_ret].
    + apply keeps_log_bind; [apply keeps_log_emit | intros; apply keeps_log_emit].
  - unfold _press_hotkey. destruct pyautogui; [|apply keeps_log_emit].
    apply keeps_log_bind; [apply keeps_log_automate | intros; apply keeps_log_emit].
Qed.

(** X15. Every action that holds a colon leaves exactly one line in the
    execution log, made of its command and its parameter, whether the
    command is known or not and whether carrying it out raises or not. *)
Theorem every_wellformed_action_is_logged (action : string) (e : executor World) :
  str_contains ":" action = true →
  get_execution_log (_execute_action action e).2 =
    get_execution_log e ++
    ["   " +:+ (split_colon action).1 +:+ ": " +:+ (split_colon action).2].
Proof.
  intros H. unfold _execute_action, get_execution_log. rewrite H. simpl.
  destruct (split_colon action) as [command param]. simpl.
  destruct (handlers_keep_log param) as (Ho & Hc & Ht & Hr & Hk & Hh).
  unfold mbind at 1 2, exec_bind. simpl.
  match goal with |- execution_log (?m ?x).2 = _ =>
    assert (keeps_log m) as Hm; [|by rewrite (Hm x)] end.
  repeat case_bool_decide; try done;
    try (destruct (float_of_string param); [apply keeps_log_emit | apply keeps_log_raise]);
    try (destruct pyautogui; [apply keeps_log_automate | apply keeps_log_ret]);
    try apply keeps_log_emit.
Qed.

(** X16. [open] never fails the action: whatever the process start does,
    an action with the command "open" returns normally, after exactly one
    attempt to start the application's process. *)
Theorem open_never_raises (action : string) (e : executor World) :
  str_contains ":" action = true →
  (split_colon action).1 = "open" →
  (_execute_action action e).1 = Ret tt ∧
  List.filter is_automation (trace (_execute_action action e).2) =
    List.filter is_automation (trace e) ++
    [EvAutomation (open_command (split_colon action).2)].
Proof.
  intros H Hc. unfold _execute_action. rewrite H. simpl.
  destruct (split_colon action) as [command param]. simpl in Hc. subst command.
  unfold mbind, exec_bind. simpl.
  unfold _open_application, try_except, automate, mbind, exec_bind. simpl.
  destruct (perform (open_command param) (world e)) as [[[]|x] w]; simpl;
    rewrite !List.filter_app; simpl; by rewrite ?app_nil_r.
Qed.

Lemma returns_log_line (line : string) : returns (log_line line : M World unit).
Proof. intros e. by exists tt. Qed.

Lemma dry_handlers (param : string) :
  pyautogui = false →
  (hands_off (_create_file param) ∧ returns (_create_file param)) ∧
  (∀ q, hands_off (_type_text param q) ∧ returns (_type_text param q)) ∧
  (hands_off (_run_terminal_command param) ∧ returns (_run_terminal_command param)) ∧
  (hands_off (_click_element param) ∧ returns (_click_element param)) ∧
  (hands_off (_press_hotkey param) ∧ returns (_press_hotkey param)).
Proof.
  intros Hpy.
  unfold _create_file, _type_text, _run_terminal_command, _click_element, _press_hotkey.
  rewrite Hpy.
  repeat apply conj.
  - apply hands_off_print.
  - apply returns_emit.
  - intros q. split; [apply hands_off_print | apply returns_emit].
  - apply hands_off_print.
  - apply returns_emit.
  - apply hands_off_bind; [apply hands_off_detections|].
    intros found. destruct (found ≫= find_element param) as [el|].
    + destruct (Observer.center el) as [x y].
      apply hands_off_bind; [apply hands_off_print | intros ?].
      apply hands_off_bind; [apply hands_off_ret | intros; apply hands_off_sleep].
    + apply hands_off_bind; [apply hands_off_print | intros; apply hands_off_sleep].
  - apply returns_bind; [apply returns_detections|].
    intros found. destruct (found ≫= find_element param) as [el|].
    + destruct (Observer.center el) as [x y].
      apply returns_bind; [apply returns_emit | intros ?].
      apply returns_bind; [apply returns_ret | intros; apply returns_emit].
    + apply returns_bind; [apply returns_emit | intros; apply returns_emit].
  - apply hands_off_print.
  - apply returns_emit.
Qed.

(** X17. Without pyautogui the interpreter is a dry run for every command
    but "open": no automation call is made (the world is the one the
    action started in and no automation event is traced), and the action
    returns normally unless it is a "wait" whose parameter is not a
    number. *)
Theorem dry_run_touches_nothing (action : string) (e : executor World) :
  pyautogui = false →
  (split_colon action).1 ≠ "open" →
  world (_execute_action action e).2 = world e ∧
  List.filter is_automation (trace (_execute_action action e).2) =
    List.filter is_automation (trace e) ∧
  ((_execute_action action e).1 = Ret tt ∨
   ((split_colon action).1 = "wait" ∧ float_of_string (split_colon action).2 = None)).
Proof.
  intros Hpy Hc.
  assert (hands_off (_execute_action action) ∧
          (returns (_execute_action action) ∨
           ((split_colon action).1 = "wait" ∧
            float_of_string (split_colon action).2 = None))) as [Hoff Hret].
  { unfold _execute_action.
    destruct (str_contains ":" action); simpl;
      [|split; [apply hands_off_print | left; apply returns_emit]].
    destruct (split_colon action) as [command param]. simpl in Hc. simpl.
    destruct (dry_handlers param Hpy) as ([? ?] & Ht & [? ?] & [? ?] & [? ?]).
    rewrite (bool_decide_eq_false_2 (command = "open")) by done.
    match goal with |- hands_off (_ ≫= λ _, _ ≫= λ _, ?D) ∧ _ =>
      assert (hands_off D ∧
              (returns D ∨ (command = "wait" ∧ float_of_string param = None)))
        as [HD1 HD2] end.
    { repeat case_bool_decide; try (split; [done | by left]).
      - destruct (Ht (5 # 100)%Q). split; [done | by left].
      - destruct (Ht (1 # 10)%Q). split; [done | by left].
      - destruct (float_of_string param).
        + split; [apply hands_off_sleep | left; apply returns_emit].
        + split; [apply hands_off_raise | by right].
      - rewrite Hpy. split; [apply hands_off_ret | left; apply returns_ret].
      - split; [apply hands_off_print | left; apply returns_emit]. }
    split.
    - apply hands_off_bind; [apply hands_off_print | intros ?].
      apply hands_off_bind; [apply hands_off_log_line | done].
    - destruct HD2 as [HD2|?]; [left | by right].
      apply returns_bind; [apply returns_emit | intros ?].
      apply returns_bind; [apply returns_log_line | done]. }
  destruct (Hoff e) as [Hw Ht]. split_and!; [done | done |].
  destruct Hret as [Hr|?]; [|by right]. left.
  destruct (Hr e) as [[] Ha]. done.
Qed.

(** X14. With pyautogui a "hotkey" action presses one combination, made
    of the parts of its parameter between the plus signs: joined with plus
    signs the keys pressed give the parameter back, there is at least one
    key (an empty parameter gives one empty key), and no key holds a
    plus. *)
Theorem hotkey_presses_the_named_keys (action : string) (e : executor World) :
  pyautogui = true →
  str_contains ":" action = true →
  (split_colon action).1 = "hotkey" →
  ∃ parts,
    List.filter is_automation (trace (_execute_action action e).2) =
      List.filter is_automation (trace e) ++ [EvAutomation (PyHotkey parts)] ∧
    join_plus parts = (split_colon action).2 ∧
    parts ≠ [] ∧
    Forall (fun part => str_contains "+" part = false) parts.
Proof.
  intros Hpy H Hc. unfold _execute_action. rewrite H. simpl.
  destruct (split_colon action) as [command param]. simpl in *. subst command.
  exists (split_plus param). split; [|apply split_plus_spec].
  unfold mbind at 1 2, exec_bind. simpl.
  unfold _press_hotkey. rewrite Hpy.
  unfold automate, mbind, exec_bind. simpl.
  destruct (perform (PyHotkey (split_plus param)) (world e)) as [[[]|x] w]; simpl;
    rewrite !List.filter_app; simpl; by rewrite ?app_nil_r.
Qed.

Lemma find_first_match {A : Type} (f : A → bool) (pre : list A) (x : A) (post : list A) :
  Forall (fun y => f y = false) pre → f x = true →
  List.find f (pre ++ x :: post) = Some x.
Proof.
  induction 1 as [|y pre Hy _ IH]; intros Hx; simpl; [by rewrite Hx|].
  rewrite Hy. by apply IH.
Qed.

Lemma find_no_match {A : Type} (f : A → bool) (l : list A) :
  Forall (fun y => f y = false) l → List.find f l = None.
Proof. induction 1 as [|y l Hy _ IH]; simpl; [done|]. by rewrite Hy. Qed.

(** X18. With pyautogui and an observer that has seen the screen, a
    "click" action clicks once, on the centre of the first detection, in
    the order of the list, whose type contains the description when both
    are put in lower case; when no detection matches it clicks nothing
    and returns normally. *)
Theorem click_lands_on_first_match
    (action : string) (e : executor World) (elems : list Observer.element) :
  pyautogui = true →
  str_contains ":" action = true →
  (split_colon action).1 = "click" →
  latest_detections (world e) = Some elems →
  (∀ pre el post,
     elems = pre ++ el :: post →
     Forall (fun x => str_contains (str_lower (split_colon action).2)
                                   (str_lower (Observer.el_type x)) = false) pre →
     str_contains (str_lower (split_colon action).2)
                  (str_lower (Observer.el_type el)) = true →
     List.filter is_automation (trace (_execute_action action e).2) =
       List.filter is_automation (trace e) ++
       [EvAutomation (PyClick (Observer.center el).1 (Observer.center el).2)]) ∧
  (Forall (fun x => str_contains (str_lower (split_colon action).2)
                                 (str_lower (Observer.el_type x)) = false) elems →
   List.filter is_automation (trace (_execute_action action e).2) =
     List.filter is_automation (trace e) ∧
   (_execute_action action e).1 = Ret tt).
Proof.
  intros Hpy H Hc Hd. unfold _execute_action. rewrite H. simpl.
  destruct (split_colon action) as [command param]. simpl in *. subst command.
  unfold mbind at 1 2, exec_bind. simpl.
  unfold _click_element, detections, mbind, exec_bind. simpl. rewrite Hd. simpl.
  unfold find_element. split.
  - intros pre el post -> Hpre Hel.
    rewrite (find_first_match _ pre el post Hpre Hel).
    destruct (Observer.center el) as [x y]. simpl. rewrite Hpy.
    unfold automate. simpl.
    destruct (perform (PyClick x y) _) as [[[]|err] w]; simpl;
      rewrite !List.filter_app; simpl; by rewrite ?app_nil_r.
  - intros Hall. rewrite (find_no_match _ elems Hall). simpl.
    rewrite !List.filter_app. simpl. by rewrite ?app_nil_r.
Qed.

Lemma stops_ret {A : Type} (a : A) : stops_at_failure (mret a : M World A).
Proof. by intros e x. Qed.

Lemma stops_emit (ev : event) : stops_at_failure (emit ev : M World unit).
Proof. by intros e x. Qed.

Lemma stops_log_line (line : string) : stops_at_failure (log_line line : M World unit).
Proof. by intros e x. Qed.

Lemma stops_detections : stops_at_failure detections.
Proof. by intros e x. Qed.

Lemma stops_automate (a : automation) : stops_at_failure (automate a).
Proof.
  intros e x. unfold automate.
  destruct (perform a (world e)) as [r w] eqn:E. simpl. intros ->.
  exists a, (world e). by rewrite last_snoc.
Qed.

Lemma stops_bind {A B : Type} (m : M World A) (k : A → M World B) :
  stops_at_failure m → (∀ a, stops_at_failure (k a)) → stops_at_failure (m ≫= k).
Proof.
  intros Hm Hk e x. unfold mbind, exec_bind. specialize (Hm e).
  destruct (m e) as [[a|y] e']; simpl in *.
  - apply Hk.
  - intros [= ->]. by apply Hm.
Qed.

Lemma handlers_stop_at_failure (param : string) :
  stops_at_failure (_create_file param) ∧
  (∀ q, stops_at_failure (_type_text param q)) ∧
  stops_at_failure (_run_terminal_command param) ∧
  stops_at_failure (_click_element param) ∧
  stops_at_failure (_press_hotkey param).
Proof.
  split_and!.
  - unfold _create_file. destruct pyautogui; [|apply stops_emit].
    repeat (apply stops_bind; [first [apply stops_automate | apply stops_emit]|intros _]).
    apply stops_emit.
  - intros q. unfold _type_text. destruct pyautogui; [|apply stops_emit].
    apply stops_bind; [apply stops_automate | intros; apply stops_emit].
  - unfold _run_terminal_command. destruct pyautogui; [|apply stops_emit].
    repeat (apply stops_bind; [first [apply stops_automate | apply stops_emit]|intros _]).
    apply stops_emit.
  - unfold _click_element. apply stops_bind; [apply stops_detections|].
    intros found. destruct (found ≫= find_element param) as [el|].
    + destruct (Observer.center el) as [x y].
      apply stops_bind; [apply stops_emit|intros _].
      apply stops_bind; [|intros; apply stops_emit].
      destruct pyautogui; [apply stops_automate | apply stops_ret].
    + apply stops_bind; [apply stops_emit | intros; apply stops_emit].
  - unfold _press_hotkey. destruct pyautogui; [|apply stops_emit].
    apply stops_bind; [apply stops_automate | intros; apply stops_emit].
Qed.

(** X20. An action raises only in two ways: a "wait" whose parameter is
    not a number, or an automation call that raised.  In the second case
    the failing call is the last thing the action did, nothing is
    attempted after it, and the exception is the call's own.  An "open"
    action and an action without a colon never raise. *)
Theorem failed_action_stops_at_the_failing_call
    (action : string) (e : executor World) (x : string) :
  (_execute_action action e).1 = Raise x →
  str_contains ":" action = true ∧
  (split_colon action).1 ≠ "open" ∧
  (((split_colon action).1 = "wait" ∧
    float_of_string (split_colon action).2 = None ∧
    x = "could not convert string to float: '" +:+ (split_colon action).2 +:+ "'") ∨
   ∃ a w, last (trace (_execute_action action e).2) = Some (EvAutomation a) ∧
          perform a w = (Raise x, world (_execute_action action e).2)).
Proof.
  unfold _execute_action.
  destruct (str_contains ":" action); simpl; [|done].
  destruct (split_colon action) as [command param]. simpl.
  destruct (handlers_stop_at_failure param) as (Hc & Ht & Hr & Hk & Hh).
  unfold mbind at 1 2, exec_bind. simpl.
  set (e1 := {| world := world e; execution_log := _; trace := _ |}).
  intros H. split; [done|].
  case_bool_decide as Hopen.
  { exfalso. revert H. unfold _open_application, try_except, mbind, exec_bind, automate.
    simpl. by destruct (perform _ _) as [[[]|y] w]. }
  split; [done|].
  repeat case_bool_decide; subst;
    try (right; first [by apply Hc | by apply Ht | by apply Hr | by apply Hk | by apply Hh]).
  - destruct (float_of_string param) eqn:Hf; [done|].
    left. injection H as <-. done.
  - right. revert H. destruct pyautogui; [apply stops_automate | done].
  - done.
Qed.

End ExecutorMore.

(** ** The further properties on the doubles *)

Section ScenarioMore.

Import Scenario.

(** X2, on a plan whose two steps succeed: the flag is true and the
    entries carry the step numbers 2 and 3. *)
Lemma success_means_every_step_returned_witness :
  ∃ r o',
    Orchestrator._execute_plan (C := desktop true gibberish gibberish) submit_plan fresh
      = (Ret r, o') ∧
    Orchestrator.tr_success r = true ∧
    Orchestrator.step <$> Orchestrator.tr_steps r = [2; 3]%Z.
Proof.
  eexists _, _. split; [reflexivity|].
  destruct (success_means_every_step_returned (C := desktop true gibberish gibberish)
              submit_plan fresh _ _ eq_refl) as [H1 H2].
  split; [exact (proj2 H1 eq_refl) | exact (H2 (proj2 H1 eq_refl))].
Defined.

(** X3, on the login plan, whose first step fails: the message reads
    "Completed 0 of 0 steps" for a plan of three steps. *)
Lemma failure_message_counts_coincide_witness :
  ∃ r o',
    Orchestrator._execute_plan (C := desktop true gibberish gibberish) login_plan fresh
      = (Ret r, o') ∧
    Orchestrator._format_response r None =
      "✗ **Task partially completed**" +:+ Orchestrator.nl +:+ Orchestrator.nl +:+
      "Completed 0 of 0 steps." +:+ Orchestrator.nl +:+ Orchestrator.nl +:+
      "Some steps failed. Would you like me to try a different approach?" ∧
    length (Orchestrator.tr_steps r) < 3.
Proof.
  eexists _, _. split; [reflexivity|].
  exact (failure_message_counts_coincide (C := desktop true gibberish gibberish)
           login_plan fresh _ _ None eq_refl eq_refl).
Defined.

(** X5, on a plan whose first step types text: the node of that step has
    the default type although "type_text" is a key of the mapping. *)
Lemma attached_workflow_has_default_node_types_witness :
  ∃ a o' r wf n,
    Orchestrator.process_user_message (C := desktop true (Json submit_plan) gibberish)
      "Submit the form" fresh = (Ret a, o') ∧
    Orchestrator.executed a = Some (r, Some wf) ∧
    Orchestrator.nodes wf !! "node_0" = Some n ∧
    Orchestrator.name n = "Type the credentials" ∧
    Orchestrator.type n = "nodes.basic.BasicNodeA".
Proof.
  destruct (Orchestrator.process_user_message
              (C := desktop true (Json submit_plan) gibberish) "Submit the form" fresh)
    as [[a|e] o'] eqn:E; [|by vm_compute in E].
  assert (∃ r wf n, Orchestrator.executed a = Some (r, Some wf) ∧
                    Orchestrator.nodes wf !! "node_0" = Some n ∧
                    Orchestrator.name n = "Type the credentials")
    as (r & wf & n & Ex & Hn & Hname).
  { vm_compute in E. injection E as <- _. eexists _, _, _.
    split_and!; [reflexivity | by vm_compute | reflexivity]. }
  exists a, o', r, wf, n. split_and!; [reflexivity | exact Ex | exact Hn | exact Hname |].
  exact (attached_workflow_has_default_node_types
           (C := desktop true (Json submit_plan) gibberish)
           "Submit the form" fresh a o' r wf "node_0" n E Ex Hn).
Defined.

(** X6, on the same run, from an empty conversation. *)
Lemma conversation_records_both_turns_witness :
  ∃ a o' r wf,
    Orchestrator.process_user_message (C := desktop true (Json submit_plan) gibberish)
      "Submit the form" fresh = (Ret a, o') ∧
    Orchestrator.executed a = Some (r, wf) ∧
    Orchestrator.conversation_history o' =
      [("user", "Submit the form"); ("assistant", Orchestrator.response a)] ∧
    Orchestrator.response a = Orchestrator._format_response r wf.
Proof.
  destruct (Orchestrator.process_user_message
              (C := desktop true (Json submit_plan) gibberish) "Submit the form" fresh)
    as [[a|e] o'] eqn:E; [|by vm_compute in E].
  assert (∃ r wf, Orchestrator.executed a = Some (r, wf)) as (r & wf & Ex).
  { vm_compute in E. injection E as <- _. eexists _, _. reflexivity. }
  exists a, o', r, wf. split; [reflexivity|]. split; [exact Ex|].
  destruct (conversation_records_both_turns
              (C := desktop true (Json submit_plan) gibberish)
              "Submit the form" fresh a o' r wf E Ex) as (H1 & H2 & _).
  split; [exact H1 | exact H2].
Defined.

(** X7, on a planner whose answer is not JSON. *)
Lemma unreadable_plan_runs_nothing_witness :
  ∃ o',
    Orchestrator.process_user_message (C := desktop true gibberish gibberish)
      "Do the thing" fresh
      = (Ret {| Orchestrator.response :=
                  "I'm sorry, I couldn't understand your request. Could you rephrase it?";
                Orchestrator.executed := None |}, o') ∧
    Orchestrator.conversation_history o' = [("user", "Do the thing")] ∧
    Orchestrator.task_steps o' = [] ∧
    Orchestrator.world o' = 1.
Proof.
  destruct (unreadable_plan_runs_nothing (C := desktop true gibberish gibberish)
              "Do the thing" fresh _ _ eq_refl) as (o' & H1 & H2 & H3 & H4 & _).
  exists o'. split_and!; [exact H1 | exact H2 | exact H3 | exact H4].
Defined.

(** X8, on a step that asks for telepathy. *)
Lemma unavailable_tool_is_not_called_witness :
  ∃ msg t,
    (msg = "Unknown tool type: telepathy" ∨
     msg = "MCP client for 'telepathy' not available") ∧
    Orchestrator.task_steps
      (Orchestrator.exec_step (C := desktop true gibberish gibberish)
         wishful_plan read_minds Orchestrator.init_locals fresh).2 = [t] ∧
    Orchestrator.status t = "error" ∧
    Orchestrator.error t = Some msg ∧
    Orchestrator.result t = None.
Proof.
  destruct (unavailable_tool_is_not_called (C := desktop true gibberish gibberish)
              wishful_plan read_minds Orchestrator.init_locals fresh)
    as (msg & Hmsg & _ & t & H1 & H2 & H3 & H4 & _).
  { left. apply (bool_decide_unpack _). by vm_compute. }
  exists msg, t. split_and!; [exact Hmsg | exact H1 | exact H2 | exact H3 | exact H4].
Defined.

(** X11, on a screen whose analysis reports an issue with one suggestion
    and an empty next action: one error event, no suggestion event. *)
Lemma cycle_notifications_witness :
  ∃ o' obs,
    Observer.observe_once (C := screen None (Json submit_issue)) (Observer.init 0)
      = (Ret tt, o') ∧
    Observer.observation_history o' = [obs] ∧
    List.filter Observer.is_error_event (Observer.trace o')
      = [Observer.EvErrorDetected ["close the dialog"]] ∧
    List.filter Observer.is_suggestion_event (Observer.trace o') = [].
Proof.
  destruct (Observer.observe_once (C := screen None (Json submit_issue)) (Observer.init 0))
    as [[[]|e] o'] eqn:E; [|by vm_compute in E].
  destruct (cycle_notifications (C := screen None (Json submit_issue)) _ _ E)
    as (obs & H1 & _ & H3 & H4).
  exists o', obs. split; [reflexivity|].
  vm_compute in E. injection E as <-.
  vm_compute in H1. injection H1 as <-.
  split_and!; [reflexivity | exact H3 | exact H4].
Defined.

(** X13, on an action whose parameter holds a colon of its own. *)
Lemma split_colon_round_trip_witness :
  Executor.str_contains ":" "open:C:/tools/editor" = true ∧
  "open:C:/tools/editor" =
    (Executor.split_colon "open:C:/tools/editor").1 +:+ ":" +:+
    (Executor.split_colon "open:C:/tools/editor").2 ∧
  Executor.str_contains ":" (Executor.split_colon "open:C:/tools/editor").1 = false.
Proof.
  split; [reflexivity|].
  apply (split_colon_round_trip "open:C:/tools/editor"). reflexivity.
Defined.

(** X15, on an action whose command is unknown. *)
Lemma every_wellformed_action_is_logged_witness :
  Executor.get_execution_log
    (Executor._execute_action (C := machine) "dance:tango" idle).2
    = ["   dance: tango"].
Proof.
  exact (every_wellformed_action_is_logged (C := machine) "dance:tango" idle eq_refl).
Defined.

(** X16, on a machine that refuses every process start. *)
Lemma open_never_raises_witness :
  (Executor._execute_action (C := locked_down) "open:terminal" idle).1 = Ret tt ∧
  List.filter Executor.is_automation
    (Executor.trace (Executor._execute_action (C := locked_down) "open:terminal" idle).2)
    = [Executor.EvAutomation (Executor.Popen ["open"; "-a"; "Terminal"] false)].
Proof.
  exact (open_never_raises (C := locked_down) "open:terminal" idle eq_refl eq_refl).
Defined.

(** X17, on a machine without pyautogui. *)
Lemma dry_run_touches_nothing_witness :
  Executor.world (Executor._execute_action (C := headless) "hotkey:ctrl+s" idle).2 = 0 ∧
  List.filter Executor.is_automation
    (Executor.trace (Executor._execute_action (C := headless) "hotkey:ctrl+s" idle).2)
    = [].
Proof.
  destruct (dry_run_touches_nothing (C := headless) "hotkey:ctrl+s" idle eq_refl)
    as (H1 & H2 & _).
  { by vm_compute. }
  split; [exact H1 | exact H2].
Defined.

(** X18, on a machine whose observer has seen a text field and then a
    button: "click:button" clicks the centre of the button. *)
Lemma click_lands_on_first_match_witness :
  List.filter Executor.is_automation
    (Executor.trace (Executor._execute_action (C := watched) "click:button" idle).2)
    = [Executor.EvAutomation (Executor.PyClick 230 115)].
Proof.
  destruct (click_lands_on_first_match (C := watched) "click:button" idle
              [text_field; ok_button] eq_refl eq_refl eq_refl eq_refl) as [H _].
  apply (H [text_field] ok_button []);
    [reflexivity | by repeat constructor | reflexivity].
Defined.

(** X14, on a save shortcut. *)
Lemma hotkey_presses_the_named_keys_witness :
  ∃ parts,
    List.filter Executor.is_automation
      (Executor.trace (Executor._execute_action (C := machine) "hotkey:ctrl+shift+s" idle).2)
      = [Executor.EvAutomation (Executor.PyHotkey parts)] ∧
    Executor.join_plus parts = "ctrl+shift+s" ∧
    length parts = 3.
Proof.
  destruct (hotkey_presses_the_named_keys (C := machine) "hotkey:ctrl+shift+s" idle
              eq_refl eq_refl eq_refl) as (parts & H1 & H2 & _).
  exists parts. split; [exact H1|]. split; [exact H2|].
  vm_compute in H1. injection H1 as <-. reflexivity.
Defined.

(** X19, on a run whose diagnostic request fails while the first step of
    the login plan is being recovered. *)
Lemma raising_call_leaves_the_user_turn_witness :
  ∃ e o',
    Orchestrator.process_user_message
      (C := desktop true (Json login_plan) (ApiError "overloaded")) "Log me in" fresh
      = (Raise e, o') ∧
    Orchestrator.conversation_history o' = [("user", "Log me in")].
Proof.
  destruct (Orchestrator.process_user_message
              (C := desktop true (Json login_plan) (ApiError "overloaded"))
              "Log me in" fresh)
    as [[a|e] o'] eqn:E; [by vm_compute in E|].
  exists e, o'. split; [reflexivity|].
  exact (proj1 (raising_call_leaves_the_user_turn
                  (C := desktop true (Json login_plan) (ApiError "overloaded"))
                  "Log me in" fresh e o' E)).
Defined.

(** X20, on a machine that refuses every automation call: creating a
    file stops at its first shortcut. *)
Lemma failed_action_stops_at_the_failing_call_witness :
  (Executor._execute_action (C := locked_down) "create_file:notes.txt" idle).1
    = Raise "Operation not permitted" ∧
  List.filter Executor.is_automation
    (Executor.trace
       (Executor._execute_action (C := locked_down) "create_file:notes.txt" idle).2)
    = [Executor.EvAutomation (Executor.PyHotkey ["ctrl"; "n"])] ∧
  ∃ a w,
    last (Executor.trace
            (Executor._execute_action (C := locked_down) "create_file:notes.txt" idle).2)
      = Some (Executor.EvAutomation a) ∧
    Executor.perform (Collaborators := locked_down) a w
      = (Raise "Operation not permitted",
         Executor.world
           (Executor._execute_action (C := locked_down) "create_file:notes.txt" idle).2).
Proof.
  split; [reflexivity|]. split; [reflexivity|].
  destruct (failed_action_stops_at_the_failing_call (C := locked_down)
              "create_file:notes.txt" idle "Operation not permitted" eq_refl)
    as (_ & _ & [(Hw & _)|H]); [by vm_compute in Hw | exact H].
Defined.

End ScenarioMore.
